(** * Smart-wallet transaction construction: a shallow embedding

    The development follows three modules of the wallet's library code:
    - [coinbase-smart-wallet.ts]: call encoders, [isOwner],
      [createSmartWalletTransaction], [createSmartWalletBatchTransaction],
      owner management calls;
    - [ens-manager.ts]: [isWrappedENS], [tokenIdToNamehash], [getENSInfo],
      [createENSTransferCalls];
    - [nft-manager.ts]: [createNFTTransferCall], [createNFTTransferTransaction].

    Asynchronous code is written in a small monad that threads the log of
    network requests and of console warnings and carries thrown errors
    ([console.log] and [console.error] output is not kept).  The provider is
    a record of answers, one per query: the chain does not change during a
    run.  The ethers ABI coder, which the code calls through
    [ethers.Interface], is modelled after the contract ABI specification
    (head/tail encoding) and ethers' [Reader]; payloads stay the hex strings
    the code handles, addresses and numbers are the values they denote. *)

From Stdlib Require Import ZArith List String Ascii Lia Bool.
From Stdlib Require Import Strings.Byte.
From Stdlib Require Import DecimalString.
From Stdlib Require DecimalFacts DecimalPos DecimalN DecimalZ.
Import ListNotations.
Set Warnings "-register-all".
Local Open Scope Z_scope.

(* ===================================================================== *)
(** ** Bytes and hex strings *)
(* ===================================================================== *)

Definition bytes := list byte.

Definition Z_of_byte (b : byte) : Z := Z.of_N (Byte.to_N b).

Definition byte_of_Z (z : Z) : byte :=
  match Byte.of_N (Z.to_N (z mod 256)) with
  | Some b => b
  | None => x00
  end.

(** Lower-case hex digit of a nibble, as [ethers.hexlify] prints it. *)
Definition hex_digit (n : Z) : ascii :=
  nth (Z.to_nat n) (list_ascii_of_string "0123456789abcdef") "0"%char.

(** Value of a hex digit; both cases are accepted, as by ethers'
    [/^0x([0-9a-f][0-9a-f])*$/i]. *)
Definition digit_of_hex (c : ascii) : option Z :=
  let n := Z.of_nat (nat_of_ascii c) in
  if (48 <=? n) && (n <=? 57) then Some (n - 48)
  else if (97 <=? n) && (n <=? 102) then Some (n - 87)
  else if (65 <=? n) && (n <=? 70) then Some (n - 55)
  else None.

Definition hex_of_byte (b : byte) (rest : string) : string :=
  String (hex_digit (Z_of_byte b / 16))
    (String (hex_digit (Z_of_byte b mod 16)) rest).

Fixpoint hex_body (bs : bytes) : string :=
  match bs with
  | [] => EmptyString
  | b :: r => hex_of_byte b (hex_body r)
  end.

(** [ethers.hexlify]: a [0x]-prefixed lower-case hex string. *)
Definition hexlify (bs : bytes) : string := String "0" (String "x" (hex_body bs)).

Fixpoint parse_hex (s : string) : option bytes :=
  match s with
  | EmptyString => Some []
  | String c1 (String c2 r) =>
      match digit_of_hex c1, digit_of_hex c2, parse_hex r with
      | Some h, Some l, Some bs => Some (byte_of_Z (16 * h + l) :: bs)
      | _, _, _ => None
      end
  | String _ EmptyString => None
  end.

(** [ethers.getBytes] on a string: [None] stands for the thrown
    "invalid BytesLike value". *)
Definition getBytes (s : string) : option bytes :=
  match s with
  | String "0" (String x r) =>
      if (Ascii.eqb x "x" || Ascii.eqb x "X")%bool then parse_hex r else None
  | _ => None
  end.

(** JavaScript [s.slice(0, n)]. *)
Definition slice0 (n : nat) (s : string) : string := substring 0 n s.

(** JavaScript [hay.includes(needle)]. *)
Fixpoint includes (needle hay : string) : bool :=
  if prefix needle hay then true
  else match hay with
       | EmptyString => false
       | String _ r => includes needle r
       end.

(* ===================================================================== *)
(** ** Big-endian words *)
(* ===================================================================== *)

(** The [k] low-order bytes of [n], most significant first. *)
Fixpoint be (k : nat) (n : Z) : bytes :=
  match k with
  | O => []
  | S k' => be k' (n / 256) ++ [byte_of_Z n]
  end.

Definition from_be (bs : bytes) : Z :=
  fold_left (fun acc b => acc * 256 + Z_of_byte b) bs 0.

Definition be32 (n : Z) : bytes := be 32 n.

Definition len (bs : bytes) : Z := Z.of_nat (List.length bs).

(** Zero bytes that fill [n] bytes up to a multiple of 32. *)
Definition padding (n : nat) : bytes :=
  repeat x00 (Z.to_nat ((- Z.of_nat n) mod 32)).

Definition two160 : Z := 2 ^ 160.
Definition two256 : Z := 2 ^ 256.

(* ===================================================================== *)
(** ** Contract ABI encoding (the part of ethers' AbiCoder the code uses) *)
(* ===================================================================== *)

(** An address is kept as the 160-bit number it denotes: ethers accepts
    either letter case for the same account and the code compares addresses
    through [toLowerCase].  The one exception is line 221, which compares
    the target of a call with the wallet's address as text: see
    [preflight]. *)
Definition address := Z.

Definition is_address (a : address) : bool := (0 <=? a) && (a <? two160).
Definition is_uint256 (n : Z) : bool := (0 <=? n) && (n <? two256).

Inductive abi_val : Type :=
| VAddress (a : address)
| VUint256 (n : Z)
| VBytes32 (b : bytes)
| VBytes (b : bytes)
| VTuple (vs : list abi_val)
| VArray (vs : list abi_val).

Fixpoint is_dynamic (v : abi_val) : bool :=
  match v with
  | VBytes _ | VArray _ => true
  | VTuple vs => existsb is_dynamic vs
  | _ => false
  end.

(** ethers' [pack]: static items go in the head, dynamic ones leave their
    offset in the head and their encoding in the tail. *)
Fixpoint pack_from (items : list (bool * bytes)) (off : Z) : bytes * bytes :=
  match items with
  | [] => ([], [])
  | (dyn, e) :: r =>
      if dyn : bool then
        let '(h, t) := pack_from r (off + len e) in (be32 off ++ h, e ++ t)
      else
        let '(h, t) := pack_from r off in (e ++ h, t)
  end.

Definition head_length (items : list (bool * bytes)) : Z :=
  fold_right (fun '(dyn, e) acc => (if dyn : bool then 32 else len e) + acc) 0 items.

Definition pack (items : list (bool * bytes)) : bytes :=
  let '(h, t) := pack_from items (head_length items) in h ++ t.

Fixpoint abi_enc (v : abi_val) : bytes :=
  match v with
  | VAddress a => be32 a
  | VUint256 n => be32 n
  | VBytes32 b => b
  | VBytes b => be32 (len b) ++ b ++ padding (List.length b)
  | VTuple vs => pack (map (fun x => (is_dynamic x, abi_enc x)) vs)
  | VArray vs => be32 (Z.of_nat (List.length vs))
                   ++ pack (map (fun x => (is_dynamic x, abi_enc x)) vs)
  end.

(** [AbiCoder.encode] of an argument list. *)
Definition abi_encode (vs : list abi_val) : bytes := abi_enc (VTuple vs).

(* ===================================================================== *)
(** ** ABI decoding (ethers' [Reader] and coders) *)
(* ===================================================================== *)

Inductive abi_ty : Type :=
| TAddress
| TUint256
| TBytes32
| TBytes
| TTuple (ts : list abi_ty)
| TArray (t : abi_ty).

Fixpoint ty_dynamic (t : abi_ty) : bool :=
  match t with
  | TBytes | TArray _ => true
  | TTuple ts => existsb ty_dynamic ts
  | _ => false
  end.

Fixpoint static_size (t : abi_ty) : Z :=
  match t with
  | TTuple ts => fold_right (fun x acc => static_size x + acc) 0 ts
  | _ => 32
  end.

Fixpoint forall2b {A B : Type} (f : A -> B -> bool) (l1 : list A) (l2 : list B)
  : bool :=
  match l1, l2 with
  | [], [] => true
  | a :: r1, b :: r2 => f a b && forall2b f r1 r2
  | _, _ => false
  end.

(** Does the coder for [t] accept the value?  Range and length checks are
    those of ethers' [AddressCoder], [NumberCoder] and [FixedBytesCoder]. *)
Fixpoint abi_accepts (t : abi_ty) (v : abi_val) : bool :=
  match t, v with
  | TAddress, VAddress a => is_address a
  | TUint256, VUint256 n => is_uint256 n
  | TBytes32, VBytes32 b => (List.length b =? 32)%nat
  | TBytes, VBytes _ => true
  | TTuple ts, VTuple vs => forall2b abi_accepts ts vs
  | TArray t', VArray vs => forallb (abi_accepts t') vs
  | _, _ => false
  end.

Notation "x <-? m ;; k" :=
  (match m with Some x => k | None => None end)
  (at level 61, m at next level, right associativity).

Definition MAX_SAFE_INTEGER : Z := 9007199254740991.

Definition drop (n : Z) (d : bytes) : bytes := skipn (Z.to_nat n) d.

(** [Reader.readBytes]: [None] is the thrown BUFFER_OVERRUN. *)
Definition read_bytes (d : bytes) (n : Z) : option bytes :=
  if n <=? len d then Some (firstn (Z.to_nat n) d) else None.

(** [Reader.readValue]: one 32-byte word as an unsigned number. *)
Definition read_word (d : bytes) : option Z :=
  option_map from_be (read_bytes d 32).

(** [Reader.readIndex]: a word that must be a safe JavaScript integer. *)
Definition read_index (d : bytes) : option Z :=
  w <-? read_word d ;;
  if w <=? MAX_SAFE_INTEGER then Some w else None.

(** Dynamic bytes: [n] bytes, of which the whole 32-byte aligned span must
    be present (the reader is not loose). *)
Definition read_padded (d : bytes) (n : Z) : option bytes :=
  if ((n + 31) / 32) * 32 <=? len d then Some (firstn (Z.to_nat n) d) else None.

(** A coder as [unpack] sees it: whether it is dynamic, the size of its
    static encoding, and its decoder. *)
Definition coder : Type := (bool * Z * (bytes -> option abi_val))%type.

(** ethers' [unpack]: the reader advances through the head from [pos]; a
    dynamic component is read through the offset found in the head, taken
    from the start of [d]. *)
Fixpoint unpack_from (d : bytes) (coders : list coder) (pos : Z)
  : option (list abi_val) :=
  match coders with
  | [] => Some []
  | (dyn, size, dec) :: r =>
      if dyn : bool then
        off <-? read_index (drop pos d) ;;
        v <-? dec (drop off d) ;;
        vs <-? unpack_from d r (pos + 32) ;;
        Some (v :: vs)
      else
        v <-? dec (drop pos d) ;;
        vs <-? unpack_from d r (pos + size) ;;
        Some (v :: vs)
  end.

Definition unpack (d : bytes) (coders : list coder) : option (list abi_val) :=
  unpack_from d coders 0.

(** Decoding of a value of type [t] by a reader standing at the start of
    [d]. *)
Fixpoint abi_dec (t : abi_ty) (d : bytes) : option abi_val :=
  match t with
  | TAddress =>
      w <-? read_word d ;;
      if w <? two160 then Some (VAddress w) else None
  | TUint256 => option_map VUint256 (read_word d)
  | TBytes32 => option_map VBytes32 (read_bytes d 32)
  | TBytes =>
      n <-? read_index d ;;
      option_map VBytes (read_padded (drop 32 d) n)
  | TTuple ts =>
      option_map VTuple
        (unpack d (map (fun x => (ty_dynamic x, static_size x, abi_dec x)) ts))
  | TArray t' =>
      n <-? read_index d ;;
      if n * 32 <=? len d then
        option_map VArray
          (unpack (drop 32 d)
                  (repeat (ty_dynamic t', static_size t', abi_dec t') (Z.to_nat n)))
      else None
  end.

(** The items [pack] is given for a list of values, and the coders
    [unpack] is given for a list of types. *)
Definition items_of (vs : list abi_val) : list (bool * bytes) :=
  map (fun x => (is_dynamic x, abi_enc x)) vs.

Definition coders_of (ts : list abi_ty) : list coder :=
  map (fun x => (ty_dynamic x, static_size x, abi_dec x)) ts.

(** Array elements must occupy at least one word of head, which ethers'
    array coder relies on when it checks the element count. *)
Fixpoint ty_wf (t : abi_ty) : bool :=
  match t with
  | TTuple ts => forallb ty_wf ts
  | TArray t' => ty_wf t' && (ty_dynamic t' || (32 <=? static_size t'))
  | _ => true
  end.

(** What the induction carries for one component: the coder accepts the
    value and decodes its encoding, whatever follows it. *)
Definition decodes (t : abi_ty) (v : abi_val) : Prop :=
  abi_accepts t v = true
  /\ (len (abi_enc v) <= MAX_SAFE_INTEGER ->
      forall rest, abi_dec t (abi_enc v ++ rest) = Some v).

(* ===================================================================== *)
(** ** Errors, outcomes and the request log *)
(* ===================================================================== *)

(** A JavaScript [Error]: the code throws plain errors and tells them apart
    by their message. *)
Record error : Type := Error { message : string }.

Inductive outcome (A : Type) : Type :=
| Ok (a : A)
| Thrown (e : error).
Arguments Ok {A} a.
Arguments Thrown {A} e.

(** Network requests, in the vocabulary of the ethers provider and of the
    contract methods the code calls through [ethers.Contract]. *)
Inductive request : Type :=
| GetCode (a : address)
| GetBalance (a : address)
| GetTransactionCount (a : address)
| GetFeeData
| EstimateGas (from to : address) (data : string) (value : Z)
| EthCall (from to : address) (data : string)
| IsOwnerAddress (wallet account : address)
| Erc721OwnerOf (token : address) (tokenId : Z)
| Erc1155BalanceOf (token account : address) (id : Z)
| Erc20BalanceOf (token account : address)
| Erc20Symbol (token : address)
| Erc20Decimals (token : address)
| RegistryOwner (node : bytes)
| RegistryResolver (node : bytes)
| ResolverAddr (resolver : address) (node : bytes).

Record log : Type := Log {
  requests : list request;
  warnings : list string
}.

Definition empty_log : log := Log [] [].

(** Computations that issue requests, warn on the console and may throw.
    A throw keeps the log: requests already sent stay sent. *)
Definition io (A : Type) : Type := log -> outcome A * log.

Definition ret {A} (a : A) : io A := fun l => (Ok a, l).

Definition throw {A} (e : error) : io A := fun l => (Thrown e, l).

Definition bind {A B} (m : io A) (k : A -> io B) : io B :=
  fun l => match m l with
           | (Ok a, l') => k a l'
           | (Thrown e, l') => (Thrown e, l')
           end.

(** [try { m } catch (e) { h e }]. *)
Definition try_catch {A} (m : io A) (h : error -> io A) : io A :=
  fun l => match m l with
           | (Ok a, l') => (Ok a, l')
           | (Thrown e, l') => h e l'
           end.

(** [console.warn]. *)
Definition warn (s : string) : io unit :=
  fun l => (Ok tt, Log (requests l) (warnings l ++ [s])).

(** One awaited request with the answer the provider gives. *)
Definition ask {A} (r : request) (answer : outcome A) : io A :=
  fun l => (answer, Log (requests l ++ [r]) (warnings l)).

(** The log after some more requests. *)
Definition sent (l : log) (rs : list request) : log :=
  Log (requests l ++ rs) (warnings l).


(** A synchronous call that may throw. *)
Definition lift {A} (o : outcome A) : io A := fun l => (o, l).

(** [Promise.all] of two and of three promises: every request is sent; the
    result is the first rejection in argument order, if any.  When more
    than one promise rejects, [Promise.all] rejects with the one that
    settles first, which the answers of a provider do not tell: nothing
    below states which of two errors is thrown. *)
Definition all2 {A B} (m1 : io A) (m2 : io B) : io (A * B) :=
  fun l =>
    let '(o1, l1) := m1 l in
    let '(o2, l2) := m2 l1 in
    (match o1, o2 with
     | Ok a, Ok b => Ok (a, b)
     | Thrown e, _ => Thrown e
     | _, Thrown e => Thrown e
     end, l2).

Definition all3 {A B C} (m1 : io A) (m2 : io B) (m3 : io C) : io (A * B * C) :=
  fun l =>
    let '(o1, l1) := m1 l in
    let '(o2, l2) := m2 l1 in
    let '(o3, l3) := m3 l2 in
    (match o1, o2, o3 with
     | Ok a, Ok b, Ok c => Ok (a, b, c)
     | Thrown e, _, _ => Thrown e
     | _, Thrown e, _ => Thrown e
     | _, _, Thrown e => Thrown e
     end, l3).

Declare Scope io_scope.
Delimit Scope io_scope with io.
Notation "x <- m ;; k" := (bind m (fun x => k))
  (at level 61, m at next level, right associativity) : io_scope.
Notation "' pat <- m ;; k" := (bind m (fun x => match x with pat => k end))
  (at level 61, pat pattern, m at next level, right associativity) : io_scope.
Notation "m ;;; k" := (bind m (fun _ => k))
  (at level 61, right associativity) : io_scope.

(** Run from an empty log. *)
Definition run {A} (m : io A) : outcome A * log := m empty_log.

(* ===================================================================== *)
(** ** Text rendering used in messages *)
(* ===================================================================== *)

(** [BigInt.prototype.toString] and template interpolation of a number. *)
Definition dec_string (z : Z) : string := NilZero.string_of_int (Z.to_int z).

(** Addresses are printed as 20-byte hex strings in lower case.  The code
    interpolates the text it was given, whose letter case is not kept here:
    this is the text of messages only. *)
Definition show_address (a : address) : string := hexlify (be 20 a).

Fixpoint strip_trailing_zeros (s : string) : string :=
  match s with
  | EmptyString => EmptyString
  | String c r =>
      match strip_trailing_zeros r with
      | EmptyString => if Ascii.eqb c "0" then EmptyString else String c EmptyString
      | r' => String c r'
      end
  end.

Fixpoint zeros (n : nat) : string :=
  match n with
  | O => EmptyString
  | S n' => String "0" (zeros n')
  end.

(** [ethers.formatUnits], after FixedNumber's [toString]: the whole part,
    a point, and the fraction without trailing zeros but with at least one
    digit; no point at all for zero decimals. *)
Definition formatUnits (value : Z) (decimals : nat) : string :=
  match decimals with
  | O => dec_string value
  | _ =>
      let v := Z.abs value in
      let unit := 10 ^ Z.of_nat decimals in
      let frac := dec_string (v mod unit) in
      let padded := (zeros (decimals - String.length frac) ++ frac)%string in
      let stripped :=
        match strip_trailing_zeros padded with
        | EmptyString => "0"%string
        | f => f
        end in
      ((if (value <? 0)%Z then "-" else EmptyString) ++ dec_string (v / unit) ++ "." ++ stripped)%string
  end.

Definition formatEther (value : Z) : string := formatUnits value 18.

(** What [ethers.formatUnits(value, decimals)] checks before it renders:
    [getFormat] refuses more than 80 decimals, and [checkValue] a value
    that does not fit the signed 512-bit format.  Only the beginning of the
    two messages is kept. *)
Definition getFormat (decimals : Z) : outcome unit :=
  if (80 <? decimals)%Z
  then Thrown (Error "invalid FixedNumber decimals (too large)")
  else Ok tt.

Definition checkValue (value : Z) : outcome unit :=
  if (value <? - 2 ^ 511)%Z || (2 ^ 511 <=? value)%Z
  then Thrown (Error "overflow")
  else Ok tt.

(** [ethers.formatUnits] as a call that may throw.  The decimals of a token
    reach it as the [uint8] answer of [decimals()], or as the default 18. *)
Definition formatUnits_call (value decimals : Z) : outcome string :=
  match getFormat decimals with
  | Thrown e => Thrown e
  | Ok _ =>
      match checkValue value with
      | Thrown e => Thrown e
      | Ok _ => Ok (formatUnits value (Z.to_nat decimals))
      end
  end.

(** *** Reading an amount back

    The messages of the code name amounts as [ethers.formatUnits] prints
    them.  What a printed amount says is fixed by reading it back as a
    decimal numeral. *)







(* ===================================================================== *)
(** ** Function fragments of the ABIs the code declares *)
(* ===================================================================== *)

(** A function of a human-readable ABI: its selector (the first four bytes
    of the Keccak-256 hash of the signature) and its input types. *)
Record fragment : Type := Fragment {
  signature : string;
  selector : bytes;
  inputs : list abi_ty
}.

(** COINBASE_SMART_WALLET_ABI *)
Definition execute_fn : fragment :=
  Fragment "execute(address,uint256,bytes)" [xb6; x1d; x27; xf6]
           [TAddress; TUint256; TBytes].
Definition executeBatch_fn : fragment :=
  Fragment "executeBatch((address,uint256,bytes)[])" [x34; xfc; xd5; xbe]
           [TArray (TTuple [TAddress; TUint256; TBytes])].
Definition addOwnerAddress_fn : fragment :=
  Fragment "addOwnerAddress(address)" [x0f; x0f; x3f; x24] [TAddress].
Definition removeOwnerAtIndex_fn : fragment :=
  Fragment "removeOwnerAtIndex(uint256,bytes)" [x89; x62; x5b; x57]
           [TUint256; TBytes].

(** ERC20_ABI *)
Definition transfer_fn : fragment :=
  Fragment "transfer(address,uint256)" [xa9; x05; x9c; xbb] [TAddress; TUint256].

(** ERC721_ABI *)
Definition transferFrom_fn : fragment :=
  Fragment "transferFrom(address,address,uint256)" [x23; xb8; x72; xdd]
           [TAddress; TAddress; TUint256].
Definition safeTransferFrom721_fn : fragment :=
  Fragment "safeTransferFrom(address,address,uint256)" [x42; x84; x2e; x0e]
           [TAddress; TAddress; TUint256].

(** ERC1155_ABI and ENS_NAME_WRAPPER_ABI *)
Definition safeTransferFrom1155_fn : fragment :=
  Fragment "safeTransferFrom(address,address,uint256,uint256,bytes)"
           [xf2; x42; x43; x2a]
           [TAddress; TAddress; TUint256; TUint256; TBytes].

(** ENS_RESOLVER_ABI and ENS_REGISTRY_ABI *)
Definition setAddr_fn : fragment :=
  Fragment "setAddr(bytes32,address)" [xd5; xfa; x2b; x00] [TBytes32; TAddress].
Definition setOwner_fn : fragment :=
  Fragment "setOwner(bytes32,address)" [x5b; x0f; xc9; xc3] [TBytes32; TAddress].

Definition bytes_eqb (a b : bytes) : bool :=
  if list_eq_dec Byte.byte_eq_dec a b then true else false.

(** [Interface.encodeFunctionData]: selector followed by the encoded
    arguments, as a hex string; throws on an argument the coder rejects. *)
Definition encodeFunctionData (f : fragment) (args : list abi_val) : outcome string :=
  if abi_accepts (TTuple (inputs f)) (VTuple args)
  then Ok (hexlify (selector f ++ abi_encode args))
  else Thrown (Error "invalid argument").

(** The function data of accepted arguments. *)
Definition payload (f : fragment) (args : list abi_val) : string :=
  hexlify (selector f ++ abi_encode args).

(** [Interface.decodeFunctionData]: the data must be a hex string that
    starts with the selector of the fragment; the rest is decoded.  The
    messages are ethers' short messages: the details ethers appends to them
    (the hex data, offsets, an error code, its version) are ASCII text and
    hold none of the markers the code searches messages for. *)
Definition decodeFunctionData (f : fragment) (data : string) : outcome (list abi_val) :=
  match getBytes data with
  | None => Thrown (Error "invalid BytesLike value")
  | Some bs =>
      if bytes_eqb (firstn 4 bs) (selector f) then
        match abi_dec (TTuple (inputs f)) (skipn 4 bs) with
        | Some (VTuple vs) => Ok vs
        | _ => Thrown (Error "data out-of-bounds")
        end
      else Thrown (Error ("data signature does not match function "
                            ++ signature f))
  end.

(** An item of the [Result] that [unpack] returns: a value, or an error
    that is kept in the result and thrown only when the item is read. *)
Inductive item : Type :=
| Read (v : abi_val)
| Deferred.

(** One component as [unpack] decodes it.  [None] is the BUFFER_OVERRUN on
    which [unpack] throws at once; every other error of a coder is kept in
    the result: an address word above 160 bits (the coder's [toBeHex]) and a
    byte count that is no safe integer (the coder's [readIndex]).  Tuples and
    arrays are taken as [abi_dec] returns them: the fragments whose results
    the code reads have none. *)
Definition unpack_item (t : abi_ty) (d : bytes) : option item :=
  match t with
  | TAddress =>
      w <-? read_word d ;;
      Some (if w <? two160 then Read (VAddress w) else Deferred)
  | TBytes =>
      n <-? read_word d ;;
      if n <=? MAX_SAFE_INTEGER
      then option_map (fun b => Read (VBytes b)) (read_padded (drop 32 d) n)
      else Some Deferred
  | _ => option_map Read (abi_dec t d)
  end.

(** [unpack] as it fills the [Result]: the offset of a dynamic component is
    read outside the coder's [try], so an offset that is no safe integer
    fails the whole decoding. *)
Fixpoint unpack_items (d : bytes) (ts : list abi_ty) (pos : Z)
  : option (list item) :=
  match ts with
  | [] => Some []
  | t :: r =>
      if ty_dynamic t then
        off <-? read_index (drop pos d) ;;
        v <-? unpack_item t (drop off d) ;;
        vs <-? unpack_items d r (pos + 32) ;;
        Some (v :: vs)
      else
        v <-? unpack_item t (drop pos d) ;;
        vs <-? unpack_items d r (pos + static_size t) ;;
        Some (v :: vs)
  end.

(** [Interface.decodeFunctionData], as the [Result] whose items the caller
    has yet to read. *)
Definition decodeFunctionResult (f : fragment) (data : string)
  : outcome (list item) :=
  match getBytes data with
  | None => Thrown (Error "invalid BytesLike value")
  | Some bs =>
      if bytes_eqb (firstn 4 bs) (selector f) then
        match unpack_items (skipn 4 bs) (inputs f) 0 with
        | Some items => Ok items
        | None => Thrown (Error "data out-of-bounds")
        end
      else Thrown (Error ("data signature does not match function "
                            ++ signature f))
  end.

(** A [bytes] argument given as a hex string. *)
Definition bytes_arg (s : string) : outcome abi_val :=
  match getBytes s with
  | Some bs => Ok (VBytes bs)
  | None => Thrown (Error "invalid BytesLike value")
  end.

(* ===================================================================== *)
(** ** coinbase-smart-wallet.ts *)
(* ===================================================================== *)

Record Call : Type := mkCall {
  target : address;
  value : Z;
  data : string
}.

Record FeeData : Type := mkFeeData {
  maxFeePerGas : option Z;
  maxPriorityFeePerGas : option Z
}.

(** [ethers.TransactionRequest], with the fields the code fills in. *)
Record TransactionRequest : Type := mkTx {
  tx_to : address;
  tx_value : Z;
  tx_data : string;
  tx_nonce : Z;
  tx_chainId : Z;
  tx_type : Z;
  tx_maxFeePerGas : option Z;
  tx_maxPriorityFeePerGas : option Z;
  tx_gasLimit : Z
}.

(** The chain as seen through the provider: the answer, or the rejection,
    of each query. *)
Record provider : Type := mkProvider {
  getCode : address -> outcome string;
  getBalance : address -> outcome Z;
  getTransactionCount : address -> outcome Z;
  getFeeData : outcome FeeData;
  estimateGas : address -> address -> string -> Z -> outcome Z;
  eth_call : address -> address -> string -> outcome string;
  isOwnerAddress : address -> address -> outcome bool;
  erc721_ownerOf : address -> Z -> outcome address;
  erc1155_balanceOf : address -> address -> Z -> outcome Z;
  erc20_balanceOf : address -> address -> outcome Z;
  erc20_symbol : address -> outcome string;
  erc20_decimals : address -> outcome Z;
  registry_owner : bytes -> outcome address;
  registry_resolver : bytes -> outcome address;
  resolver_addr : address -> bytes -> outcome address
}.

Local Open Scope io_scope.

(** [isOwner] (lines 72-89). *)
Definition isOwner (p : provider) (smartWalletAddress ownerAddress : address)
  : io bool :=
  try_catch
    (ask (IsOwnerAddress smartWalletAddress ownerAddress)
         (isOwnerAddress p smartWalletAddress ownerAddress))
    (fun _ => ret false).

(** [createSendETHCall] (lines 121-130). *)
Definition createSendETHCall (recipient : address) (amountWei : Z) : Call :=
  mkCall recipient amountWei "0x".

(** [createSendERC20Call] (lines 135-151). *)
Definition createSendERC20Call (tokenAddress recipient : address) (amountWei : Z)
  : outcome Call :=
  match encodeFunctionData transfer_fn [VAddress recipient; VUint256 amountWei] with
  | Ok d => Ok (mkCall tokenAddress 0 d)
  | Thrown e => Thrown e
  end.

(** [encodeExecuteCall] (lines 156-163). *)
Definition encodeExecuteCall (call : Call) : outcome string :=
  match bytes_arg (data call) with
  | Ok d => encodeFunctionData execute_fn
              [VAddress (target call); VUint256 (value call); d]
  | Thrown e => Thrown e
  end.

Fixpoint call_tuples (calls : list Call) : outcome (list abi_val) :=
  match calls with
  | [] => Ok []
  | c :: r =>
      match bytes_arg (data c), call_tuples r with
      | Ok d, Ok vs => Ok (VTuple [VAddress (target c); VUint256 (value c); d] :: vs)
      | Thrown e, _ => Thrown e
      | _, Thrown e => Thrown e
      end
  end.

(** [encodeExecuteBatchCall] (lines 168-171). *)
Definition encodeExecuteBatchCall (calls : list Call) : outcome string :=
  match call_tuples calls with
  | Ok vs => encodeFunctionData executeBatch_fn [VArray vs]
  | Thrown e => Thrown e
  end.

Local Open Scope string_scope.

(** *** The errors thrown by [createSmartWalletTransaction] *)

Definition chainName (chainId : Z) : string :=
  if (chainId =? 1)%Z then "Ethereum"
  else if (chainId =? 8453)%Z then "Base"
  else "Chain " ++ dec_string chainId.

(** Lines 198-202. *)
Definition AccountNotDeployedError (smartWalletAddress : address) (chainId : Z)
  : error :=
  Error ("❌ ERROR: No contract found at address " ++ show_address smartWalletAddress
         ++ " on " ++ chainName chainId ++ ". "
         ++ "The Smart Wallet may not exist on this network, or the address might be incorrect. "
         ++ "Please verify the Smart Wallet address and network.").

(** Lines 212-215. *)
Definition NotOwnerError (ownerAddress smartWalletAddress : address) : error :=
  Error ("❌ ERROR: " ++ show_address ownerAddress
         ++ " is not the owner of Smart Wallet " ++ show_address smartWalletAddress ++ ". "
         ++ "Please verify the Smart Wallet address in the configuration.").

(** Lines 254-258. *)
Definition NftNotOwnedError (owner smartWalletAddress : address) : error :=
  Error ("❌ ERRORE: Lo Smart Wallet NON possiede questo NFT! "
         ++ "Owner attuale: " ++ show_address owner
         ++ ", Smart Wallet: " ++ show_address smartWalletAddress ++ ". "
         ++ "Verifica il Token ID o che l'NFT non sia già stato trasferito.").

(** Lines 267-271. *)
Definition NftOwnershipUnverifiableError (tokenId : Z) : error :=
  Error ("❌ ERRORE: Impossibile verificare l'ownership dell'NFT. "
         ++ "Il Token ID potrebbe non esistere o il contratto non è un NFT standard. "
         ++ "Token ID: " ++ dec_string tokenId).

(** Lines 295-299. *)
Definition NftSimulationFailedError : error :=
  Error ("❌ ERRORE: Il trasferimento NFT fallirebbe. "
         ++ "Possibili cause: NFT locked, contratto in pausa, o lo Smart Wallet non è approvato. "
         ++ "Controlla il contratto NFT su Etherscan.").

(** Lines 341-345. *)
Definition Erc1155InsufficientError (balance amount : Z) (smartWalletAddress : address)
  : error :=
  Error ("❌ ERRORE: Lo Smart Wallet NON possiede abbastanza di questo token! "
         ++ "Balance: " ++ dec_string balance ++ ", Required: " ++ dec_string amount
         ++ ", Smart Wallet: " ++ show_address smartWalletAddress ++ ". "
         ++ "Verifica il Token ID o che il token non sia già stato trasferito.").

(** Lines 354-358. *)
Definition Erc1155BalanceUnverifiableError (tokenId : Z) : error :=
  Error ("❌ ERRORE: Impossibile verificare il balance dell'ERC-1155. "
         ++ "Il Token ID potrebbe non esistere o il contratto non è un ERC-1155 standard. "
         ++ "Token ID: " ++ dec_string tokenId).

(** Lines 382-386. *)
Definition Erc1155SimulationFailedError : error :=
  Error ("❌ ERRORE: Il trasferimento ERC-1155 fallirebbe. "
         ++ "Possibili cause: Token locked, contratto in pausa, o lo Smart Wallet non è approvato. "
         ++ "Controlla il contratto su Etherscan.").

(** Lines 443-447. *)
Definition Erc20InsufficientError (tokenBalance transferAmount : Z)
  (tokenDecimals : nat) (tokenSymbol : string) : error :=
  Error ("❌ ERRORE: Balance insufficiente. "
         ++ "Hai " ++ formatUnits tokenBalance tokenDecimals ++ " " ++ tokenSymbol ++ " "
         ++ "ma stai cercando di trasferire "
         ++ formatUnits transferAmount tokenDecimals ++ " " ++ tokenSymbol ++ ".").

(** Lines 477-481. *)
Definition Erc20SimulationFailedError (tokenSymbol : string) : error :=
  Error ("❌ ERRORE CRITICO: Il token " ++ tokenSymbol
         ++ " non può essere trasferito dallo Smart Wallet. "
         ++ "Possibili cause: token in pausa, Smart Wallet nella blacklist, o il token richiede approvazioni speciali. "
         ++ "Prova a verificare il contratto del token su Etherscan.").

(** Lines 538-542. *)
Definition GasEstimationFailedError (cause : error) : error :=
  Error ("❌ ERRORE: La transazione fallirebbe on-chain. "
         ++ "Gas estimation fallita. Verifica che lo Smart Wallet abbia abbastanza token "
         ++ "e che il token sia trasferibile. Error: " ++ message cause).

(** Lines 554 and 615.  [ethers.formatEther] renders amounts below
    [2 ^ 511]; what is proved of this message is for such amounts. *)
Definition InsufficientGasFundsError (maxCost ownerBalance : Z) : error :=
  Error ("Fondi insufficienti per il gas. Servono " ++ formatEther maxCost
         ++ " ETH, disponibili " ++ formatEther ownerBalance
         ++ " ETH sull'indirizzo owner (Burner card).").

(** *** Typed views of decoded arguments *)

(** Reading the decoded arguments at their types; the fallback case does
    not arise for values the decoder returns. *)
Definition typed {A} (view : list abi_val -> option A)
  (o : outcome (list abi_val)) : outcome A :=
  match o with
  | Thrown e => Thrown e
  | Ok vs => match view vs with
             | Some a => Ok a
             | None => Thrown (Error "data out-of-bounds")
             end
  end.

(** Lines 236-239 and 433-435 read every item of the [Result] at once, so
    an error kept for an item is thrown there, before any check. *)
Definition decode_transfer (d : string) : outcome (address * Z) :=
  typed (fun vs => match vs with
                   | [VAddress recipient; VUint256 amount] => Some (recipient, amount)
                   | _ => None
                   end)
        (decodeFunctionData transfer_fn d).

Definition decode_transferFrom (d : string) : outcome (address * address * Z) :=
  typed (fun vs => match vs with
                   | [VAddress from; VAddress to; VUint256 tokenId] =>
                       Some (from, to, tokenId)
                   | _ => None
                   end)
        (decodeFunctionData transferFrom_fn d).

(** Lines 322-326: the code reads [decoded[0]] to [decoded[3]] and never
    the trailing [data] argument, so an error kept for that item is never
    thrown; one kept for [from] or [to] is thrown at the read. *)
Definition decode_safeTransferFrom1155 (d : string)
  : outcome (address * address * Z * Z) :=
  match decodeFunctionResult safeTransferFrom1155_fn d with
  | Thrown e => Thrown e
  | Ok [Read (VAddress from); Read (VAddress to); Read (VUint256 tokenId);
        Read (VUint256 amount); _] => Ok (from, to, tokenId, amount)
  | Ok _ => Thrown (Error "deferred error during ABI decoding triggered accessing index")
  end.

Definition decode_removeOwnerAtIndex (d : string) : outcome (Z * string) :=
  typed (fun vs => match vs with
                   | [VUint256 index; VBytes owner] => Some (index, hexlify owner)
                   | _ => None
                   end)
        (decodeFunctionData removeOwnerAtIndex_fn d).

Fixpoint calls_of_tuples (vs : list abi_val) : option (list Call) :=
  match vs with
  | [] => Some []
  | VTuple [VAddress t; VUint256 v; VBytes d] :: r =>
      match calls_of_tuples r with
      | Some cs => Some (mkCall t v (hexlify d) :: cs)
      | None => None
      end
  | _ => None
  end.

(** The calls an [executeBatch] payload carries. *)
Definition decode_executeBatch (d : string) : outcome (list Call) :=
  typed (fun vs => match vs with
                   | [VArray ts] => calls_of_tuples ts
                   | _ => None
                   end)
        (decodeFunctionData executeBatch_fn d).

(** Number of payload bytes of a call, and an upper bound on the size of
    the [executeBatch] encoding of a list of calls. *)
Definition data_len (c : Call) : Z :=
  match getBytes (data c) with
  | Some bs => len bs
  | None => 0%Z
  end.

Definition batch_size (calls : list Call) : Z :=
  fold_right (fun c acc => 224 + data_len c + acc)%Z 64%Z calls.

(** *** Pre-flight checks of [createSmartWalletTransaction] *)

Definition from_mismatch_warnings (from smartWalletAddress : address) : io unit :=
  if negb (from =? smartWalletAddress)%Z then
    warn ("⚠️ [Smart Wallet] 'from' address (" ++ show_address from
          ++ ") doesn't match Smart Wallet (" ++ show_address smartWalletAddress ++ ")") ;;;
    warn "   This might cause the transaction to fail"
  else ret tt.

(** Lines 225-307: the ERC-721 branch. *)
Definition preflightERC721 (p : provider) (smartWalletAddress : address) (call : Call)
  : io unit :=
  try_catch
    ('(from, to, tokenId) <- lift (decode_transferFrom (data call)) ;;
     try_catch
       (owner <- ask (Erc721OwnerOf (target call) tokenId)
                     (erc721_ownerOf p (target call) tokenId) ;;
        if negb (owner =? smartWalletAddress)%Z
        then throw (NftNotOwnedError owner smartWalletAddress)
        else ret tt)
       (fun ownerError =>
          if includes "NON possiede" (message ownerError) then throw ownerError
          else throw (NftOwnershipUnverifiableError tokenId)) ;;;
     from_mismatch_warnings from smartWalletAddress ;;;
     try_catch
       (_ <- ask (EthCall smartWalletAddress (target call) (data call))
                 (eth_call p smartWalletAddress (target call) (data call)) ;;
        ret tt)
       (fun testError => throw NftSimulationFailedError))
    (fun error =>
       if includes "❌ ERRORE" (message error) then throw error
       else warn ("⚠️ [Smart Wallet] Could not complete NFT checks: " ++ message error)).

(** Lines 310-394: the ERC-1155 branch. *)
Definition preflightERC1155 (p : provider) (smartWalletAddress : address) (call : Call)
  : io unit :=
  try_catch
    ('(from, to, tokenId, amount) <- lift (decode_safeTransferFrom1155 (data call)) ;;
     try_catch
       (balance <- ask (Erc1155BalanceOf (target call) smartWalletAddress tokenId)
                       (erc1155_balanceOf p (target call) smartWalletAddress tokenId) ;;
        if (balance <? amount)%Z
        then throw (Erc1155InsufficientError balance amount smartWalletAddress)
        else ret tt)
       (fun balanceError =>
          if includes "NON possiede" (message balanceError) then throw balanceError
          else throw (Erc1155BalanceUnverifiableError tokenId)) ;;;
     from_mismatch_warnings from smartWalletAddress ;;;
     try_catch
       (_ <- ask (EthCall smartWalletAddress (target call) (data call))
                 (eth_call p smartWalletAddress (target call) (data call)) ;;
        ret tt)
       (fun testError => throw Erc1155SimulationFailedError))
    (fun error =>
       if includes "❌ ERRORE" (message error) then throw error
       else warn ("⚠️ [Smart Wallet] Could not complete ERC-1155 checks: " ++ message error)).

(** Lines 397-489: the ERC-20 branch.  The three token queries fall back
    to [0n], ['UNKNOWN'] and [18] with a warning.  Lines 439-440 print the
    balance and the amount with [ethers.formatUnits] before they are
    compared, inside the [try]: what that call throws ends the checks with
    the warning of the handler. *)
Definition preflightERC20 (p : provider) (smartWalletAddress : address) (call : Call)
  : io unit :=
  try_catch
    (tokenBalance <-
       try_catch
         (ask (Erc20BalanceOf (target call) smartWalletAddress)
              (erc20_balanceOf p (target call) smartWalletAddress))
         (fun _ => warn "⚠️ [Smart Wallet] Could not get token balance" ;;; ret 0%Z) ;;
     tokenSymbol <-
       try_catch
         (ask (Erc20Symbol (target call)) (erc20_symbol p (target call)))
         (fun _ => warn "⚠️ [Smart Wallet] Could not get token symbol (non-standard token)" ;;;
                   ret "UNKNOWN") ;;
     tokenDecimals <-
       try_catch
         (ask (Erc20Decimals (target call)) (erc20_decimals p (target call)))
         (fun _ => warn "⚠️ [Smart Wallet] Could not get token decimals, using 18" ;;;
                   ret 18%Z) ;;
     '(recipient, transferAmount) <- lift (decode_transfer (data call)) ;;
     _ <- lift (formatUnits_call tokenBalance tokenDecimals) ;;
     _ <- lift (formatUnits_call transferAmount tokenDecimals) ;;
     (if (tokenBalance <? transferAmount)%Z
      then throw (Erc20InsufficientError tokenBalance transferAmount
                    (Z.to_nat tokenDecimals) tokenSymbol)
      else ret tt) ;;;
     try_catch
       (_ <- ask (EthCall smartWalletAddress (target call) (data call))
                 (eth_call p smartWalletAddress (target call) (data call)) ;;
        ret tt)
       (fun testError => throw (Erc20SimulationFailedError tokenSymbol)))
    (fun error =>
       if includes "Balance insufficiente" (message error)
          || includes "ERRORE CRITICO" (message error)
       then throw error
       else warn ("⚠️ [Smart Wallet] Could not complete token checks: " ++ message error)).

(** Lines 220-490: dispatch on the selector, [call.data.slice(0, 10)].
    The guard of line 221, [call.target !== smartWalletAddress], compares
    two texts; here the two accounts are compared.  The two agree when the
    target is another account, and when it is the wallet spelled as the
    wallet's address is; a target that is the wallet in another letter case
    passes the guard of the code and not this one.  What is proved of the
    checks below is for a target that is another account, or for a payload
    that no branch recognises, where the guard decides nothing. *)
Definition preflight (p : provider) (smartWalletAddress : address) (call : Call)
  : io unit :=
  if negb (target call =? smartWalletAddress)%Z && negb (data call =? "0x") then
    let selector := slice0 10 (data call) in
    if (selector =? "0x42842e0e") || (selector =? "0x23b872dd") then
      preflightERC721 p smartWalletAddress call
    else if selector =? "0xf242432a" then
      preflightERC1155 p smartWalletAddress call
    else if selector =? "0xa9059cbb" then
      preflightERC20 p smartWalletAddress call
    else ret tt
  else ret tt.

Definition forget {A} (o : outcome A) : outcome unit :=
  match o with
  | Ok _ => Ok tt
  | Thrown e => Thrown e
  end.

(** The decoding [preflight] attempts for a payload: none for a selector it
    does not recognise, else whether the arguments decode. *)
Definition decode_recognized (d : string) : option (outcome unit) :=
  let selector := slice0 10 d in
  if (selector =? "0x42842e0e") || (selector =? "0x23b872dd") then
    Some (forget (decode_transferFrom d))
  else if selector =? "0xf242432a" then
    Some (forget (decode_safeTransferFrom1155 d))
  else if selector =? "0xa9059cbb" then
    Some (forget (decode_transfer d))
  else None.

Definition fee_or_zero (f : option Z) : Z :=
  match f with
  | Some x => x
  | None => 0%Z
  end.

(** Lines 546-567 and 607-628: the balance check and the request built. *)
Definition check_funds_and_build (p : provider)
  (smartWalletAddress ownerAddress : address) (chainId : Z)
  (data : string) (nonce : Z) (feeData : FeeData) (gasLimit : Z)
  : io TransactionRequest :=
  ownerBalance <- ask (GetBalance ownerAddress) (getBalance p ownerAddress) ;;
  let maxCost := (gasLimit * fee_or_zero (maxFeePerGas feeData))%Z in
  if (ownerBalance <? maxCost)%Z
  then throw (InsufficientGasFundsError maxCost ownerBalance)
  else ret (mkTx smartWalletAddress 0 data nonce chainId 2
                 (maxFeePerGas feeData) (maxPriorityFeePerGas feeData) gasLimit).

(** The 50% buffer, [(gasLimit * 150n) / 100n] on BigInt. *)
Definition with_buffer (gas : Z) : Z := Z.quot (gas * 150) 100.

(** Lines 505-543: the estimate of the single-call path; a failure is
    rethrown as the gas estimation error. *)
Definition estimateGasOrThrow (p : provider)
  (smartWalletAddress ownerAddress : address) (data : string) : io Z :=
  try_catch
    (gas <- ask (EstimateGas ownerAddress smartWalletAddress data 0)
                (estimateGas p ownerAddress smartWalletAddress data 0) ;;
     ret (with_buffer gas))
    (fun error => throw (GasEstimationFailedError error)).

(** Lines 589-604: the estimate of the batch path; a failure is warned
    about and the default of [300000n] stays. *)
Definition estimateGasOrDefault (p : provider)
  (smartWalletAddress ownerAddress : address) (data : string) : io Z :=
  try_catch
    (gas <- ask (EstimateGas ownerAddress smartWalletAddress data 0)
                (estimateGas p ownerAddress smartWalletAddress data 0) ;;
     ret (with_buffer gas))
    (fun error =>
       warn ("⚠️ [Smart Wallet Batch] Gas estimation failed, using default: "
             ++ message error) ;;;
       ret 300000%Z).

(** [createSmartWalletTransaction] (lines 177-568). *)
Definition createSmartWalletTransaction (p : provider)
  (smartWalletAddress ownerAddress : address) (call : Call) (chainId : Z)
  : io TransactionRequest :=
  code <- ask (GetCode smartWalletAddress) (getCode p smartWalletAddress) ;;
  if code =? "0x" then throw (AccountNotDeployedError smartWalletAddress chainId) else
  isOwnerResult <- isOwner p smartWalletAddress ownerAddress ;;
  if negb isOwnerResult then throw (NotOwnerError ownerAddress smartWalletAddress) else
  preflight p smartWalletAddress call ;;;
  data <- lift (encodeExecuteCall call) ;;
  '(nonce, feeData) <- all2
      (ask (GetTransactionCount ownerAddress) (getTransactionCount p ownerAddress))
      (ask GetFeeData (getFeeData p)) ;;
  gasLimit <- estimateGasOrThrow p smartWalletAddress ownerAddress data ;;
  check_funds_and_build p smartWalletAddress ownerAddress chainId
                        data nonce feeData gasLimit.

(** [createSmartWalletBatchTransaction] (lines 573-629): no bytecode or
    ownership query is made here. *)
Definition createSmartWalletBatchTransaction (p : provider)
  (smartWalletAddress ownerAddress : address) (calls : list Call) (chainId : Z)
  : io TransactionRequest :=
  data <- lift (encodeExecuteBatchCall calls) ;;
  '(nonce, feeData) <- all2
      (ask (GetTransactionCount ownerAddress) (getTransactionCount p ownerAddress))
      (ask GetFeeData (getFeeData p)) ;;
  gasLimit <- estimateGasOrDefault p smartWalletAddress ownerAddress data ;;
  check_funds_and_build p smartWalletAddress ownerAddress chainId
                        data nonce feeData gasLimit.

(** [createAddOwnerTransaction] (lines 804-824); [value: '0'] is zero. *)
Definition createAddOwnerTransaction (smartWalletAddress ownerAddress newOwnerAddress : address)
  (chainId : Z) : outcome Call :=
  match encodeFunctionData addOwnerAddress_fn [VAddress newOwnerAddress] with
  | Ok d => Ok (mkCall smartWalletAddress 0 d)
  | Thrown e => Thrown e
  end.

(** A JavaScript number passed for a [uint256]: ethers takes safe integers
    only. *)
Definition number_arg (n : Z) : outcome abi_val :=
  if (- MAX_SAFE_INTEGER <=? n)%Z && (n <=? MAX_SAFE_INTEGER)%Z
  then Ok (VUint256 n)
  else Thrown (Error "overflow").

(** [createRemoveOwnerTransaction] (lines 829-851). *)
Definition createRemoveOwnerTransaction (smartWalletAddress ownerAddress : address)
  (ownerIndex : Z) (ownerBytes : string) (chainId : Z) : outcome Call :=
  match number_arg ownerIndex, bytes_arg ownerBytes with
  | Ok i, Ok b =>
      match encodeFunctionData removeOwnerAtIndex_fn [i; b] with
      | Ok d => Ok (mkCall smartWalletAddress 0 d)
      | Thrown e => Thrown e
      end
  | Thrown e, _ => Thrown e
  | _, Thrown e => Thrown e
  end.

(* ===================================================================== *)
(** ** ens-manager.ts and nft-manager.ts *)
(* ===================================================================== *)

Module ENS_CONTRACTS.
Definition REGISTRY : address := 0x00000000000C2E074eC69A0dFb2997BA6C7d2e1e%Z.
Definition BASE_REGISTRAR : address := 0x57f1887a8BF19b14fC0dF6Fd9B2acc9Af147eA85%Z.
Definition PUBLIC_RESOLVER : address := 0x231b0Ee14048e9dCcD1d247744d114a4EB5E8E63%Z.
Definition NAME_WRAPPER : address := 0xD4416b13d2b3a9aBae7AcD5D6C2BbDBE25686401%Z.
End ENS_CONTRACTS.

(** [ethers.ZeroAddress]. *)
Definition ZeroAddress : address := 0%Z.

(** [isENSContract] of ens-manager.ts (lines 979-985). *)
Definition isENSContract (contractAddress : address) : bool :=
  (contractAddress =? ENS_CONTRACTS.BASE_REGISTRAR)%Z
  || (contractAddress =? ENS_CONTRACTS.NAME_WRAPPER)%Z.

(** [isWrappedENS] (lines 990-992). *)
Definition isWrappedENS (contractAddress : address) : bool :=
  (contractAddress =? ENS_CONTRACTS.NAME_WRAPPER)%Z.

(** The namehash of [.eth]. *)
Definition ethNamehash : bytes :=
  be32 0x93cdeb708b7545dc668eb9280176169d1c33cfd8ed6f04690a0bcc88a93fc4ae%Z.

Record ENSInfo : Type := mkENSInfo {
  tokenOwner : option address;
  registryOwner : option address;
  ethRecord : option address;
  resolver : option address
}.

(** [createNFTTransferCall] (lines 1298-1337). *)
Definition createNFTTransferCall (nftContractAddress fromAddress toAddress : address)
  (tokenId : Z) : outcome Call :=
  let isWrapped := isWrappedENS nftContractAddress in
  if isWrapped then
    match encodeFunctionData safeTransferFrom1155_fn
            [VAddress fromAddress; VAddress toAddress; VUint256 tokenId;
             VUint256 1; VBytes []] with
    | Ok d => Ok (mkCall nftContractAddress 0 d)
    | Thrown e => Thrown e
    end
  else
    match encodeFunctionData safeTransferFrom721_fn
            [VAddress fromAddress; VAddress toAddress; VUint256 tokenId] with
    | Ok d => Ok (mkCall nftContractAddress 0 d)
    | Thrown e => Thrown e
    end.

Section Keccak.

(** [ethers.keccak256], of which only the digest length matters here. *)
Variable keccak256 : bytes -> bytes.

(** [tokenIdToNamehash] (lines 997-1010): [toBeHex] and [zeroPadValue]
    throw unless the token id fits 32 bytes. *)
Definition tokenIdToNamehash (tokenId : Z) : outcome bytes :=
  if is_uint256 tokenId
  then Ok (keccak256 (ethNamehash ++ be32 tokenId)%list)
  else Thrown (Error "invalid value").

(** [getENSInfo] (lines 1015-1089). *)
Definition getENSInfo (p : provider) (tokenId : Z) (isWrapped : bool) : io ENSInfo :=
  if isWrapped then ret (mkENSInfo None None None None)
  else
    namehash <- lift (tokenIdToNamehash tokenId) ;;
    '(tokenOwner, registryOwner, resolverAddress) <- all3
        (ask (Erc721OwnerOf ENS_CONTRACTS.BASE_REGISTRAR tokenId)
             (erc721_ownerOf p ENS_CONTRACTS.BASE_REGISTRAR tokenId))
        (ask (RegistryOwner namehash) (registry_owner p namehash))
        (ask (RegistryResolver namehash) (registry_resolver p namehash)) ;;
    ethRecord <-
      (if negb (resolverAddress =? ZeroAddress)%Z then
         try_catch
           (a <- ask (ResolverAddr resolverAddress namehash)
                     (resolver_addr p resolverAddress namehash) ;;
            ret (Some a))
           (fun e => warn ("Could not get ETH record: " ++ message e) ;;; ret None)
       else ret None) ;;
    ret (mkENSInfo (Some tokenOwner) (Some registryOwner) ethRecord
                   (Some resolverAddress)).

(** [ensInfo.resolver && ensInfo.resolver !== ethers.ZeroAddress]. *)
Definition has_resolver (r : option address) : bool :=
  match r with
  | Some a => negb (a =? ZeroAddress)%Z
  | None => false
  end.

Definition resolver_or_zero (r : option address) : address :=
  match r with
  | Some a => a
  | None => ZeroAddress
  end.

(** The three calls of an unwrapped transfer (lines 1142-1183). *)
Definition setAddrCall (resolverAddress : address) (namehash : bytes)
  (newOwner : address) : outcome Call :=
  match encodeFunctionData setAddr_fn [VBytes32 namehash; VAddress newOwner] with
  | Ok d => Ok (mkCall resolverAddress 0 d)
  | Thrown e => Thrown e
  end.

Definition setOwnerCall (namehash : bytes) (newOwner : address) : outcome Call :=
  match encodeFunctionData setOwner_fn [VBytes32 namehash; VAddress newOwner] with
  | Ok d => Ok (mkCall ENS_CONTRACTS.REGISTRY 0 d)
  | Thrown e => Thrown e
  end.

Definition registrarTransferCall (currentOwner newOwner : address) (tokenId : Z)
  : outcome Call :=
  match encodeFunctionData safeTransferFrom721_fn
          [VAddress currentOwner; VAddress newOwner; VUint256 tokenId] with
  | Ok d => Ok (mkCall ENS_CONTRACTS.BASE_REGISTRAR 0 d)
  | Thrown e => Thrown e
  end.

(** The single call of a wrapped transfer (lines 1117-1127). *)
Definition wrapperTransferCall (currentOwner newOwner : address) (tokenId : Z)
  : outcome Call :=
  match encodeFunctionData safeTransferFrom1155_fn
          [VAddress currentOwner; VAddress newOwner; VUint256 tokenId;
           VUint256 1; VBytes []] with
  | Ok d => Ok (mkCall ENS_CONTRACTS.NAME_WRAPPER 0 d)
  | Thrown e => Thrown e
  end.

(** [calls.push] of a call whose encoding may throw. *)
Definition push (calls : outcome (list Call)) (c : outcome Call) : outcome (list Call) :=
  match calls with
  | Thrown e => Thrown e
  | Ok cs => match c with
             | Ok x => Ok (cs ++ [x])%list
             | Thrown e => Thrown e
             end
  end.

(** [createENSTransferCalls] (lines 1095-1187). *)
Definition createENSTransferCalls (contractAddress : address) (tokenId : Z)
  (currentOwner newOwner : address) (ensInfo : ENSInfo) : outcome (list Call) :=
  let calls := Ok [] in
  let isWrapped := isWrappedENS contractAddress in
  if isWrapped then
    push calls (wrapperTransferCall currentOwner newOwner tokenId)
  else
    match tokenIdToNamehash tokenId with
    | Thrown e => Thrown e
    | Ok namehash =>
        let calls :=
          if has_resolver (resolver ensInfo)
          then push calls (setAddrCall (resolver_or_zero (resolver ensInfo))
                                       namehash newOwner)
          else calls in
        let calls := push calls (setOwnerCall namehash newOwner) in
        push calls (registrarTransferCall currentOwner newOwner tokenId)
    end.

(** [getENSTransferSteps] (lines 1192-1202). *)
Definition getENSTransferSteps (isWrapped : bool) : list string :=
  if isWrapped then ["Transfer Wrapped ENS Token"]
  else ["Update ETH Record"; "Update Manager (Registry)"; "Transfer NFT Token (Owner)"].

(** [createNFTTransferTransaction] (lines 1343-1416).  The token id string
    is kept as the integer [BigInt(tokenId)] denotes. *)
Definition createNFTTransferTransaction (p : provider)
  (smartWalletAddress ownerAddress nftContractAddress toAddress : address)
  (tokenId : Z) (chainId : Z) : io TransactionRequest :=
  let isENS := isENSContract nftContractAddress in
  if isENS then
    let isWrapped := isWrappedENS nftContractAddress in
    ensInfo <- getENSInfo p tokenId isWrapped ;;
    calls <- lift (createENSTransferCalls nftContractAddress tokenId
                     smartWalletAddress toAddress ensInfo) ;;
    match calls with
    | [c] => createSmartWalletTransaction p smartWalletAddress ownerAddress c chainId
    | _ => createSmartWalletBatchTransaction p smartWalletAddress ownerAddress
             calls chainId
    end
  else
    call <- lift (createNFTTransferCall nftContractAddress smartWalletAddress
                    toAddress tokenId) ;;
    createSmartWalletTransaction p smartWalletAddress ownerAddress call chainId.

End Keccak.

(* ===================================================================== *)
(** ** Concrete chains for the examples *)
(* ===================================================================== *)

Module Scenario.

Definition wallet : address := 0x1111111111111111111111111111111111111111%Z.
Definition signer : address := 0x2222222222222222222222222222222222222222%Z.
Definition friend : address := 0x3333333333333333333333333333333333333333%Z.
Definition token : address := 0xdAC17F958D2ee523a2206206994597C13D831ec7%Z.

Definition gwei : Z := 1000000000.

(** A chain on which the wallet is deployed, the signer owns it and holds
    one ether, and every query succeeds. *)
Definition chain : provider := {|
  getCode := fun _ => Ok "0x6080604052";
  getBalance := fun _ => Ok (10 ^ 18)%Z;
  getTransactionCount := fun _ => Ok 7%Z;
  getFeeData := Ok (mkFeeData (Some (20 * gwei)%Z) (Some gwei));
  estimateGas := fun _ _ _ _ => Ok 100000%Z;
  eth_call := fun _ _ _ => Ok "0x";
  isOwnerAddress := fun _ _ => Ok true;
  erc721_ownerOf := fun _ _ => Ok wallet;
  erc1155_balanceOf := fun _ _ _ => Ok 1%Z;
  erc20_balanceOf := fun _ _ => Ok 1000000%Z;
  erc20_symbol := fun _ => Ok "USDT";
  erc20_decimals := fun _ => Ok 6%Z;
  registry_owner := fun _ => Ok wallet;
  registry_resolver := fun _ => Ok ENS_CONTRACTS.PUBLIC_RESOLVER;
  resolver_addr := fun _ _ => Ok wallet
|}.

Definition with_getCode (f : address -> outcome string) (p : provider) : provider :=
  mkProvider f (getBalance p) (getTransactionCount p) (getFeeData p)
    (estimateGas p) (eth_call p) (isOwnerAddress p) (erc721_ownerOf p)
    (erc1155_balanceOf p) (erc20_balanceOf p) (erc20_symbol p)
    (erc20_decimals p) (registry_owner p) (registry_resolver p)
    (resolver_addr p).


Definition with_estimateGas
  (f : address -> address -> string -> Z -> outcome Z) (p : provider) : provider :=
  mkProvider (getCode p) (getBalance p) (getTransactionCount p) (getFeeData p)
    f (eth_call p) (isOwnerAddress p) (erc721_ownerOf p)
    (erc1155_balanceOf p) (erc20_balanceOf p) (erc20_symbol p)
    (erc20_decimals p) (registry_owner p) (registry_resolver p)
    (resolver_addr p).

Definition with_isOwnerAddress
  (f : address -> address -> outcome bool) (p : provider) : provider :=
  mkProvider (getCode p) (getBalance p) (getTransactionCount p) (getFeeData p)
    (estimateGas p) (eth_call p) f (erc721_ownerOf p)
    (erc1155_balanceOf p) (erc20_balanceOf p) (erc20_symbol p)
    (erc20_decimals p) (registry_owner p) (registry_resolver p)
    (resolver_addr p).

Definition with_registry_resolver (f : bytes -> outcome address) (p : provider)
  : provider :=
  mkProvider (getCode p) (getBalance p) (getTransactionCount p) (getFeeData p)
    (estimateGas p) (eth_call p) (isOwnerAddress p) (erc721_ownerOf p)
    (erc1155_balanceOf p) (erc20_balanceOf p) (erc20_symbol p)
    (erc20_decimals p) (registry_owner p) f (resolver_addr p).


(** No contract at any address. *)
Definition undeployed : provider := with_getCode (fun _ => Ok "0x") chain.

(** Every gas estimate reverts. *)
Definition reverting : provider :=
  with_estimateGas (fun _ _ _ _ => Thrown (Error "execution reverted")) chain.

(** The wallet answers that the signer is not an owner. *)
Definition foreign : provider := with_isOwnerAddress (fun _ _ => Ok false) chain.

(** The owner query cannot be answered. *)
Definition offline : provider :=
  with_isOwnerAddress (fun _ _ => Thrown (Error "network timeout")) chain.



(** A name without resolver. *)
Definition unresolved : provider :=
  with_registry_resolver (fun _ => Ok ZeroAddress) chain.

(** A transfer of 5 units of [token] to [friend], as [createSendERC20Call]
    builds it. *)
Definition transfer_call : Call :=
  mkCall token 0
    "0xa9059cbb00000000000000000000000033333333333333333333333333333333333333330000000000000000000000000000000000000000000000000000000000000005".


(** A stand-in for Keccak-256 in concrete runs: it returns 32 bytes. *)
Definition digest (b : bytes) : bytes := be32 (from_be b).

End Scenario.

(* ===================================================================== *)
(** ** More typed views of payloads *)
(* ===================================================================== *)

(** The call an [execute] payload carries. *)
Definition decode_execute (d : string) : outcome Call :=
  typed (fun vs => match vs with
                   | [VAddress t; VUint256 v; VBytes b] => Some (mkCall t v (hexlify b))
                   | _ => None
                   end)
        (decodeFunctionData execute_fn d).

Definition decode_addOwnerAddress (d : string) : outcome address :=
  typed (fun vs => match vs with
                   | [VAddress a] => Some a
                   | _ => None
                   end)
        (decodeFunctionData addOwnerAddress_fn d).

Definition decode_safeTransferFrom721 (d : string) : outcome (address * address * Z) :=
  typed (fun vs => match vs with
                   | [VAddress from; VAddress to; VUint256 tokenId] =>
                       Some (from, to, tokenId)
                   | _ => None
                   end)
        (decodeFunctionData safeTransferFrom721_fn d).

(* ===================================================================== *)
(** ** When assembly returns a request *)
(* ===================================================================== *)

(** What has to hold for the single-call path to return a request. *)
Definition single_path_passes (p : provider) (wallet owner : address)
  (call : Call) (chainId : Z) (l l' : log) (tx : TransactionRequest) : Prop :=
  exists code d nonce fd gas b l1,
    getCode p wallet = Ok code /\ code <> "0x"%string
    /\ isOwnerAddress p wallet owner = Ok true
    /\ preflight p wallet call (sent l [GetCode wallet; IsOwnerAddress wallet owner])
       = (Ok tt, l1)
    /\ encodeExecuteCall call = Ok d
    /\ getTransactionCount p owner = Ok nonce
    /\ getFeeData p = Ok fd
    /\ estimateGas p owner wallet d 0 = Ok gas
    /\ getBalance p owner = Ok b
    /\ with_buffer gas * fee_or_zero (maxFeePerGas fd) <= b
    /\ tx = mkTx wallet 0 d nonce chainId 2 (maxFeePerGas fd)
                 (maxPriorityFeePerGas fd) (with_buffer gas)
    /\ l' = sent l1 [GetTransactionCount owner; GetFeeData;
                     EstimateGas owner wallet d 0; GetBalance owner].





(* ===================================================================== *)
(** ** Vocabulary for what a run sends *)
(* ===================================================================== *)

(** The requests of assembly proper: account checks, nonce, fees, gas
    estimate and signer balance. *)
Definition administrative (r : request) : bool :=
  match r with
  | GetCode _ | IsOwnerAddress _ _ | GetTransactionCount _ | GetFeeData
  | EstimateGas _ _ _ _ | GetBalance _ => true
  | _ => false
  end.

(** The requests of the batch path. *)
Definition assembling (r : request) : bool :=
  match r with
  | GetTransactionCount _ | GetFeeData | EstimateGas _ _ _ _ | GetBalance _ => true
  | _ => false
  end.

(** Every request a computation adds to the log satisfies [ok]. *)
Definition sends_only (ok : request -> bool) {A} (m : io A) : Prop :=
  forall l, exists rs,
    requests (snd (m l)) = (requests l ++ rs)%list /\ forallb ok rs = true.

Definition answer_or {A} (o : outcome A) (dflt : A) : A :=
  match o with
  | Ok v => v
  | Thrown _ => dflt
  end.

(** The warnings of the three token queries of the ERC-20 branch, in the
    order of the queries. *)
Definition erc20_query_warnings (p : provider) (tokenAddress wallet : address)
  : list string :=
  (match erc20_balanceOf p tokenAddress wallet with
   | Ok _ => []
   | Thrown _ => ["⚠️ [Smart Wallet] Could not get token balance"]
   end
   ++ match erc20_symbol p tokenAddress with
      | Ok _ => []
      | Thrown _ => ["⚠️ [Smart Wallet] Could not get token symbol (non-standard token)"]
      end
   ++ match erc20_decimals p tokenAddress with
      | Ok _ => []
      | Thrown _ => ["⚠️ [Smart Wallet] Could not get token decimals, using 18"]
      end)%list.

(** The log after the three token queries. *)
Definition after_erc20_queries (p : provider) (tokenAddress wallet : address)
  (l : log) : log :=
  Log (requests l ++ [Erc20BalanceOf tokenAddress wallet;
                      Erc20Symbol tokenAddress;
                      Erc20Decimals tokenAddress])
      (warnings l ++ erc20_query_warnings p tokenAddress wallet).

(* ===================================================================== *)
(** ** More concrete chains *)
(* ===================================================================== *)

Module Cases.

Definition with_eth_call (f : address -> address -> string -> outcome string)
  (p : provider) : provider :=
  mkProvider (getCode p) (getBalance p) (getTransactionCount p) (getFeeData p)
    (estimateGas p) f (isOwnerAddress p) (erc721_ownerOf p)
    (erc1155_balanceOf p) (erc20_balanceOf p) (erc20_symbol p)
    (erc20_decimals p) (registry_owner p) (registry_resolver p)
    (resolver_addr p).

Definition with_erc721_ownerOf (f : address -> Z -> outcome address)
  (p : provider) : provider :=
  mkProvider (getCode p) (getBalance p) (getTransactionCount p) (getFeeData p)
    (estimateGas p) (eth_call p) (isOwnerAddress p) f
    (erc1155_balanceOf p) (erc20_balanceOf p) (erc20_symbol p)
    (erc20_decimals p) (registry_owner p) (registry_resolver p)
    (resolver_addr p).


Definition with_erc20_balanceOf (f : address -> address -> outcome Z)
  (p : provider) : provider :=
  mkProvider (getCode p) (getBalance p) (getTransactionCount p) (getFeeData p)
    (estimateGas p) (eth_call p) (isOwnerAddress p) (erc721_ownerOf p)
    (erc1155_balanceOf p) f (erc20_symbol p)
    (erc20_decimals p) (registry_owner p) (registry_resolver p)
    (resolver_addr p).

Definition with_registry_owner (f : bytes -> outcome address) (p : provider)
  : provider :=
  mkProvider (getCode p) (getBalance p) (getTransactionCount p) (getFeeData p)
    (estimateGas p) (eth_call p) (isOwnerAddress p) (erc721_ownerOf p)
    (erc1155_balanceOf p) (erc20_balanceOf p) (erc20_symbol p)
    (erc20_decimals p) f (registry_resolver p) (resolver_addr p).

Definition with_resolver_addr (f : address -> bytes -> outcome address)
  (p : provider) : provider :=
  mkProvider (getCode p) (getBalance p) (getTransactionCount p) (getFeeData p)
    (estimateGas p) (eth_call p) (isOwnerAddress p) (erc721_ownerOf p)
    (erc1155_balanceOf p) (erc20_balanceOf p) (erc20_symbol p)
    (erc20_decimals p) (registry_owner p) (registry_resolver p) f.

(** A chain on which the registrar and the registry name [holder] and
    [manager] for every name, and resolvers answer as [records] says. *)
Definition naming (holder manager : address)
  (records : address -> bytes -> outcome address) (p : provider) : provider :=
  with_erc721_ownerOf (fun _ _ => Ok holder)
    (with_registry_owner (fun _ => Ok manager) (with_resolver_addr records p)).

(** Every simulated call reverts. *)
Definition paused : provider :=
  with_eth_call (fun _ _ _ => Thrown (Error "execution reverted")) Scenario.chain.

(** The token cannot report balances. *)
Definition mute_token : provider :=
  with_erc20_balanceOf (fun _ _ => Thrown (Error "call revert exception"))
    Scenario.chain.

(** Every token of every collection belongs to [friend]. *)
Definition held_by_friend : provider :=
  with_erc721_ownerOf (fun _ _ => Ok Scenario.friend) Scenario.chain.

(** The collection does not know the token. *)
Definition no_such_token : provider :=
  with_erc721_ownerOf (fun _ _ => Thrown (Error "ERC721: invalid token ID"))
    Scenario.chain.


(** A collection that is none of the ENS contracts. *)
Definition collection : address := 0xBC4CA0EdA7647A8aB7C2061c2E118A18a936f13D%Z.

Definition with_erc20_decimals (f : address -> outcome Z) (p : provider)
  : provider :=
  mkProvider (getCode p) (getBalance p) (getTransactionCount p) (getFeeData p)
    (estimateGas p) (eth_call p) (isOwnerAddress p) (erc721_ownerOf p)
    (erc1155_balanceOf p) (erc20_balanceOf p) (erc20_symbol p)
    f (registry_owner p) (registry_resolver p) (resolver_addr p).

(** The token reports 96 decimals, and the wallet holds one unit of it. *)
Definition fine_grained : provider :=
  with_erc20_decimals (fun _ => Ok 96%Z)
    (with_erc20_balanceOf (fun _ _ => Ok 1%Z) Scenario.chain).

End Cases.

(** A multi-token transfer written by hand: the four words of the sender,
    the recipient, the token and the amount, the offset of the [data]
    argument, and [n] as the length of [data], with no byte behind it. *)
Definition oversized_data_transfer (from to tokenId amount n : Z) : string :=
  hexlify (selector safeTransferFrom1155_fn
           ++ be32 from ++ be32 to ++ be32 tokenId ++ be32 amount
           ++ be32 160 ++ be32 n)%list.

(** The two console warnings of a transfer whose [from] is not the wallet. *)
Definition mismatch_notes (from smartWalletAddress : address) : list string :=
  if negb (from =? smartWalletAddress)%Z then
    [("⚠️ [Smart Wallet] 'from' address (" ++ show_address from
      ++ ") doesn't match Smart Wallet (" ++ show_address smartWalletAddress ++ ")");
     "   This might cause the transaction to fail"]
  else [].

(** A log with more console warnings. *)
Definition warned (l : log) (ws : list string) : log :=
  Log (requests l) (warnings l ++ ws).

(* ===================================================================== *)
(** ** The rest of lib/nft-manager.ts *)
(* ===================================================================== *)

(** [createERC1155TransferCall] (lines 1451-1472). *)
Definition createERC1155TransferCall
  (nftContractAddress fromAddress toAddress : address) (tokenId amount : Z)
  : outcome Call :=
  match encodeFunctionData safeTransferFrom1155_fn
          [VAddress fromAddress; VAddress toAddress; VUint256 tokenId;
           VUint256 amount; VBytes []] with
  | Ok d => Ok (mkCall nftContractAddress 0 d)
  | Thrown e => Thrown e
  end.


(** Outcome and requests of a run, without the console. *)
Definition observed {A} (r : outcome A * log) : outcome A * list request :=
  (fst r, requests (snd r)).

(* ===================================================================== *)
(** ** Wallet discovery and owner listing (coinbase-smart-wallet.ts) *)
(* ===================================================================== *)

(** These functions only read.  Their model keeps the answers and the
    errors of the reads; the order of the requests plays no part in what
    they return. *)

Definition and_then {A B} (o : outcome A) (k : A -> outcome B) : outcome B :=
  match o with
  | Ok a => k a
  | Thrown e => Thrown e
  end.

(** [try { ... } catch (e) { ... }] on a result. *)
Definition or_else {A} (o : outcome A) (h : error -> outcome A) : outcome A :=
  match o with
  | Ok a => Ok a
  | Thrown e => h e
  end.

(** An element of the [setups] array, as the filter of line 660 reads it:
    [null] or [undefined], whose field cannot be read; or else its
    [aaWalletAddress] field: missing or falsy, a text [ethers.isAddress]
    rejects, or an address. *)
Inductive json_address : Type :=
| NoSetup
| NoAddress
| NotAnAddress (s : string)
| AnAddress (a : address).

(** What the recovery API does: [fetch] or [response.json()] rejects, the
    status is not ok, or a body arrives whose [setups] field is an array or
    something else. *)
Inductive api_response : Type :=
| FetchFailed (e : error)
| BadStatus (status : Z)
| Body (setups : option (list json_address)).

(** The reads of discovery beyond those of [provider]: the recovery API and
    the factories' [getAddress(owners, nonce)]. *)
Record directory : Type := mkDirectory {
  get_recovery_setups : address -> api_response;
  factory_getAddress : address -> list address -> Z -> outcome address
}.

(** The entries of the array [findSmartWallets] returns; the fields are
    [address], [nonce], [version] and [exists] in the source. *)
Record SmartWallet : Type := mkSmartWallet {
  sw_address : address;
  sw_nonce : Z;
  sw_version : string;
  sw_exists : bool
}.

(** [Object.entries(COINBASE_SMART_WALLET_FACTORIES)] (lines 53-56). *)
Definition COINBASE_SMART_WALLET_FACTORIES : list (string * address) :=
  [("v1", 0x0BA5ED0c6AA8c49038F819E587E2633c4A9F428a%Z);
   ("v1_1", 0xBA5ED110eFDBa3D005bfC882d75358ACBbB85842%Z)].

(** [s.replace('_', '.')]: the first underscore only. *)
Fixpoint replace_underscore (s : string) : string :=
  match s with
  | EmptyString => EmptyString
  | String c r => if Ascii.eqb c "_" then String "." r
                  else String c (replace_underscore r)
  end.

(** [setups.filter(setup => setup.aaWalletAddress &&
    ethers.isAddress(setup.aaWalletAddress))], as the addresses kept. *)
Definition valid_addresses (setups : list json_address) : list address :=
  flat_map (fun setup => match setup with
                         | AnAddress a => [a]
                         | _ => []
                         end) setups.

(** Reading [setup.aaWalletAddress] throws a [TypeError] on [null]. *)
Definition unreadable (setup : json_address) : bool :=
  match setup with
  | NoSetup => true
  | _ => false
  end.

(** Lines 645-676: the wallets the API names, if it names any.  The filter
    throws at the first setup it cannot read. *)
Definition api_wallets (r : api_response) : outcome (option (list SmartWallet)) :=
  match r with
  | FetchFailed e => Thrown e
  | BadStatus status =>
      Thrown (Error ("API returned status " ++ dec_string status))
  | Body None => Ok None
  | Body (Some setups) =>
      if existsb unreadable setups
      then Thrown (Error "Cannot read properties of null (reading 'aaWalletAddress')")
      else
        let wallets := map (fun a => mkSmartWallet a 0 "v1" true)
                           (valid_addresses setups) in
        if (0 <? List.length wallets)%nat then Ok (Some wallets) else Ok None
  end.

(** Lines 703-750: one round of the inner loop, as the entries it pushes. *)
Definition check_nonce (p : provider) (d : directory) (ownerAddress : address)
  (version : string) (factoryAddress : address) (nonce : Z)
  : outcome (list SmartWallet) :=
  or_else
    (and_then (factory_getAddress d factoryAddress [ownerAddress] nonce)
       (fun predictedAddress =>
     and_then (getCode p predictedAddress) (fun code =>
     let exists_ := negb (code =? "0x") && (2 <? String.length code)%nat in
     if exists_ then
       or_else
         (and_then (isOwnerAddress p predictedAddress ownerAddress)
            (fun isOwner =>
               if isOwner
               then Ok [mkSmartWallet predictedAddress nonce
                          (replace_underscore version) true]
               else Ok []))
         (fun err => Ok [mkSmartWallet predictedAddress nonce
                           (replace_underscore version) true])
     else Ok [])))
    (fun err => Ok []).

(** The rounds of a loop that pushes into one array: a round that throws
    ends the loop. *)
Fixpoint rounds {A B} (f : A -> outcome (list B)) (xs : list A)
  : outcome (list B) :=
  match xs with
  | [] => Ok []
  | x :: r => and_then (f x) (fun here =>
              and_then (rounds f r) (fun later => Ok (here ++ later)%list))
  end.

(** [for (let nonce = 0; nonce < maxNonce; nonce++)]. *)
Definition nonces (maxNonce : nat) : list Z := map Z.of_nat (seq 0 maxNonce).

(** Lines 688-752: the on-chain search over both factories. *)
Definition on_chain_wallets (p : provider) (d : directory) (ownerAddress : address)
  (maxNonce : nat) : outcome (list SmartWallet) :=
  rounds (fun entry : string * address =>
            let '(version, factoryAddress) := entry in
            rounds (check_nonce p d ownerAddress version factoryAddress)
                   (nonces maxNonce))
         COINBASE_SMART_WALLET_FACTORIES.

(** [findSmartWallets] (lines 636-761). *)
Definition findSmartWallets (p : provider) (d : directory) (ownerAddress : address)
  (maxNonce : nat) : outcome (list SmartWallet) :=
  and_then (or_else (api_wallets (get_recovery_setups d ownerAddress))
                    (fun error => Ok None))
    (fun found =>
       match found with
       | Some wallets => Ok wallets
       | None => on_chain_wallets p d ownerAddress maxNonce
       end).

(** [getPrimarySmartWallet] (lines 768-799). *)
Definition getPrimarySmartWallet (p : provider) (d : directory)
  (ownerAddress : address) : outcome (option address) :=
  and_then (findSmartWallets p d ownerAddress 3) (fun wallets =>
  let existingWallets := filter sw_exists wallets in
  if (List.length existingWallets =? 0)%nat then Ok None else
  let primary :=
    find (fun w => (sw_version w =? "v1.1") && (sw_nonce w =? 0)%Z) existingWallets in
  let primary :=
    match primary with
    | Some w => Some w
    | None =>
        find (fun w => (sw_version w =? "v1") && (sw_nonce w =? 0)%Z) existingWallets
    end in
  let primary :=
    match primary with
    | Some w => Some w
    | None => nth_error existingWallets 0
    end in
  match primary with
  | Some w => Ok (Some (sw_address w))
  | None => Thrown (Error "Cannot read properties of undefined (reading 'address')")
  end).

(** JavaScript [s.slice(n)] and [s.slice(-n)]. *)
Definition slice_from (n : nat) (s : string) : string :=
  substring n (String.length s - n) s.

Definition slice_last (n : nat) (s : string) : string :=
  slice_from (String.length s - n) s.

(** [ethers.getAddress] on the text this code passes to it, which is
    [0x] followed by lower-case hex digits: such text is an address exactly
    when it has forty digits.  Other text is reported as an error. *)
Definition getAddress (s : string) : outcome address :=
  match getBytes s with
  | Some bs =>
      if (List.length bs =? 20)%nat && (s =? hexlify bs)
      then Ok (from_be bs)
      else Thrown (Error "invalid address")
  | None => Thrown (Error "invalid address")
  end.

(** The owner reads of the wallet contract: [ownerCount()] and
    [ownerAtIndex(i)], whose bytes ethers returns as a hex string. *)
Record owner_book : Type := mkOwnerBook {
  ownerCount : address -> outcome Z;
  ownerAtIndex : address -> Z -> outcome bytes
}.

(** [OwnerInfo]; the fields are [address], [publicKey] and [index] in the
    source. *)
Record OwnerInfo : Type := mkOwnerInfo {
  info_address : address;
  publicKey : string;
  info_index : Z
}.

(** Lines 887-918: one round of the loop of [getSmartWalletOwners]. *)
Definition owner_entry (b : owner_book) (smartWalletAddress : address) (i : Z)
  : outcome OwnerInfo :=
  and_then (ownerAtIndex b smartWalletAddress i) (fun raw =>
  let ownerBytes := hexlify raw in
  let publicKey := ownerBytes in
  let hexWithoutPrefix :=
    if prefix "0x" ownerBytes then slice_from 2 ownerBytes else ownerBytes in
  and_then
    (if (String.length hexWithoutPrefix =? 64)%nat then
       getAddress ("0x" ++ slice_last 40 hexWithoutPrefix)
     else if (String.length hexWithoutPrefix =? 40)%nat then
       getAddress ownerBytes
     else
       getAddress ("0x" ++ slice_last 40 hexWithoutPrefix))
    (fun ownerAddress => Ok (mkOwnerInfo ownerAddress publicKey i))).

(** [getSmartWalletOwners] (lines 865-937); [Number(ownerCount)] is exact
    up to [MAX_SAFE_INTEGER]. *)
Definition getSmartWalletOwners (b : owner_book) (smartWalletAddress : address)
  : outcome (list OwnerInfo) :=
  or_else
    (and_then (ownerCount b smartWalletAddress) (fun ownerCountBigInt =>
     let ownerCount := Z.to_nat ownerCountBigInt in
     rounds (fun i => or_else (and_then (owner_entry b smartWalletAddress i)
                                        (fun o => Ok [o]))
                              (fun error => Ok []))
            (nonces ownerCount)))
    (fun error => Thrown error).

(** The token argument of [getSmartWalletTokenBalance]: the text ['native']
    or a token address. *)
Inductive token_ref : Type :=
| Native
| Token (tokenAddress : address).

(** [getSmartWalletTokenBalance] (lines 94-116). *)
Definition getSmartWalletTokenBalance (p : provider) (smartWalletAddress : address)
  (tokenAddress : token_ref) : io Z :=
  try_catch
    (match tokenAddress with
     | Native => ask (GetBalance smartWalletAddress) (getBalance p smartWalletAddress)
     | Token t => ask (Erc20BalanceOf t smartWalletAddress)
                      (erc20_balanceOf p t smartWalletAddress)
     end)
    (fun error => ret 0%Z).

(** The last twenty bytes, or all of them when there are fewer. *)
Definition last20 (raw : bytes) : bytes := skipn (List.length raw - 20) raw.

(** The entries [getSmartWalletOwners] lists for the owner bytes stored at
    index [i]. *)
Definition listed_owner (b : owner_book) (smartWalletAddress : address) (i : Z)
  : list OwnerInfo :=
  match ownerAtIndex b smartWalletAddress i with
  | Ok raw =>
      if (20 <=? List.length raw)%nat
      then [mkOwnerInfo (from_be (last20 raw)) (hexlify raw) i]
      else []
  | Thrown _ => []
  end.

(** A wallet with four owner slots: a padded address, a 64-byte key, ten
    stray bytes and a slot that cannot be read. *)
Definition Cases_book : owner_book := {|
  ownerCount := fun _ => Ok 4%Z;
  ownerAtIndex := fun _ i =>
    if (i =? 0)%Z then Ok (be32 Scenario.signer)
    else if (i =? 1)%Z then Ok (be32 7 ++ be32 Scenario.friend)%list
    else if (i =? 2)%Z then Ok (be 10 1)
    else Thrown (Error "execution reverted")
|}.

(** The wallet of one round of the on-chain search that pushes. *)
Definition found_on_chain (p : provider) (d : directory) (ownerAddress : address)
  (maxNonce : nat) (w : SmartWallet) : Prop :=
  exists version factory code,
    In (version, factory) COINBASE_SMART_WALLET_FACTORIES
    /\ sw_version w = replace_underscore version
    /\ (0 <= sw_nonce w < Z.of_nat maxNonce)%Z
    /\ factory_getAddress d factory [ownerAddress] (sw_nonce w) = Ok (sw_address w)
    /\ getCode p (sw_address w) = Ok code
    /\ code <> "0x"%string
    /\ (2 < String.length code)%nat
    /\ isOwnerAddress p (sw_address w) ownerAddress <> Ok false
    /\ sw_exists w = true.

(** The recovery API names no wallet: it fails, lists a setup that cannot
    be read, or lists no valid address. *)
Definition api_names_none (r : api_response) : Prop :=
  match r with
  | Body (Some setups) => In NoSetup setups \/ valid_addresses setups = []
  | _ => True
  end.

(** A directory for the examples: the API is down, the first factory
    predicts [wallet] at nonce 0 and the second predicts [friend] at nonce 0
    and [token] at nonce 1. *)
Definition Cases_directory : directory := {|
  get_recovery_setups := fun _ => FetchFailed (Error "Failed to fetch");
  factory_getAddress := fun factory _ nonce =>
    if (factory =? 0x0BA5ED0c6AA8c49038F819E587E2633c4A9F428a)%Z then
      if (nonce =? 0)%Z then Ok Scenario.wallet
      else Thrown (Error "call revert exception")
    else
      if (nonce =? 0)%Z then Ok Scenario.friend
      else if (nonce =? 1)%Z then Ok Scenario.token
      else Thrown (Error "call revert exception")
|}.

(** The API lists two addresses behind a setup that is [null]. *)
Definition Cases_null_setup : directory := {|
  get_recovery_setups := fun _ =>
    Body (Some [AnAddress Scenario.friend; NoSetup; AnAddress Scenario.wallet]);
  factory_getAddress := fun _ _ _ => Thrown (Error "call revert exception")
|}.

(** The API lists a broken entry and two addresses. *)
Definition Cases_listing : directory := {|
  get_recovery_setups := fun _ =>
    Body (Some [NoAddress; AnAddress Scenario.friend; NotAnAddress "0x12";
                AnAddress Scenario.wallet]);
  factory_getAddress := fun _ _ _ => Thrown (Error "call revert exception")
|}.

(* ===================================================================== *)
(** ** store/wallet-store.ts *)
(* ===================================================================== *)

Module WalletStore.

Inductive ConnectionMode : Type := bridge | gateway.
Inductive WalletType : Type := burner | smart.

(** The data fields of [WalletState]. *)
Record WalletState : Type := mkState {
  address : option string;
  publicKey : option string;
  keySlot : option Z;
  chainId : Z;
  rpcUrl : string;
  chainName : string;
  isConnected : bool;
  balance : string;
  connectionMode : ConnectionMode;
  smartWalletAddress : option string;
  isSmartWallet : bool;
  availableSmartWallets : list string;
  activeWalletType : WalletType;
  activeSmartWalletAddress : option string
}.

(** The state the store is created with. *)
Definition initial : WalletState := {|
  address := None;
  publicKey := None;
  keySlot := None;
  chainId := 1;
  rpcUrl := "https://eth.llamarpc.com";
  chainName := "Ethereum";
  isConnected := false;
  balance := "0";
  connectionMode := bridge;
  smartWalletAddress := None;
  isSmartWallet := false;
  availableSmartWallets := [];
  activeWalletType := burner;
  activeSmartWalletAddress := None
|}.

(** Truthiness of an optional string: [undefined], [null] and the empty
    string are falsy. *)
Definition truthy (s : option string) : bool :=
  match s with
  | Some EmptyString => false
  | Some _ => true
  | None => false
  end.

(** [keySlot || 1] on an optional number. *)
Definition or_one (k : option Z) : Z :=
  match k with
  | Some k => if (k =? 0)%Z then 1%Z else k
  | None => 1%Z
  end.

Definition setWallet (address' publicKey' : string) (keySlot' : option Z)
  (s : WalletState) : WalletState :=
  mkState (Some address') (Some publicKey') (Some (or_one keySlot'))
    (chainId s) (rpcUrl s) (chainName s) true (balance s) (connectionMode s)
    (smartWalletAddress s) (isSmartWallet s) (availableSmartWallets s)
    (activeWalletType s) (activeSmartWalletAddress s).

Definition setChain (chainId' : Z) (rpcUrl' chainName' : string)
  (s : WalletState) : WalletState :=
  mkState (address s) (publicKey s) (keySlot s)
    chainId' rpcUrl' chainName' (isConnected s) "0" (connectionMode s)
    (smartWalletAddress s) (isSmartWallet s) (availableSmartWallets s)
    (activeWalletType s) (activeSmartWalletAddress s).

Definition setBalance (balance' : string) (s : WalletState) : WalletState :=
  mkState (address s) (publicKey s) (keySlot s)
    (chainId s) (rpcUrl s) (chainName s) (isConnected s) balance'
    (connectionMode s)
    (smartWalletAddress s) (isSmartWallet s) (availableSmartWallets s)
    (activeWalletType s) (activeSmartWalletAddress s).

Definition setConnectionMode (mode : ConnectionMode) (s : WalletState)
  : WalletState :=
  mkState (address s) (publicKey s) (keySlot s)
    (chainId s) (rpcUrl s) (chainName s) (isConnected s) (balance s) mode
    (smartWalletAddress s) (isSmartWallet s) (availableSmartWallets s)
    (activeWalletType s) (activeSmartWalletAddress s).

Definition setSmartWallet (smartWalletAddress' : string) (s : WalletState)
  : WalletState :=
  mkState (address s) (publicKey s) (keySlot s)
    (chainId s) (rpcUrl s) (chainName s) (isConnected s) (balance s)
    (connectionMode s)
    (Some smartWalletAddress') true (availableSmartWallets s)
    (activeWalletType s) (activeSmartWalletAddress s).

Definition clearSmartWallet (s : WalletState) : WalletState :=
  mkState (address s) (publicKey s) (keySlot s)
    (chainId s) (rpcUrl s) (chainName s) (isConnected s) (balance s)
    (connectionMode s)
    None false (availableSmartWallets s)
    (activeWalletType s) (activeSmartWalletAddress s).

Definition setAvailableSmartWallets (wallets : list string) (s : WalletState)
  : WalletState :=
  mkState (address s) (publicKey s) (keySlot s)
    (chainId s) (rpcUrl s) (chainName s) (isConnected s) (balance s)
    (connectionMode s)
    (smartWalletAddress s) (isSmartWallet s) wallets
    (activeWalletType s) (activeSmartWalletAddress s).

Definition setActiveWallet (type : WalletType) (smartWalletAddress' : option string)
  (s : WalletState) : WalletState :=
  match type, truthy smartWalletAddress' with
  | smart, true =>
      mkState (address s) (publicKey s) (keySlot s)
        (chainId s) (rpcUrl s) (chainName s) (isConnected s) (balance s)
        (connectionMode s)
        smartWalletAddress' true (availableSmartWallets s)
        type smartWalletAddress'
  | _, _ =>
      mkState (address s) (publicKey s) (keySlot s)
        (chainId s) (rpcUrl s) (chainName s) (isConnected s) (balance s)
        (connectionMode s)
        None false (availableSmartWallets s)
        burner None
  end.

Definition getActiveWalletAddress (s : WalletState) : option string :=
  match activeWalletType s, truthy (activeSmartWalletAddress s) with
  | smart, true => activeSmartWalletAddress s
  | _, _ => address s
  end.

Definition disconnect (s : WalletState) : WalletState :=
  mkState None None None
    (chainId s) (rpcUrl s) (chainName s) false "0" (connectionMode s)
    None false [] burner None.

(** A call of one of the methods that change the state. *)
Inductive action : Type :=
| SetWallet (address' publicKey' : string) (keySlot' : option Z)
| SetChain (chainId' : Z) (rpcUrl' chainName' : string)
| SetBalance (balance' : string)
| SetConnectionMode (mode : ConnectionMode)
| SetSmartWallet (smartWalletAddress' : string)
| ClearSmartWallet
| SetAvailableSmartWallets (wallets : list string)
| SetActiveWallet (type : WalletType) (smartWalletAddress' : option string)
| Disconnect.

Definition step (s : WalletState) (a : action) : WalletState :=
  match a with
  | SetWallet a' k' n' => setWallet a' k' n' s
  | SetChain c r n => setChain c r n s
  | SetBalance b => setBalance b s
  | SetConnectionMode m => setConnectionMode m s
  | SetSmartWallet a' => setSmartWallet a' s
  | ClearSmartWallet => clearSmartWallet s
  | SetAvailableSmartWallets ws => setAvailableSmartWallets ws s
  | SetActiveWallet t a' => setActiveWallet t a' s
  | Disconnect => disconnect s
  end.

(** The state after a sequence of calls on a fresh store. *)
Definition after (calls : list action) : WalletState := fold_left step calls initial.

(** What holds of the wallet fields whatever was called. *)
Definition consistent (s : WalletState) : Prop :=
  (isConnected s = true <-> address s <> None)
  /\ (isConnected s = true ->
      publicKey s <> None /\ exists k, keySlot s = Some k /\ k <> 0%Z)
  /\ (isConnected s = false -> publicKey s = None /\ keySlot s = None)
  /\ (isSmartWallet s = true <-> smartWalletAddress s <> None)
  /\ (activeWalletType s = smart <-> activeSmartWalletAddress s <> None)
  /\ truthy (activeSmartWalletAddress s)
     = match activeSmartWalletAddress s with Some _ => true | None => false end.

End WalletStore.

(* ===================================================================== *)
(** ** components/nft-manager.tsx: the list of saved tokens *)
(* ===================================================================== *)

Module SavedNFTs.

Inductive NFTType : Type := ERC721 | ERC1155.

(** [NFT] of lib/nft-manager.ts (lines 1232-1240). *)
Record NFT : Type := mkNFT {
  contractAddress : string;
  tokenId : string;
  name : option string;
  symbol : option string;
  tokenURI : option string;
  type : NFTType;
  balance : option string
}.

Section Lists.

(** [String.prototype.toLowerCase]. *)
Variable toLowerCase : string -> string.

(** The test of [saveNFT] and [removeNFT]: same contract up to case, same
    token id. *)
Definition same_token (contractAddress' tokenId' : string) (n : NFT) : bool :=
  (toLowerCase (contractAddress n) =? toLowerCase contractAddress')
  && (tokenId n =? tokenId').

(** [saveNFT] on the list and the error shown.  Without [nftInfo] nothing
    happens; a token already saved sets the error and leaves the list;
    otherwise the token is appended and the error cleared. *)
Definition saveNFT (savedNFTs : list NFT) (error : option string)
  (nftInfo : option NFT) : list NFT * option string :=
  match nftInfo with
  | None => (savedNFTs, error)
  | Some info =>
      match find (same_token (contractAddress info) (tokenId info)) savedNFTs with
      | Some _ => (savedNFTs, Some "NFT già aggiunto")
      | None => ((savedNFTs ++ [info])%list, None)
      end
  end.

(** [removeNFT]. *)
Definition removeNFT (savedNFTs : list NFT) (contractAddress' tokenId' : string)
  : list NFT :=
  filter (fun n => negb (same_token contractAddress' tokenId' n)) savedNFTs.

(** No two saved entries are the same token. *)
Fixpoint distinct (l : list NFT) : Prop :=
  match l with
  | [] => True
  | n :: r =>
      Forall (fun m => same_token (contractAddress n) (tokenId n) m = false) r
      /\ distinct r
  end.

End Lists.

(** ASCII lower case, for the examples. *)
Definition lower_char (c : ascii) : ascii :=
  let n := nat_of_ascii c in
  if ((65 <=? n) && (n <=? 90))%nat then ascii_of_nat (n + 32) else c.

Fixpoint lower (s : string) : string :=
  match s with
  | EmptyString => EmptyString
  | String c r => String (lower_char c) (lower r)
  end.

(** Two tokens for the examples. *)
Definition ape : NFT :=
  mkNFT "0xBC4CA0EdA7647A8aB7C2061c2E118A18a936f13D" "7" (Some "Ape #7")
        (Some "BAYC") None ERC721 None.

Definition punk : NFT :=
  mkNFT "0xb47e3cd837dDF8e4c57F05d70Ab865de6e193BBB" "7" (Some "Punk #7")
        (Some "PUNK") None ERC721 None.

End SavedNFTs.

Local Close Scope string_scope.
Local Close Scope io_scope.

Arguments be32 : simpl never.
Arguments len : simpl never.
Arguments hexlify : simpl never.

(* ===================================================================== *)
(** * Properties *)
(* ===================================================================== *)

(** ** Bytes, hex strings and words *)

Lemma Z_of_byte_range (b : byte) : 0 <= Z_of_byte b < 256.
Proof.
  unfold Z_of_byte. pose proof (Byte.to_N_bounded b). lia.
Qed.

Lemma byte_of_Z_of_byte (b : byte) : byte_of_Z (Z_of_byte b) = b.
Proof.
  unfold byte_of_Z. rewrite Z.mod_small by apply Z_of_byte_range.
  unfold Z_of_byte. rewrite N2Z.id, Byte.of_to_N. reflexivity.
Qed.

Lemma Z_of_byte_of_Z (z : Z) : Z_of_byte (byte_of_Z z) = z mod 256.
Proof.
  unfold byte_of_Z, Z_of_byte.
  pose proof (Z.mod_pos_bound z 256 ltac:(lia)) as Hm.
  destruct (Byte.of_N (Z.to_N (z mod 256))) as [b|] eqn:E.
  - apply Byte.to_of_N in E. rewrite E. lia.
  - apply Byte.of_N_None_iff in E. lia.
Qed.

Lemma parse_hex_byte (b : byte) (r : string) :
  parse_hex (hex_of_byte b r)
  = match parse_hex r with Some bs => Some (b :: bs) | None => None end.
Proof.
  destruct b; reflexivity.
Qed.

Lemma parse_hex_body (bs : bytes) : parse_hex (hex_body bs) = Some bs.
Proof.
  induction bs as [|b r IH].
  - reflexivity.
  - change (hex_body (b :: r)) with (hex_of_byte b (hex_body r)).
    rewrite parse_hex_byte, IH. reflexivity.
Qed.

(** [getBytes] undoes [hexlify]. *)
Lemma getBytes_hexlify (bs : bytes) : getBytes (hexlify bs) = Some bs.
Proof.
  unfold hexlify, getBytes. simpl. apply parse_hex_body.
Qed.

Lemma len_app (a b : bytes) : len (a ++ b) = len a + len b.
Proof. unfold len. rewrite length_app. lia. Qed.

Lemma len_nonneg (a : bytes) : 0 <= len a.
Proof. unfold len. lia. Qed.

Lemma length_be (k : nat) (n : Z) : List.length (be k n) = k.
Proof.
  revert n. induction k as [|k IH]; intros n; simpl; [reflexivity|].
  rewrite length_app, IH. simpl. lia.
Qed.

Lemma len_be32 (n : Z) : len (be32 n) = 32.
Proof. unfold len, be32. rewrite length_be. reflexivity. Qed.

Lemma from_be_app (a b : bytes) :
  from_be (a ++ b) = fold_left (fun acc x => acc * 256 + Z_of_byte x) b (from_be a).
Proof. unfold from_be. apply fold_left_app. Qed.

Lemma from_be_be (k : nat) (n : Z) :
  from_be (be k n) = n mod 256 ^ Z.of_nat k.
Proof.
  revert n. induction k as [|k IH]; intros n.
  - simpl. rewrite Z.mod_1_r. reflexivity.
  - cbn [be]. rewrite from_be_app, IH. cbn [fold_left].
    rewrite Z_of_byte_of_Z.
    rewrite Nat2Z.inj_succ, Z.pow_succ_r by lia.
    rewrite (Z.rem_mul_r n 256 (256 ^ Z.of_nat k)) by lia.
    lia.
Qed.

Lemma from_be_be32 (n : Z) : 0 <= n < two256 -> from_be (be32 n) = n.
Proof.
  intros H. unfold be32. rewrite from_be_be.
  apply Z.mod_small. exact H.
Qed.

(** ** The reader on encoded words *)

Lemma drop_app (a b : bytes) : drop (len a) (a ++ b) = b.
Proof.
  unfold drop, len. rewrite Nat2Z.id.
  rewrite skipn_app, skipn_all, Nat.sub_diag. reflexivity.
Qed.

Lemma drop_app_eq (n : Z) (a b : bytes) : n = len a -> drop n (a ++ b) = b.
Proof. intros ->. apply drop_app. Qed.

Lemma read_bytes_app (a r : bytes) : read_bytes (a ++ r) (len a) = Some a.
Proof.
  unfold read_bytes. rewrite len_app.
  pose proof (len_nonneg r).
  destruct (Z.leb_spec (len a) (len a + len r)); [|lia].
  unfold len. rewrite Nat2Z.id.
  rewrite firstn_app, firstn_all, Nat.sub_diag. simpl.
  rewrite app_nil_r. reflexivity.
Qed.

Lemma read_word_be32 (n : Z) (r : bytes) :
  0 <= n < two256 -> read_word (be32 n ++ r) = Some n.
Proof.
  intros H. unfold read_word.
  rewrite <- (len_be32 n), read_bytes_app. simpl.
  rewrite from_be_be32 by exact H. reflexivity.
Qed.

Lemma MAX_SAFE_lt_two256 : MAX_SAFE_INTEGER < two256.
Proof. reflexivity. Qed.

Lemma read_index_be32 (n : Z) (r : bytes) :
  0 <= n <= MAX_SAFE_INTEGER -> read_index (be32 n ++ r) = Some n.
Proof.
  intros H. unfold read_index.
  pose proof MAX_SAFE_lt_two256.
  rewrite read_word_be32 by lia.
  destruct (Z.leb_spec n MAX_SAFE_INTEGER); [reflexivity|lia].
Qed.

Lemma len_padding (n : nat) : len (padding n) = (- Z.of_nat n) mod 32.
Proof.
  unfold len, padding. rewrite repeat_length.
  pose proof (Z.mod_pos_bound (- Z.of_nat n) 32 ltac:(lia)). lia.
Qed.

Lemma aligned_length (n : Z) : ((n + 31) / 32) * 32 = n + (- n) mod 32.
Proof.
  pose proof (Z.div_mod (n + 31) 32 ltac:(lia)).
  pose proof (Z.mod_pos_bound (n + 31) 32 ltac:(lia)).
  pose proof (Z.mod_pos_bound (- n) 32 ltac:(lia)).
  assert (E : (- n) mod 32 = 31 - (n + 31) mod 32).
  { symmetry. apply (Z.mod_unique_pos (- n) 32 (- ((n + 31) / 32))); lia. }
  lia.
Qed.

Lemma read_padded_ok (b r : bytes) :
  read_padded (b ++ padding (List.length b) ++ r) (len b) = Some b.
Proof.
  unfold read_padded. rewrite aligned_length, !len_app, len_padding.
  fold (len b). pose proof (len_nonneg r).
  destruct (Z.leb_spec (len b + (- len b) mod 32)
                       (len b + ((- len b) mod 32 + len r))); [|lia].
  unfold len. rewrite Nat2Z.id.
  rewrite firstn_app, firstn_all, Nat.sub_diag. simpl.
  rewrite app_nil_r. reflexivity.
Qed.

(** ** Encoding and decoding agree *)

Lemma abi_ty_induction (P : abi_ty -> Prop) :
  P TAddress -> P TUint256 -> P TBytes32 -> P TBytes ->
  (forall ts, Forall P ts -> P (TTuple ts)) ->
  (forall t, P t -> P (TArray t)) ->
  forall t, P t.
Proof.
  intros HA HU HB32 HB HT HAr.
  fix IH 1. intros [| | | | ts | t]; try assumption.
  - apply HT. induction ts as [|x r IHr]; constructor; [apply IH | exact IHr].
  - apply HAr, IH.
Qed.

Lemma forall2b_Forall2 {A B} (f : A -> B -> bool) l1 l2 :
  forall2b f l1 l2 = true -> Forall2 (fun a b => f a b = true) l1 l2.
Proof.
  revert l2. induction l1 as [|a r IH]; intros [|b r2] H; simpl in H;
    try discriminate; constructor.
  - apply andb_true_iff in H. tauto.
  - apply IH. apply andb_true_iff in H. tauto.
Qed.

Lemma pack_from_head (items : list (bool * bytes)) (off : Z) :
  len (fst (pack_from items off)) = head_length items.
Proof.
  revert off. induction items as [|[dyn e] r IH]; intros off;
    cbn [pack_from head_length fold_right].
  - reflexivity.
  - destruct dyn.
    + specialize (IH (off + len e)). destruct (pack_from r (off + len e)) as [h t].
      cbn [fst] in *. rewrite len_app, len_be32, IH. reflexivity.
    + specialize (IH off). destruct (pack_from r off) as [h t].
      cbn [fst] in *. rewrite len_app, IH. reflexivity.
Qed.

Lemma pack_from_static (items : list (bool * bytes)) (off : Z) :
  Forall (fun i => fst i = false) items -> snd (pack_from items off) = [].
Proof.
  intros H. revert off.
  induction H as [|[dyn e] r Hd _ IH]; intros off; cbn [pack_from].
  - reflexivity.
  - cbn [fst] in Hd. subst dyn. specialize (IH off).
    destruct (pack_from r off) as [h t]. exact IH.
Qed.

Lemma len_pack (items : list (bool * bytes)) :
  len (pack items)
  = head_length items + len (snd (pack_from items (head_length items))).
Proof.
  unfold pack. pose proof (pack_from_head items (head_length items)) as H.
  destruct (pack_from items (head_length items)) as [h t]. simpl in *.
  rewrite len_app, H. reflexivity.
Qed.

(** A value the coder accepts is dynamic exactly when its type is. *)
Lemma dynamic_agree (t : abi_ty) :
  forall v, abi_accepts t v = true -> is_dynamic v = ty_dynamic t.
Proof.
  induction t as [| | | | ts IH | t IH] using abi_ty_induction;
    intros [a|n|b|b|vs|vs] H; simpl in H; try discriminate; try reflexivity.
  simpl. apply forall2b_Forall2 in H.
  induction H as [|t v ts' vs' Htv _ IHF]; [reflexivity|].
  inversion IH as [|? ? Ht IH']; subst. simpl.
  rewrite (Ht v Htv), (IHF IH'). reflexivity.
Qed.

(** The encoding of a static value has the size its type announces. *)
Lemma static_length (t : abi_ty) :
  forall v, abi_accepts t v = true -> ty_dynamic t = false ->
            len (abi_enc v) = static_size t.
Proof.
  induction t as [| | | | ts IH | t IH] using abi_ty_induction;
    intros [a|n|b|b|vs|vs] H Hs; simpl in H; try discriminate;
    simpl in Hs; try discriminate.
  - apply len_be32.
  - apply len_be32.
  - simpl. apply Nat.eqb_eq in H. unfold len. rewrite H. reflexivity.
  - apply forall2b_Forall2 in H.
    cbn [abi_enc]. fold (items_of vs). rewrite len_pack.
    assert (G : Forall (fun i => fst i = false) (items_of vs)
                /\ head_length (items_of vs) = static_size (TTuple ts)).
    { revert Hs. induction H as [|t v ts' vs' Htv _ IHF]; intros Hs.
      - split; [constructor | reflexivity].
      - inversion IH as [|? ? Ht IH']; subst.
        simpl in Hs. apply orb_false_iff in Hs. destruct Hs as [Hs1 Hs2].
        destruct (IHF IH' Hs2) as [G1 G2].
        split.
        + constructor; [|exact G1]. simpl.
          rewrite (dynamic_agree t v Htv). exact Hs1.
        + simpl. rewrite (dynamic_agree t v Htv), Hs1.
          rewrite (Ht v Htv Hs1). simpl in G2. rewrite G2. reflexivity. }
    destruct G as [G1 G2].
    rewrite (pack_from_static _ _ G1), G2. unfold len. simpl. lia.
Qed.

Lemma pack_from_dynamic (e : bytes) (r : list (bool * bytes)) (off : Z) :
  pack_from ((true, e) :: r) off
  = (be32 off ++ fst (pack_from r (off + len e)),
     e ++ snd (pack_from r (off + len e))).
Proof.
  cbn [pack_from]. destruct (pack_from r (off + len e)). reflexivity.
Qed.

Lemma pack_from_static_item (e : bytes) (r : list (bool * bytes)) (off : Z) :
  pack_from ((false, e) :: r) off
  = (e ++ fst (pack_from r off), snd (pack_from r off)).
Proof.
  cbn [pack_from]. destruct (pack_from r off). reflexivity.
Qed.

(** [unpack] reads back what [pack] wrote: [hp] and [tp] are the head and
    tail bytes already written, [off] the offset of the next tail. *)
Lemma unpack_pack (ts : list abi_ty) (vs : list abi_val) :
  Forall2 decodes ts vs ->
  forall off hp tp rest,
    len hp + len (fst (pack_from (items_of vs) off)) + len tp = off ->
    off + len (snd (pack_from (items_of vs) off)) <= MAX_SAFE_INTEGER ->
    unpack_from (hp ++ fst (pack_from (items_of vs) off) ++ tp
                    ++ snd (pack_from (items_of vs) off) ++ rest)
                (coders_of ts) (len hp) = Some vs.
Proof.
  induction 1 as [|t v ts vs [Hacc Hdec] _ IH];
    intros off hp tp rest Hoff Hmax.
  - reflexivity.
  - cbn [items_of map] in *. fold (items_of vs) in *.
    cbn [coders_of map unpack_from]. fold (coders_of ts).
    rewrite <- (dynamic_agree t v Hacc).
    pose proof (len_nonneg hp). pose proof (len_nonneg tp).
    pose proof (len_nonneg (abi_enc v)).
    destruct (is_dynamic v) eqn:Hdyn.
    + rewrite pack_from_dynamic in *. cbn [fst snd] in *.
      set (off' := off + len (abi_enc v)) in *.
      set (h' := fst (pack_from (items_of vs) off')) in *.
      set (tl' := snd (pack_from (items_of vs) off')) in *.
      rewrite len_app, len_be32 in Hoff. rewrite len_app in Hmax.
      pose proof (len_nonneg h'). pose proof (len_nonneg tl').
      rewrite drop_app.
      rewrite <- app_assoc, read_index_be32 by lia.
      assert (E2 : hp ++ be32 off ++ h' ++ tp ++ (abi_enc v ++ tl') ++ rest
                   = (hp ++ be32 off ++ h' ++ tp) ++ abi_enc v ++ tl' ++ rest).
      { rewrite <- !app_assoc. reflexivity. }
      assert (Eoff : off = len (hp ++ be32 off ++ h' ++ tp)).
      { rewrite !len_app, len_be32. lia. }
      rewrite E2. rewrite (drop_app_eq off _ _ Eoff).
      rewrite Hdec by lia.
      assert (E3 : (hp ++ be32 off ++ h' ++ tp) ++ abi_enc v ++ tl' ++ rest
                   = (hp ++ be32 off) ++ h' ++ (tp ++ abi_enc v) ++ tl' ++ rest).
      { rewrite <- !app_assoc. reflexivity. }
      rewrite E3.
      replace (len hp + 32) with (len (hp ++ be32 off))
        by (rewrite len_app, len_be32; reflexivity).
      unfold h', tl'.
      rewrite (IH off' (hp ++ be32 off) (tp ++ abi_enc v) rest).
      * reflexivity.
      * fold h'. rewrite !len_app, len_be32. lia.
      * fold tl'. lia.
    + rewrite pack_from_static_item in *. cbn [fst snd] in *.
      set (h' := fst (pack_from (items_of vs) off)) in *.
      set (tl := snd (pack_from (items_of vs) off)) in *.
      rewrite len_app in Hoff.
      pose proof (len_nonneg h'). pose proof (len_nonneg tl).
      rewrite drop_app, <- app_assoc.
      rewrite Hdec by lia.
      assert (E3 : hp ++ abi_enc v ++ h' ++ tp ++ tl ++ rest
                   = (hp ++ abi_enc v) ++ h' ++ tp ++ tl ++ rest).
      { rewrite <- !app_assoc. reflexivity. }
      rewrite E3.
      rewrite <- (static_length t v Hacc)
        by (rewrite <- (dynamic_agree t v Hacc); exact Hdyn).
      rewrite <- len_app.
      unfold h', tl.
      rewrite (IH off (hp ++ abi_enc v) tp rest).
      * reflexivity.
      * fold h'. rewrite !len_app. lia.
      * fold tl. lia.
Qed.

Lemma unpack_pack_top (ts : list abi_ty) (vs : list abi_val) (rest : bytes) :
  Forall2 decodes ts vs ->
  len (pack (items_of vs)) <= MAX_SAFE_INTEGER ->
  unpack (pack (items_of vs) ++ rest) (coders_of ts) = Some vs.
Proof.
  intros HF Hmax. rewrite len_pack in Hmax. unfold unpack.
  pose proof (pack_from_head (items_of vs) (head_length (items_of vs))) as Hh.
  pose proof (unpack_pack ts vs HF (head_length (items_of vs)) [] [] rest) as U.
  cbn [app] in U. change (len []) with 0 in U.
  unfold pack.
  destruct (pack_from (items_of vs) (head_length (items_of vs))) as [h tl].
  cbn [fst snd] in *.
  rewrite <- app_assoc. apply U; lia.
Qed.

(** Every item takes at least [32] bytes of head when its type is dynamic
    or at least one word wide. *)
Lemma head_length_array (t : abi_ty) (vs : list abi_val) :
  (ty_dynamic t || (32 <=? static_size t)) = true ->
  Forall (fun v => abi_accepts t v = true) vs ->
  32 * Z.of_nat (List.length vs) <= head_length (items_of vs).
Proof.
  intros Hw HF. induction HF as [|v vs Hv _ IH].
  - simpl. lia.
  - cbn [items_of map head_length fold_right List.length].
    fold (items_of vs). fold (head_length (items_of vs)).
    rewrite (dynamic_agree t v Hv).
    destruct (ty_dynamic t) eqn:Hd.
    + lia.
    + simpl in Hw. apply Z.leb_le in Hw.
      rewrite (static_length t v Hv Hd). lia.
Qed.

Lemma two160_lt_two256 : two160 < two256.
Proof. reflexivity. Qed.

Lemma coders_of_repeat (t : abi_ty) (n : nat) :
  repeat (ty_dynamic t, static_size t, abi_dec t) n = coders_of (repeat t n).
Proof.
  induction n as [|n IH]; simpl; [reflexivity|]. rewrite IH. reflexivity.
Qed.

(** The decoder inverts the encoder on every value the coder accepts,
    whatever bytes follow the encoding. *)
Theorem abi_dec_enc (t : abi_ty) :
  ty_wf t = true -> forall v, abi_accepts t v = true -> decodes t v.
Proof.
  induction t as [| | | | ts IH | t IH] using abi_ty_induction;
    intros Hwf [a|n|b|b|vs|vs] H; simpl in H; try discriminate;
    (split; [exact H|]); intros Hmax rest.
  - (* address *)
    unfold is_address in H. apply andb_true_iff in H. destruct H as [H1 H2].
    apply Z.leb_le in H1. apply Z.ltb_lt in H2.
    pose proof two160_lt_two256.
    cbn [abi_enc abi_dec]. rewrite read_word_be32 by lia.
    destruct (Z.ltb_spec a two160); [reflexivity|lia].
  - (* uint256 *)
    unfold is_uint256 in H. apply andb_true_iff in H. destruct H as [H1 H2].
    apply Z.leb_le in H1. apply Z.ltb_lt in H2.
    cbn [abi_enc abi_dec]. rewrite read_word_be32 by lia. reflexivity.
  - (* bytes32 *)
    apply Nat.eqb_eq in H. cbn [abi_enc abi_dec].
    replace 32 with (len b) by (unfold len; rewrite H; reflexivity).
    rewrite read_bytes_app. reflexivity.
  - (* bytes *)
    cbn [abi_enc abi_dec] in *.
    rewrite !len_app, len_be32 in Hmax.
    pose proof (len_nonneg b). pose proof (len_nonneg (padding (List.length b))).
    rewrite <- !app_assoc, read_index_be32 by lia.
    rewrite (drop_app_eq 32 (be32 (len b))) by (symmetry; apply len_be32).
    rewrite read_padded_ok. reflexivity.
  - (* tuple *)
    apply forall2b_Forall2 in H.
    assert (HF : Forall2 decodes ts vs).
    { cbn [ty_wf] in Hwf. clear Hmax.
      induction H as [|t v ts' vs' Htv _ IHF]; [constructor|].
      inversion IH as [|? ? Ht IH']; subst.
      cbn [forallb] in Hwf. apply andb_true_iff in Hwf. destruct Hwf as [W1 W2].
      constructor; [apply Ht; assumption | apply IHF; assumption]. }
    cbn [abi_enc abi_dec] in *. fold (items_of vs) in *. fold (coders_of ts).
    rewrite unpack_pack_top by assumption. reflexivity.
  - (* array *)
    cbn [ty_wf] in Hwf. apply andb_true_iff in Hwf. destruct Hwf as [W1 W2].
    assert (HA : Forall (fun v => abi_accepts t v = true) vs).
    { apply Forall_forall. intros x Hx.
      rewrite forallb_forall in H. apply H, Hx. }
    assert (HF : Forall2 decodes (repeat t (List.length vs)) vs).
    { clear Hmax H. induction HA as [|v vs' Hv _ IHF]; [constructor|].
      simpl. constructor; [apply IH; assumption | exact IHF]. }
    cbn [abi_enc abi_dec] in *. fold (items_of vs) in *.
    rewrite len_app, len_be32 in Hmax.
    pose proof (head_length_array t vs W2 HA) as Hh.
    pose proof (len_pack (items_of vs)) as Hl.
    pose proof (len_nonneg (snd (pack_from (items_of vs) (head_length (items_of vs))))).
    pose proof (len_nonneg rest).
    rewrite <- app_assoc, read_index_be32 by lia.
    rewrite !len_app, len_be32.
    destruct (Z.leb_spec (Z.of_nat (List.length vs) * 32)
                         (32 + (len (pack (items_of vs)) + len rest))); [|lia].
    rewrite (drop_app_eq 32 (be32 (Z.of_nat (List.length vs))))
      by (symmetry; apply len_be32).
    rewrite Nat2Z.id, coders_of_repeat.
    rewrite unpack_pack_top by (assumption || lia). reflexivity.
Qed.

(** ** Function data: encoding, selectors and decoding *)

Lemma bytes_eqb_refl (a : bytes) : bytes_eqb a a = true.
Proof.
  unfold bytes_eqb. destruct (list_eq_dec byte_eq_dec a a); congruence.
Qed.

Lemma encodeFunctionData_Ok (f : fragment) (args : list abi_val) (d : string) :
  encodeFunctionData f args = Ok d ->
  abi_accepts (TTuple (inputs f)) (VTuple args) = true
  /\ d = hexlify (selector f ++ abi_encode args).
Proof.
  unfold encodeFunctionData.
  destruct (abi_accepts (TTuple (inputs f)) (VTuple args)); intros H;
    [injection H as <-; split; reflexivity | discriminate].
Qed.

(** Decoding function data with the fragment that encoded it returns the
    arguments. *)
Lemma decodeFunctionData_encode (f : fragment) (args : list abi_val) (d : string) :
  ty_wf (TTuple (inputs f)) = true ->
  List.length (selector f) = 4%nat ->
  len (abi_encode args) <= MAX_SAFE_INTEGER ->
  encodeFunctionData f args = Ok d ->
  decodeFunctionData f d = Ok args.
Proof.
  intros Hwf Hsel Hmax Henc.
  apply encodeFunctionData_Ok in Henc. destruct Henc as [Hacc ->].
  unfold decodeFunctionData. rewrite getBytes_hexlify.
  rewrite <- Hsel at 1.
  rewrite firstn_app, firstn_all, Nat.sub_diag, app_nil_r, bytes_eqb_refl.
  rewrite <- Hsel, skipn_app, skipn_all, Nat.sub_diag. cbn [app skipn].
  destruct (abi_dec_enc (TTuple (inputs f)) Hwf (VTuple args) Hacc) as [_ D].
  specialize (D Hmax []). rewrite app_nil_r in D.
  unfold abi_encode. rewrite D. reflexivity.
Qed.

(** The first ten characters of encoded function data spell the selector. *)
Lemma slice_selector (a b c d : byte) (rest : bytes) :
  slice0 10 (hexlify ([a; b; c; d] ++ rest)) = hexlify [a; b; c; d].
Proof. destruct rest; reflexivity. Qed.

Ltac len_simpl :=
  repeat (rewrite len_app || rewrite len_be32 || rewrite len_padding);
  change (len []) with 0.

(** ** Round trip of the fungible transfer *)

(** C6. Encoding a fungible transfer of amount [A] of token [T] to
    recipient [R] gives a call to [T] whose payload starts with the ERC-20
    transfer selector, is dispatched to the ERC-20 checks, and decodes back
    to exactly [R] and [A]. *)
Theorem fungible_transfer_round_trip (p : provider) (wallet T R A : Z) :
  is_address R = true ->
  is_uint256 A = true ->
  exists c,
    createSendERC20Call T R A = Ok c
    /\ target c = T
    /\ value c = 0
    /\ slice0 10 (data c) = "0xa9059cbb"%string
    /\ decode_transfer (data c) = Ok (R, A)
    /\ (T <> wallet -> preflight p wallet c = preflightERC20 p wallet c).
Proof.
  intros HR HA.
  assert (Henc : encodeFunctionData transfer_fn [VAddress R; VUint256 A]
                 = Ok (hexlify (selector transfer_fn
                                  ++ abi_encode [VAddress R; VUint256 A]))).
  { unfold encodeFunctionData. cbn [abi_accepts inputs transfer_fn forall2b].
    rewrite HR, HA. reflexivity. }
  assert (Hdec : decodeFunctionData transfer_fn
                   (hexlify (selector transfer_fn
                               ++ abi_encode [VAddress R; VUint256 A]))
                 = Ok [VAddress R; VUint256 A]).
  { apply decodeFunctionData_encode; [reflexivity | reflexivity | | exact Henc].
    unfold abi_encode.
    cbn [abi_enc map is_dynamic pack head_length fold_right pack_from].
    len_simpl. unfold MAX_SAFE_INTEGER. lia. }
  eexists. unfold createSendERC20Call. rewrite Henc.
  split; [reflexivity|]. cbn [target value data].
  split; [reflexivity|]. split; [reflexivity|].
  assert (Hsel : slice0 10 (hexlify (selector transfer_fn
                                       ++ abi_encode [VAddress R; VUint256 A]))
                 = "0xa9059cbb"%string).
  { cbn [selector transfer_fn]. rewrite slice_selector. reflexivity. }
  split; [exact Hsel|]. split.
  - unfold decode_transfer. rewrite Hdec. reflexivity.
  - intros HT. unfold preflight. cbn [target data]. rewrite Hsel.
    destruct (Z.eqb_spec T wallet) as [E|_]; [contradiction|].
    cbn [selector transfer_fn]. unfold hexlify at 1.
    reflexivity.
Qed.

(** Five units of the token to [friend]. *)
Lemma fungible_transfer_round_trip_witness :
  exists c,
    createSendERC20Call Scenario.token Scenario.friend 5 = Ok c
    /\ target c = Scenario.token
    /\ value c = 0
    /\ slice0 10 (data c) = "0xa9059cbb"%string
    /\ decode_transfer (data c) = Ok (Scenario.friend, 5)
    /\ (Scenario.token <> Scenario.wallet ->
        preflight Scenario.chain Scenario.wallet c
        = preflightERC20 Scenario.chain Scenario.wallet c).
Proof.
  apply (fungible_transfer_round_trip Scenario.chain Scenario.wallet
           Scenario.token Scenario.friend 5); reflexivity.
Defined.

(** ** Round trip of the owner removal *)

(** C7. The call assembled for removing the owner at index [i] with owner
    bytes [b] targets the wallet, carries [removeOwnerAtIndex] with both
    arguments, and its payload decodes back to exactly [i] and [b] (the
    owner bytes come back as the lower-case hex string of [b]). *)
Theorem remove_owner_round_trip (wallet owner : address) (i : Z)
  (ownerBytes : string) (b : bytes) (chainId : Z) :
  0 <= i <= MAX_SAFE_INTEGER ->
  getBytes ownerBytes = Some b ->
  len b < 2 ^ 52 ->
  exists c,
    createRemoveOwnerTransaction wallet owner i ownerBytes chainId = Ok c
    /\ target c = wallet
    /\ slice0 10 (data c) = "0x89625b57"%string
    /\ decodeFunctionData removeOwnerAtIndex_fn (data c) = Ok [VUint256 i; VBytes b]
    /\ decode_removeOwnerAtIndex (data c) = Ok (i, hexlify b)
    /\ getBytes (hexlify b) = Some b.
Proof.
  intros Hi Hb Hlen.
  pose proof MAX_SAFE_lt_two256 as Hlt.
  assert (Henc : encodeFunctionData removeOwnerAtIndex_fn [VUint256 i; VBytes b]
                 = Ok (hexlify (selector removeOwnerAtIndex_fn
                                  ++ abi_encode [VUint256 i; VBytes b]))).
  { unfold encodeFunctionData.
    cbn [abi_accepts inputs removeOwnerAtIndex_fn forall2b].
    unfold is_uint256.
    destruct (Z.leb_spec 0 i); [|lia].
    destruct (Z.ltb_spec i two256); [reflexivity|lia]. }
  assert (Hdec : decodeFunctionData removeOwnerAtIndex_fn
                   (hexlify (selector removeOwnerAtIndex_fn
                               ++ abi_encode [VUint256 i; VBytes b]))
                 = Ok [VUint256 i; VBytes b]).
  { apply decodeFunctionData_encode; [reflexivity | reflexivity | | exact Henc].
    unfold abi_encode.
    cbn [abi_enc map is_dynamic pack head_length fold_right pack_from].
    len_simpl. fold (len b).
    pose proof (Z.mod_pos_bound (- len b) 32 ltac:(lia)).
    pose proof (len_nonneg b).
    assert (2 ^ 52 + 200 <= MAX_SAFE_INTEGER) by (vm_compute; discriminate).
    lia. }
  eexists. unfold createRemoveOwnerTransaction, number_arg, bytes_arg.
  rewrite Hb.
  destruct (Z.leb_spec (- MAX_SAFE_INTEGER) i); [|lia].
  destruct (Z.leb_spec i MAX_SAFE_INTEGER); [|lia].
  cbn [andb]. rewrite Henc.
  split; [reflexivity|]. cbn [target data].
  split; [reflexivity|].
  split.
  { cbn [selector removeOwnerAtIndex_fn]. rewrite slice_selector. reflexivity. }
  split; [exact Hdec|].
  split.
  - unfold decode_removeOwnerAtIndex. rewrite Hdec. reflexivity.
  - apply getBytes_hexlify.
Qed.

(** Index 2 and thirty-two bytes [0xAA]: the payload decodes to index 2 and
    the same bytes, printed in lower case. *)
Lemma remove_owner_round_trip_witness :
  exists c,
    createRemoveOwnerTransaction Scenario.wallet Scenario.signer 2
      "0xAAAAAAAAAAAAAAAAAAAAAAAAAAAAAAAAAAAAAAAAAAAAAAAAAAAAAAAAAAAAAAAA" 1 = Ok c
    /\ target c = Scenario.wallet
    /\ slice0 10 (data c) = "0x89625b57"%string
    /\ decodeFunctionData removeOwnerAtIndex_fn (data c)
       = Ok [VUint256 2; VBytes (repeat xaa 32)]
    /\ decode_removeOwnerAtIndex (data c) = Ok (2, hexlify (repeat xaa 32))
    /\ getBytes (hexlify (repeat xaa 32)) = Some (repeat xaa 32).
Proof.
  apply (remove_owner_round_trip Scenario.wallet Scenario.signer 2
           "0xAAAAAAAAAAAAAAAAAAAAAAAAAAAAAAAAAAAAAAAAAAAAAAAAAAAAAAAAAAAAAAAA"
           (repeat xaa 32) 1).
  - unfold MAX_SAFE_INTEGER. lia.
  - vm_compute. reflexivity.
  - vm_compute. reflexivity.
Defined.

(** ** Running the monad *)

Lemma bind_Ok {A B} (m : io A) (k : A -> io B) (l l' : log) (a : A) :
  m l = (Ok a, l') -> bind m k l = k a l'.
Proof. unfold bind. intros ->. reflexivity. Qed.

Lemma bind_Thrown {A B} (m : io A) (k : A -> io B) (l l' : log) (e : error) :
  m l = (Thrown e, l') -> bind m k l = (Thrown e, l').
Proof. unfold bind. intros ->. reflexivity. Qed.

(** A bind returns only if its first part returned. *)
Lemma bind_inv_Ok {A B} (m : io A) (k : A -> io B) (l l2 : log) (b : B) :
  bind m k l = (Ok b, l2) ->
  exists a l1, m l = (Ok a, l1) /\ k a l1 = (Ok b, l2).
Proof.
  unfold bind. destruct (m l) as [[a|e] l1]; intros H.
  - exists a, l1. split; [reflexivity | exact H].
  - discriminate.
Qed.

Lemma sent_sent (l : log) (r1 r2 : list request) :
  sent (sent l r1) r2 = sent l (r1 ++ r2).
Proof. unfold sent. simpl. rewrite app_assoc. reflexivity. Qed.

Lemma ask_sent {A} (r : request) (answer : outcome A) (l : log) :
  ask r answer l = (answer, sent l [r]).
Proof. reflexivity. Qed.

(** ** The ownership check *)

(** What [isOwner] answers, for each answer of the wallet contract. *)
Lemma isOwner_run (p : provider) (wallet owner : address) (l : log) :
  isOwner p wallet owner l
  = (Ok match isOwnerAddress p wallet owner with
        | Ok b => b
        | Thrown _ => false
        end,
     sent l [IsOwnerAddress wallet owner]).
Proof.
  unfold isOwner, try_catch. rewrite ask_sent.
  destruct (isOwnerAddress p wallet owner); reflexivity.
Qed.

(** C10. When the owner query of the wallet contract throws, whatever the
    error, [isOwner] returns [false] and throws nothing; its result and the
    requests it sent are those of a run in which the contract answered
    "not an owner". *)
Theorem isOwner_false_on_query_failure
  (p : provider) (wallet owner : address) (e : error) (l : log) :
  isOwnerAddress p wallet owner = Thrown e ->
  isOwner p wallet owner l = (Ok false, sent l [IsOwnerAddress wallet owner])
  /\ forall p', isOwnerAddress p' wallet owner = Ok false ->
                isOwner p' wallet owner l = isOwner p wallet owner l.
Proof.
  intros H. split.
  - rewrite isOwner_run, H. reflexivity.
  - intros p' H'. rewrite !isOwner_run, H, H'. reflexivity.
Qed.

(** The owner query times out: [isOwner] answers [false], as on the chain
    where the wallet says the signer is no owner. *)
Lemma isOwner_false_on_query_failure_witness :
  isOwner Scenario.offline Scenario.wallet Scenario.signer empty_log
  = (Ok false, sent empty_log [IsOwnerAddress Scenario.wallet Scenario.signer])
  /\ forall p', isOwnerAddress p' Scenario.wallet Scenario.signer = Ok false ->
                isOwner p' Scenario.wallet Scenario.signer empty_log
                = isOwner Scenario.offline Scenario.wallet Scenario.signer empty_log.
Proof.
  apply (isOwner_false_on_query_failure Scenario.offline Scenario.wallet
           Scenario.signer (Error "network timeout") empty_log).
  reflexivity.
Defined.

(** ** The checks before assembly *)

(** An undeployed wallet stops the single-call path right after the
    bytecode query. *)
Lemma single_path_needs_contract
  (p : provider) (wallet owner : address) (call : Call) (chainId : Z) (l : log) :
  getCode p wallet = Ok "0x"%string ->
  createSmartWalletTransaction p wallet owner call chainId l
  = (Thrown (AccountNotDeployedError wallet chainId), sent l [GetCode wallet]).
Proof.
  intros H. unfold createSmartWalletTransaction.
  erewrite bind_Ok by (rewrite ask_sent, H; reflexivity).
  reflexivity.
Qed.

(** C4. On a deployed wallet whose ownership check does not confirm the
    signer, the single-call pipeline throws the not-owner error after
    exactly two requests, the bytecode query and the owner query: no
    simulation, gas estimate, nonce, fee or balance request is sent. *)
Theorem not_owner_short_circuit
  (p : provider) (wallet owner : address) (call : Call) (chainId : Z)
  (code : string) (l : log) :
  getCode p wallet = Ok code ->
  code <> "0x"%string ->
  isOwnerAddress p wallet owner <> Ok true ->
  createSmartWalletTransaction p wallet owner call chainId l
  = (Thrown (NotOwnerError owner wallet),
     sent l [GetCode wallet; IsOwnerAddress wallet owner]).
Proof.
  intros Hcode Hne Hown. unfold createSmartWalletTransaction.
  erewrite bind_Ok by (rewrite ask_sent, Hcode; reflexivity).
  destruct (String.eqb_spec code "0x") as [E|_]; [contradiction|].
  erewrite bind_Ok by apply isOwner_run.
  rewrite sent_sent.
  destruct (isOwnerAddress p wallet owner) as [[|]|e];
    [congruence | reflexivity | reflexivity].
Qed.

(** The wallet is deployed and answers that the signer is no owner. *)
Lemma not_owner_short_circuit_witness :
  createSmartWalletTransaction Scenario.foreign Scenario.wallet Scenario.signer
    Scenario.transfer_call 1 empty_log
  = (Thrown (NotOwnerError Scenario.signer Scenario.wallet),
     sent empty_log [GetCode Scenario.wallet;
                     IsOwnerAddress Scenario.wallet Scenario.signer]).
Proof.
  apply (not_owner_short_circuit Scenario.foreign Scenario.wallet Scenario.signer
           Scenario.transfer_call 1 "0x6080604052" empty_log).
  - reflexivity.
  - vm_compute. discriminate.
  - vm_compute. discriminate.
Defined.

(** ** Nonce, fee data, gas estimate and the balance check *)

Lemma all2_ask {A B} (r1 r2 : request) (a1 : outcome A) (a2 : outcome B) (l : log) :
  all2 (ask r1 a1) (ask r2 a2) l
  = (match a1, a2 with
     | Ok a, Ok b => Ok (a, b)
     | Thrown e, _ => Thrown e
     | _, Thrown e => Thrown e
     end, sent l [r1; r2]).
Proof. unfold all2. rewrite !ask_sent, sent_sent. reflexivity. Qed.

Lemma estimateGasOrThrow_run (p : provider) (wallet owner : address)
  (d : string) (l : log) :
  estimateGasOrThrow p wallet owner d l
  = (match estimateGas p owner wallet d 0 with
     | Ok gas => Ok (with_buffer gas)
     | Thrown e => Thrown (GasEstimationFailedError e)
     end, sent l [EstimateGas owner wallet d 0]).
Proof.
  unfold estimateGasOrThrow, try_catch, bind. rewrite ask_sent.
  destruct (estimateGas p owner wallet d 0); reflexivity.
Qed.

Lemma estimateGasOrDefault_run (p : provider) (wallet owner : address)
  (d : string) (l : log) :
  estimateGasOrDefault p wallet owner d l
  = match estimateGas p owner wallet d 0 with
    | Ok gas => (Ok (with_buffer gas), sent l [EstimateGas owner wallet d 0])
    | Thrown e =>
        (Ok 300000,
         Log (requests l ++ [EstimateGas owner wallet d 0])
             (warnings l
                ++ [("⚠️ [Smart Wallet Batch] Gas estimation failed, using default: "
                       ++ message e)%string]))
    end.
Proof.
  unfold estimateGasOrDefault, try_catch, bind. rewrite ask_sent.
  destruct (estimateGas p owner wallet d 0); reflexivity.
Qed.

(** ** Amounts printed and read back *)








Lemma length_append (a b : string) :
  String.length (a ++ b) = (String.length a + String.length b)%nat.
Proof.
  induction a as [|c r IH]; [reflexivity|].
  cbn [append String.length]. rewrite IH. reflexivity.
Qed.











Lemma check_funds_run (p : provider) (wallet owner : address) (chainId : Z)
  (d : string) (nonce : Z) (fd : FeeData) (gas : Z) (l : log) :
  check_funds_and_build p wallet owner chainId d nonce fd gas l
  = (match getBalance p owner with
     | Ok b =>
         if b <? gas * fee_or_zero (maxFeePerGas fd)
         then Thrown (InsufficientGasFundsError
                        (gas * fee_or_zero (maxFeePerGas fd)) b)
         else Ok (mkTx wallet 0 d nonce chainId 2 (maxFeePerGas fd)
                       (maxPriorityFeePerGas fd) gas)
     | Thrown e => Thrown e
     end, sent l [GetBalance owner]).
Proof.
  unfold check_funds_and_build, bind. rewrite ask_sent.
  destruct (getBalance p owner) as [b|e]; [|reflexivity].
  destruct (b <? gas * fee_or_zero (maxFeePerGas fd)); reflexivity.
Qed.

(** A request built by the balance check satisfies the cost bound. *)
Lemma check_funds_Ok (p : provider) (wallet owner : address) (chainId : Z)
  (d : string) (nonce : Z) (fd : FeeData) (gas : Z) (l l' : log)
  (tx : TransactionRequest) :
  check_funds_and_build p wallet owner chainId d nonce fd gas l = (Ok tx, l') ->
  exists b, getBalance p owner = Ok b
            /\ tx_gasLimit tx * fee_or_zero (tx_maxFeePerGas tx) <= b
            /\ tx_to tx = wallet /\ tx_data tx = d /\ tx_gasLimit tx = gas.
Proof.
  rewrite check_funds_run.
  destruct (getBalance p owner) as [b|e]; [|discriminate].
  destruct (Z.ltb_spec b (gas * fee_or_zero (maxFeePerGas fd))); [discriminate|].
  intros E. injection E as <- _. exists b. simpl. repeat split; try reflexivity. lia.
Qed.


Lemma batch_path_Ok (p : provider) (wallet owner : address) (calls : list Call)
  (chainId : Z) (l l' : log) (tx : TransactionRequest) :
  createSmartWalletBatchTransaction p wallet owner calls chainId l = (Ok tx, l') ->
  exists d nonce fd gas l1,
    encodeExecuteBatchCall calls = Ok d
    /\ check_funds_and_build p wallet owner chainId d nonce fd gas l1 = (Ok tx, l').
Proof.
  unfold createSmartWalletBatchTransaction. intros H.
  apply bind_inv_Ok in H. destruct H as (d & l4 & Hd & H).
  apply bind_inv_Ok in H. destruct H as ([nonce fd] & l5 & _ & H).
  apply bind_inv_Ok in H. destruct H as (gas & l6 & _ & H).
  exists d, nonce, fd, gas, l6. split; [|exact H].
  unfold lift in Hd. injection Hd as Hd _. exact Hd.
Qed.

(** The batch path, query by query. *)
Lemma batch_path_run (p : provider) (wallet owner : address) (calls : list Call)
  (chainId : Z) (d : string) (nonce : Z) (fd : FeeData) (l : log) :
  encodeExecuteBatchCall calls = Ok d ->
  getTransactionCount p owner = Ok nonce ->
  getFeeData p = Ok fd ->
  createSmartWalletBatchTransaction p wallet owner calls chainId l
  = bind (estimateGasOrDefault p wallet owner d)
         (fun gas => check_funds_and_build p wallet owner chainId d nonce fd gas)
         (sent l [GetTransactionCount owner; GetFeeData]).
Proof.
  intros Hd Hn Hf. unfold createSmartWalletBatchTransaction.
  erewrite bind_Ok by (unfold lift; rewrite Hd; reflexivity).
  erewrite bind_Ok by (rewrite all2_ask, Hn, Hf; reflexivity).
  reflexivity.
Qed.

(** The single-call path after its checks, query by query. *)
Lemma single_path_run (p : provider) (wallet owner : address) (call : Call)
  (chainId : Z) (code d : string) (nonce : Z) (fd : FeeData) (l l' : log) :
  getCode p wallet = Ok code ->
  code <> "0x"%string ->
  isOwnerAddress p wallet owner = Ok true ->
  preflight p wallet call (sent l [GetCode wallet; IsOwnerAddress wallet owner])
    = (Ok tt, l') ->
  encodeExecuteCall call = Ok d ->
  getTransactionCount p owner = Ok nonce ->
  getFeeData p = Ok fd ->
  createSmartWalletTransaction p wallet owner call chainId l
  = bind (estimateGasOrThrow p wallet owner d)
         (fun gas => check_funds_and_build p wallet owner chainId d nonce fd gas)
         (sent l' [GetTransactionCount owner; GetFeeData]).
Proof.
  intros Hcode Hne Hown Hpre Hd Hn Hf. unfold createSmartWalletTransaction.
  erewrite bind_Ok by (rewrite ask_sent, Hcode; reflexivity).
  destruct (String.eqb_spec code "0x") as [E|_]; [contradiction|].
  erewrite bind_Ok by apply isOwner_run.
  rewrite Hown, sent_sent. cbn [negb app].
  erewrite bind_Ok by exact Hpre.
  erewrite bind_Ok by (unfold lift; rewrite Hd; reflexivity).
  erewrite bind_Ok by (rewrite all2_ask, Hn, Hf; reflexivity).
  reflexivity.
Qed.





(** ** A failed gas estimate *)

(** On the single-call path a failed estimate is fatal: the gas estimation
    error is thrown and no balance query follows. *)
Lemma single_path_estimate_failure
  (p : provider) (wallet owner : address) (call : Call) (chainId : Z)
  (code d : string) (nonce : Z) (fd : FeeData) (e : error) (l l' : log) :
  getCode p wallet = Ok code ->
  code <> "0x"%string ->
  isOwnerAddress p wallet owner = Ok true ->
  preflight p wallet call (sent l [GetCode wallet; IsOwnerAddress wallet owner])
    = (Ok tt, l') ->
  encodeExecuteCall call = Ok d ->
  getTransactionCount p owner = Ok nonce ->
  getFeeData p = Ok fd ->
  estimateGas p owner wallet d 0 = Thrown e ->
  createSmartWalletTransaction p wallet owner call chainId l
  = (Thrown (GasEstimationFailedError e),
     sent l' [GetTransactionCount owner; GetFeeData; EstimateGas owner wallet d 0]).
Proof.
  intros Hcode Hne Hown Hpre Hd Hn Hf Hg.
  rewrite (single_path_run p wallet owner call chainId code d nonce fd l l')
    by assumption.
  erewrite bind_Thrown by (rewrite estimateGasOrThrow_run, Hg; reflexivity).
  rewrite sent_sent. reflexivity.
Qed.

(** On the batch path a failed estimate is replaced by the default of
    300000 gas, with a console warning, and assembly goes on to the balance
    check. *)
Lemma batch_path_estimate_failure
  (p : provider) (wallet owner : address) (calls : list Call) (chainId : Z)
  (d : string) (nonce : Z) (fd : FeeData) (e : error) (l : log) :
  encodeExecuteBatchCall calls = Ok d ->
  getTransactionCount p owner = Ok nonce ->
  getFeeData p = Ok fd ->
  estimateGas p owner wallet d 0 = Thrown e ->
  createSmartWalletBatchTransaction p wallet owner calls chainId l
  = check_funds_and_build p wallet owner chainId d nonce fd 300000
      (Log (requests l ++ [GetTransactionCount owner; GetFeeData;
                           EstimateGas owner wallet d 0])
           (warnings l
              ++ [("⚠️ [Smart Wallet Batch] Gas estimation failed, using default: "
                     ++ message e)%string])).
Proof.
  intros Hd Hn Hf Hg.
  rewrite (batch_path_run p wallet owner calls chainId d nonce fd l) by assumption.
  unfold bind. rewrite estimateGasOrDefault_run, Hg.
  unfold sent. cbn [requests warnings]. rewrite <- app_assoc. reflexivity.
Qed.

(** C2. On a chain where every gas estimate reverts, the single-call path
    throws the gas estimation error for a token transfer, while the batch
    path, given two such transfers, returns a request whose gas limit is the
    default of 300000 and only warns on the console. *)
Theorem batch_estimate_failure_keeps_default :
  estimateGas Scenario.reverting Scenario.signer Scenario.wallet
    "0x"%string 0 = Thrown (Error "execution reverted")
  /\ fst (run (createSmartWalletTransaction Scenario.reverting Scenario.wallet
                 Scenario.signer Scenario.transfer_call 1))
     = Thrown (GasEstimationFailedError (Error "execution reverted"))
  /\ exists tx l,
      run (createSmartWalletBatchTransaction Scenario.reverting Scenario.wallet
             Scenario.signer [Scenario.transfer_call; Scenario.transfer_call] 1)
      = (Ok tx, l)
      /\ tx_gasLimit tx = 300000
      /\ warnings l
         = ["⚠️ [Smart Wallet Batch] Gas estimation failed, using default: execution reverted"%string].
Proof.
  split; [reflexivity|]. split; [vm_compute; reflexivity|].
  eexists. eexists. split; [vm_compute; reflexivity|].
  split; reflexivity.
Qed.

(** ** The bytecode check *)

(** The batch path asks neither for the bytecode nor for the owners: its
    run is the same whatever those two queries would answer. *)
Lemma batch_path_skips_account_checks
  (p : provider) (code : address -> outcome string)
  (owners : address -> address -> outcome bool)
  (wallet owner : address) (calls : list Call) (chainId : Z) (l : log) :
  createSmartWalletBatchTransaction
    (Scenario.with_getCode code (Scenario.with_isOwnerAddress owners p))
    wallet owner calls chainId l
  = createSmartWalletBatchTransaction p wallet owner calls chainId l.
Proof. reflexivity. Qed.

(** C3. On a chain with no contract at the wallet address, the single-call
    path throws the not-deployed error, naming the chain, after the bytecode
    query alone; the batch path sends four other requests, never the
    bytecode query, and returns a request. *)
Theorem batch_path_misses_bytecode_check :
  getCode Scenario.undeployed Scenario.wallet = Ok "0x"%string
  /\ run (createSmartWalletTransaction Scenario.undeployed Scenario.wallet
            Scenario.signer Scenario.transfer_call 8453)
     = (Thrown (AccountNotDeployedError Scenario.wallet 8453),
        Log [GetCode Scenario.wallet] [])
  /\ includes "Base" (message (AccountNotDeployedError Scenario.wallet 8453)) = true
  /\ exists tx l,
      run (createSmartWalletBatchTransaction Scenario.undeployed Scenario.wallet
             Scenario.signer [Scenario.transfer_call; Scenario.transfer_call] 8453)
      = (Ok tx, l)
      /\ requests l
         = [GetTransactionCount Scenario.signer; GetFeeData;
            EstimateGas Scenario.signer Scenario.wallet (tx_data tx) 0;
            GetBalance Scenario.signer].
Proof.
  split; [reflexivity|]. split; [vm_compute; reflexivity|].
  split; [vm_compute; reflexivity|].
  eexists. eexists. split; [vm_compute; reflexivity|].
  reflexivity.
Qed.

(** ** A recognised selector whose arguments do not decode *)

Lemma decodeFunctionData_error (f : fragment) (d : string) (e : error) :
  decodeFunctionData f d = Thrown e ->
  e = Error "invalid BytesLike value"
  \/ e = Error "data out-of-bounds"
  \/ e = Error ("data signature does not match function " ++ signature f).
Proof.
  unfold decodeFunctionData.
  destruct (getBytes d) as [bs|]; [|intros H; injection H as <-; auto].
  destruct (bytes_eqb (firstn 4 bs) (selector f));
    [|intros H; injection H as <-; auto].
  destruct (abi_dec (TTuple (inputs f)) (skipn 4 bs)) as [[ | | | |vs| ]|];
    intros H; try discriminate; injection H as <-; auto.
Qed.

Lemma typed_error {A} (view : list abi_val -> option A) (f : fragment)
  (d : string) (e : error) :
  typed view (decodeFunctionData f d) = Thrown e ->
  e = Error "invalid BytesLike value"
  \/ e = Error "data out-of-bounds"
  \/ e = Error ("data signature does not match function " ++ signature f).
Proof.
  unfold typed. destruct (decodeFunctionData f d) as [vs|e'] eqn:E.
  - destruct (view vs); intros H; [discriminate|].
    injection H as <-. auto.
  - intros H. injection H as <-. apply decodeFunctionData_error in E. exact E.
Qed.


(** The ERC-721 checks end with a warning when the arguments do not decode. *)
Lemma preflightERC721_undecodable
  (p : provider) (wallet : address) (call : Call) (e : error) (l : log) :
  decode_transferFrom (data call) = Thrown e ->
  preflightERC721 p wallet call l
  = (Ok tt,
     Log (requests l)
         (warnings l ++ [("⚠️ [Smart Wallet] Could not complete NFT checks: "
                            ++ message e)%string])).
Proof.
  intros H. unfold preflightERC721, try_catch, bind, lift. rewrite H.
  apply typed_error in H.
  destruct H as [-> | [-> | ->]]; reflexivity.
Qed.

(** *** The [Result] and its items *)

Lemma unpack_item_of_dec (t : abi_ty) (d : bytes) (v : abi_val) :
  abi_dec t d = Some v -> unpack_item t d = Some (Read v).
Proof.
  destruct t; cbn [abi_dec unpack_item]; try (intros ->; reflexivity).
  - destruct (read_word d) as [w|]; [|discriminate].
    destruct (w <? two160); [|discriminate].
    intros H. injection H as <-. reflexivity.
  - unfold read_index. destruct (read_word d) as [w|]; [|discriminate].
    destruct (w <=? MAX_SAFE_INTEGER); [|discriminate].
    destruct (read_padded (drop 32 d) w) as [b|]; [|discriminate].
    intros H. injection H as <-. reflexivity.
Qed.

Lemma unpack_items_of_unpack (ts : list abi_ty) (d : bytes) (pos : Z)
  (vs : list abi_val) :
  unpack_from d (coders_of ts) pos = Some vs ->
  unpack_items d ts pos = Some (map Read vs).
Proof.
  revert pos vs. induction ts as [|t r IH]; intros pos vs.
  - cbn. intros H. injection H as <-. reflexivity.
  - cbn [coders_of map unpack_from unpack_items].
    destruct (ty_dynamic t).
    + destruct (read_index (drop pos d)) as [off|]; [|discriminate].
      destruct (abi_dec t (drop off d)) as [v|] eqn:Ev; [|discriminate].
      rewrite (unpack_item_of_dec _ _ _ Ev).
      fold (coders_of r).
      destruct (unpack_from d (coders_of r) (pos + 32)) as [vs'|] eqn:Er;
        [|discriminate].
      rewrite (IH _ _ Er). intros H. injection H as <-. reflexivity.
    + destruct (abi_dec t (drop pos d)) as [v|] eqn:Ev; [|discriminate].
      rewrite (unpack_item_of_dec _ _ _ Ev).
      fold (coders_of r).
      destruct (unpack_from d (coders_of r) (pos + static_size t)) as [vs'|] eqn:Er;
        [|discriminate].
      rewrite (IH _ _ Er). intros H. injection H as <-. reflexivity.
Qed.

(** Where the arguments decode, every item of the [Result] can be read. *)
Lemma decodeFunctionResult_of_data (f : fragment) (d : string)
  (vs : list abi_val) :
  decodeFunctionData f d = Ok vs ->
  decodeFunctionResult f d = Ok (map Read vs).
Proof.
  unfold decodeFunctionData, decodeFunctionResult.
  destruct (getBytes d) as [bs|]; [|discriminate].
  destruct (bytes_eqb (firstn 4 bs) (selector f)); [|discriminate].
  cbn [abi_dec]. fold (coders_of (inputs f)). unfold unpack.
  destruct (unpack_from (skipn 4 bs) (coders_of (inputs f)) 0) as [ws|] eqn:E;
    [|discriminate].
  cbn [option_map]. intros H. injection H as <-.
  rewrite (unpack_items_of_unpack _ _ _ _ E). reflexivity.
Qed.




(** A token query that falls back to a default with a warning. *)
Lemma query_or_default {A} (r : request) (answer : outcome A) (w : string)
  (dflt : A) (l : log) :
  try_catch (ask r answer) (fun _ => bind (warn w) (fun _ => ret dflt)) l
  = (Ok match answer with Ok v => v | Thrown _ => dflt end,
     Log (requests l ++ [r])
         (warnings l ++ match answer with Ok _ => [] | Thrown _ => [w] end)).
Proof.
  unfold try_catch, bind, warn, ret. rewrite ask_sent.
  destruct answer; unfold sent; cbn [requests warnings];
    rewrite ?app_nil_r; reflexivity.
Qed.


Lemma prefix_app (n a b : string) :
  prefix n a = true -> prefix n (a ++ b)%string = true.
Proof.
  revert a. induction n as [|c n IH]; intros a H;
    [destruct (a ++ b)%string; reflexivity|].
  destruct a as [|c' a]; simpl in *; [discriminate|].
  destruct (ascii_dec c c'); [apply IH; exact H | discriminate].
Qed.

Lemma includes_app (n a b : string) :
  includes n a = true -> includes n (a ++ b)%string = true.
Proof.
  induction a as [|c a IH]; intros H.
  - destruct n as [|c n]; [destruct b; reflexivity | discriminate H].
  - cbn [includes] in H. cbn [append includes].
    destruct (prefix n (String c a)) eqn:P.
    + change (String c (a ++ b)%string) with (String c a ++ b)%string.
      rewrite (prefix_app _ _ b P). reflexivity.
    + rewrite (IH H). destruct (prefix n (String c (a ++ b))); reflexivity.
Qed.





(** ** The ENS transfer plan *)

Lemma encodeFunctionData_accepted (f : fragment) (args : list abi_val) :
  abi_accepts (TTuple (inputs f)) (VTuple args) = true ->
  encodeFunctionData f args = Ok (payload f args).
Proof. unfold encodeFunctionData. intros ->. reflexivity. Qed.

Lemma decode_payload (f : fragment) (args : list abi_val) :
  ty_wf (TTuple (inputs f)) = true ->
  List.length (selector f) = 4%nat ->
  abi_accepts (TTuple (inputs f)) (VTuple args) = true ->
  len (abi_encode args) <= MAX_SAFE_INTEGER ->
  decodeFunctionData f (payload f args) = Ok args.
Proof.
  intros Hwf Hsel Hacc Hmax.
  apply decodeFunctionData_encode; try assumption.
  apply encodeFunctionData_accepted, Hacc.
Qed.

(** What the encoder returns for a multi-token transfer reads back. *)
Lemma decode_safeTransferFrom1155_payload (from to tokenId amount : Z) (b : bytes) :
  abi_accepts (TTuple (inputs safeTransferFrom1155_fn))
    (VTuple [VAddress from; VAddress to; VUint256 tokenId; VUint256 amount;
             VBytes b]) = true ->
  len b < 2 ^ 52 ->
  decode_safeTransferFrom1155
    (payload safeTransferFrom1155_fn
       [VAddress from; VAddress to; VUint256 tokenId; VUint256 amount; VBytes b])
  = Ok (from, to, tokenId, amount).
Proof.
  intros Hacc Hlen. unfold decode_safeTransferFrom1155.
  rewrite (decodeFunctionResult_of_data safeTransferFrom1155_fn _
             [VAddress from; VAddress to; VUint256 tokenId; VUint256 amount;
              VBytes b]); [reflexivity|].
  apply decode_payload; [reflexivity | reflexivity | exact Hacc |].
  unfold abi_encode.
  cbn [abi_enc map is_dynamic pack head_length fold_right pack_from].
  len_simpl. fold (len b).
  pose proof (Z.mod_pos_bound (- len b) 32 ltac:(lia)).
  pose proof (len_nonneg b).
  assert (2 ^ 52 + 400 <= MAX_SAFE_INTEGER) by (vm_compute; discriminate).
  lia.
Qed.

Section KeccakFacts.

Variable keccak256 : bytes -> bytes.
Hypothesis keccak256_length : forall b, List.length (keccak256 b) = 32%nat.

Lemma len_keccak256 (b : bytes) : len (keccak256 b) = 32.
Proof. unfold len. rewrite keccak256_length. reflexivity. Qed.

(** C8. For a wrapped name (the contract is the name wrapper) the plan is
    the single ERC-1155 transfer of one unit on the name wrapper.  For an
    unwrapped name the plan is, in this order: [setAddr] on the resolver
    registered for the name, when there is one and it is not the zero
    address; [setOwner] on the registry; and [safeTransferFrom] of the token
    on the registrar.  So it has three calls with a resolver and two
    without, the token transfer always last.  Each payload decodes to the
    operation named. *)
Theorem ens_transfer_plan
  (contractAddress : address) (tokenId : Z) (currentOwner newOwner : address)
  (ensInfo : ENSInfo) :
  is_uint256 tokenId = true ->
  is_address currentOwner = true ->
  is_address newOwner = true ->
  let node := keccak256 (ethNamehash ++ be32 tokenId) in
  let setAddr := payload setAddr_fn [VBytes32 node; VAddress newOwner] in
  let setOwner :=
    mkCall ENS_CONTRACTS.REGISTRY 0
           (payload setOwner_fn [VBytes32 node; VAddress newOwner]) in
  let transferToken :=
    mkCall ENS_CONTRACTS.BASE_REGISTRAR 0
           (payload safeTransferFrom721_fn
              [VAddress currentOwner; VAddress newOwner; VUint256 tokenId]) in
  let transferWrapped :=
    mkCall ENS_CONTRACTS.NAME_WRAPPER 0
           (payload safeTransferFrom1155_fn
              [VAddress currentOwner; VAddress newOwner; VUint256 tokenId;
               VUint256 1; VBytes []]) in
  let plan :=
    createENSTransferCalls keccak256 contractAddress tokenId currentOwner newOwner
                           ensInfo in
  (contractAddress = ENS_CONTRACTS.NAME_WRAPPER -> plan = Ok [transferWrapped])
  /\ (contractAddress <> ENS_CONTRACTS.NAME_WRAPPER ->
      forall r, resolver ensInfo = Some r -> r <> 0 ->
                plan = Ok [mkCall r 0 setAddr; setOwner; transferToken])
  /\ (contractAddress <> ENS_CONTRACTS.NAME_WRAPPER ->
      resolver ensInfo = None \/ resolver ensInfo = Some 0 ->
      plan = Ok [setOwner; transferToken])
  /\ decodeFunctionData setAddr_fn setAddr = Ok [VBytes32 node; VAddress newOwner]
  /\ decodeFunctionData setOwner_fn (data setOwner)
     = Ok [VBytes32 node; VAddress newOwner]
  /\ decodeFunctionData safeTransferFrom721_fn (data transferToken)
     = Ok [VAddress currentOwner; VAddress newOwner; VUint256 tokenId]
  /\ decode_safeTransferFrom1155 (data transferWrapped)
     = Ok (currentOwner, newOwner, tokenId, 1).
Proof.
  intros Htok Hcur Hnew node setAddr setOwner transferToken transferWrapped plan.
  assert (Hnode : (List.length node =? 32)%nat = true).
  { unfold node. rewrite keccak256_length. reflexivity. }
  assert (A1 : abi_accepts (TTuple (inputs setAddr_fn))
                 (VTuple [VBytes32 node; VAddress newOwner]) = true).
  { cbn [abi_accepts inputs setAddr_fn forall2b]. rewrite Hnode, Hnew. reflexivity. }
  assert (A2 : abi_accepts (TTuple (inputs setOwner_fn))
                 (VTuple [VBytes32 node; VAddress newOwner]) = true).
  { cbn [abi_accepts inputs setOwner_fn forall2b]. rewrite Hnode, Hnew. reflexivity. }
  assert (A3 : abi_accepts (TTuple (inputs safeTransferFrom721_fn))
                 (VTuple [VAddress currentOwner; VAddress newOwner;
                          VUint256 tokenId]) = true).
  { cbn [abi_accepts inputs safeTransferFrom721_fn forall2b].
    rewrite Hcur, Hnew, Htok. reflexivity. }
  assert (A4 : abi_accepts (TTuple (inputs safeTransferFrom1155_fn))
                 (VTuple [VAddress currentOwner; VAddress newOwner;
                          VUint256 tokenId; VUint256 1; VBytes []]) = true).
  { cbn [abi_accepts inputs safeTransferFrom1155_fn forall2b].
    rewrite Hcur, Hnew, Htok. reflexivity. }
  assert (Hlen : len node = 32) by apply len_keccak256.
  assert (Hplan : forall wrapped,
            isWrappedENS contractAddress = wrapped ->
            plan = Ok (if wrapped then [transferWrapped]
                       else match resolver ensInfo with
                            | Some r => if negb (r =? 0)
                                        then [mkCall r 0 setAddr; setOwner;
                                              transferToken]
                                        else [setOwner; transferToken]
                            | None => [setOwner; transferToken]
                            end)).
  { intros wrapped Hw. unfold plan.
    unfold createENSTransferCalls, push, wrapperTransferCall, tokenIdToNamehash,
      setAddrCall, setOwnerCall, registrarTransferCall.
    fold node. rewrite Htok, Hw.
    rewrite (encodeFunctionData_accepted _ _ A1),
            (encodeFunctionData_accepted _ _ A2),
            (encodeFunctionData_accepted _ _ A3),
            (encodeFunctionData_accepted _ _ A4).
    destruct wrapped; [reflexivity|].
    destruct (resolver ensInfo) as [r|]; [|reflexivity].
    cbn [has_resolver resolver_or_zero]. unfold ZeroAddress.
    destruct (negb (r =? 0)); reflexivity. }
  split.
  { intros ->. apply (Hplan true). reflexivity. }
  split.
  { intros Hn r Hr Hr0. rewrite (Hplan false), Hr.
    - destruct (Z.eqb_spec r 0) as [E|_]; [contradiction | reflexivity].
    - unfold isWrappedENS. apply Z.eqb_neq, Hn. }
  split.
  { intros Hn Hr. rewrite (Hplan false).
    - destruct Hr as [-> | ->]; reflexivity.
    - unfold isWrappedENS. apply Z.eqb_neq, Hn. }
  split.
  { apply decode_payload; [reflexivity | reflexivity | exact A1 |].
    unfold abi_encode.
    cbn [abi_enc map is_dynamic pack head_length fold_right pack_from].
    len_simpl. rewrite Hlen. unfold MAX_SAFE_INTEGER. lia. }
  split.
  { apply decode_payload; [reflexivity | reflexivity | exact A2 |].
    unfold abi_encode.
    cbn [abi_enc map is_dynamic pack head_length fold_right pack_from].
    len_simpl. rewrite Hlen. unfold MAX_SAFE_INTEGER. lia. }
  split.
  { apply decode_payload; [reflexivity | reflexivity | exact A3 |].
    unfold abi_encode.
    cbn [abi_enc map is_dynamic pack head_length fold_right pack_from].
    len_simpl. unfold MAX_SAFE_INTEGER. lia. }
  { apply decode_safeTransferFrom1155_payload; [exact A4 | reflexivity]. }
Qed.

End KeccakFacts.

Lemma digest_length (b : bytes) : List.length (Scenario.digest b) = 32%nat.
Proof. unfold Scenario.digest, be32. apply length_be. Qed.

(** An unwrapped name whose registered resolver is a contract of the
    owner's choosing gives three calls, to that resolver, the registry and
    the registrar; without resolver two; a wrapped name gives the one call
    to the name wrapper. *)
Lemma ens_transfer_plan_witness :
  (exists c1 c2 c3,
      createENSTransferCalls Scenario.digest ENS_CONTRACTS.BASE_REGISTRAR 12345
        Scenario.wallet Scenario.friend
        (mkENSInfo (Some Scenario.wallet) (Some Scenario.wallet) None
                   (Some Scenario.token))
      = Ok [c1; c2; c3]
      /\ target c1 = Scenario.token
      /\ target c2 = ENS_CONTRACTS.REGISTRY
      /\ target c3 = ENS_CONTRACTS.BASE_REGISTRAR)
  /\ (exists c2 c3,
      createENSTransferCalls Scenario.digest ENS_CONTRACTS.BASE_REGISTRAR 12345
        Scenario.wallet Scenario.friend
        (mkENSInfo (Some Scenario.wallet) (Some Scenario.wallet) None
                   (Some ZeroAddress))
      = Ok [c2; c3]
      /\ target c2 = ENS_CONTRACTS.REGISTRY
      /\ target c3 = ENS_CONTRACTS.BASE_REGISTRAR)
  /\ (exists c,
      createENSTransferCalls Scenario.digest ENS_CONTRACTS.NAME_WRAPPER 12345
        Scenario.wallet Scenario.friend (mkENSInfo None None None None)
      = Ok [c]
      /\ target c = ENS_CONTRACTS.NAME_WRAPPER
      /\ decode_safeTransferFrom1155 (data c)
         = Ok (Scenario.wallet, Scenario.friend, 12345, 1)).
Proof.
  split; [|split].
  - destruct (ens_transfer_plan Scenario.digest digest_length
                ENS_CONTRACTS.BASE_REGISTRAR 12345 Scenario.wallet Scenario.friend
                (mkENSInfo (Some Scenario.wallet) (Some Scenario.wallet) None
                           (Some Scenario.token))
                eq_refl eq_refl eq_refl) as (_ & H & _).
    eexists. eexists. eexists. split.
    + apply (H ltac:(discriminate) Scenario.token eq_refl ltac:(discriminate)).
    + repeat split.
  - destruct (ens_transfer_plan Scenario.digest digest_length
                ENS_CONTRACTS.BASE_REGISTRAR 12345 Scenario.wallet Scenario.friend
                (mkENSInfo (Some Scenario.wallet) (Some Scenario.wallet) None
                           (Some ZeroAddress))
                eq_refl eq_refl eq_refl) as (_ & _ & H & _).
    eexists. eexists. split.
    + apply (H ltac:(discriminate) (or_intror eq_refl)).
    + repeat split.
  - destruct (ens_transfer_plan Scenario.digest digest_length
                ENS_CONTRACTS.NAME_WRAPPER 12345 Scenario.wallet Scenario.friend
                (mkENSInfo None None None None)
                eq_refl eq_refl eq_refl) as (H & _ & _ & _ & _ & _ & H4).
    eexists. split; [apply (H eq_refl)|]. split; [reflexivity | exact H4].
Defined.

(** ** The batch dispatch *)

Lemma len_pack_from_dynamic (items : list (bool * bytes)) (off : Z) :
  Forall (fun i => fst i = true) items ->
  len (fst (pack_from items off)) + len (snd (pack_from items off))
  = fold_right (fun i acc => 32 + len (snd i) + acc) 0 items.
Proof.
  intros H. revert off. induction H as [|[dyn e] r Hd _ IH]; intros off.
  - reflexivity.
  - cbn [fst] in Hd. subst dyn. rewrite pack_from_dynamic.
    cbn [fst snd fold_right]. rewrite !len_app, len_be32.
    specialize (IH (off + len e)). lia.
Qed.

Lemma len_pack_dynamic (items : list (bool * bytes)) :
  Forall (fun i => fst i = true) items ->
  len (pack items) = fold_right (fun i acc => 32 + len (snd i) + acc) 0 items.
Proof.
  intros H. rewrite len_pack, <- (len_pack_from_dynamic items (head_length items) H).
  rewrite pack_from_head. reflexivity.
Qed.

Lemma call_tuples_cons (c : Call) (r : list Call) (vs : list abi_val) :
  call_tuples (c :: r) = Ok vs ->
  exists bs vs',
    getBytes (data c) = Some bs
    /\ call_tuples r = Ok vs'
    /\ vs = VTuple [VAddress (target c); VUint256 (value c); VBytes bs] :: vs'.
Proof.
  cbn [call_tuples]. unfold bytes_arg.
  destruct (getBytes (data c)) as [bs|]; [|discriminate].
  destruct (call_tuples r) as [vs'|]; [|discriminate].
  intros H. injection H as <-. exists bs, vs'. auto.
Qed.

(** The encoded batch is no longer than [batch_size]. *)
Lemma len_batch (calls : list Call) (vs : list abi_val) :
  call_tuples calls = Ok vs ->
  Forall (fun i => fst i = true) (items_of vs)
  /\ fold_right (fun i acc => 32 + len (snd i) + acc) 0 (items_of vs) + 64
     <= batch_size calls.
Proof.
  revert vs. induction calls as [|c r IH]; intros vs H.
  - injection H as <-. split; [constructor | cbn; lia].
  - apply call_tuples_cons in H. destruct H as (bs & vs' & Hb & Hr & ->).
    destruct (IH vs' Hr) as [F B]. split.
    + constructor; [reflexivity | exact F].
    + change (batch_size (c :: r)) with (224 + data_len c + batch_size r).
      cbn [items_of map fold_right snd] in *.
      fold (items_of vs') in *. unfold data_len. rewrite Hb.
      cbn [abi_enc map is_dynamic pack head_length fold_right pack_from].
      len_simpl. fold (len bs).
      pose proof (Z.mod_pos_bound (- len bs) 32 ltac:(lia)). lia.
Qed.

Lemma calls_of_call_tuples (calls : list Call) (vs : list abi_val) :
  call_tuples calls = Ok vs ->
  Forall (fun c => exists bs, data c = hexlify bs) calls ->
  calls_of_tuples vs = Some calls.
Proof.
  revert vs. induction calls as [|c r IH]; intros vs H F.
  - injection H as <-. reflexivity.
  - apply call_tuples_cons in H. destruct H as (bs & vs' & Hb & Hr & ->).
    inversion F as [|? ? [bs' Hc] F']; subst.
    rewrite Hc, getBytes_hexlify in Hb. injection Hb as <-.
    cbn [calls_of_tuples]. rewrite (IH vs' Hr F').
    destruct c as [t v d]. cbn [data target value] in *. subst d. reflexivity.
Qed.

(** An encoded batch starts with the [executeBatch] selector and decodes
    back to the calls it was built from. *)
Lemma decode_executeBatch_encode (calls : list Call) (d : string) :
  encodeExecuteBatchCall calls = Ok d ->
  batch_size calls <= MAX_SAFE_INTEGER ->
  Forall (fun c => exists bs, data c = hexlify bs) calls ->
  slice0 10 d = "0x34fcd5be"%string /\ decode_executeBatch d = Ok calls.
Proof.
  unfold encodeExecuteBatchCall. intros H Hsize Hhex.
  destruct (call_tuples calls) as [vs|] eqn:Hvs; [|discriminate].
  destruct (len_batch calls vs Hvs) as [F B].
  pose proof (encodeFunctionData_Ok _ _ _ H) as [_ Hd].
  split.
  - rewrite Hd. cbn [selector executeBatch_fn]. rewrite slice_selector. reflexivity.
  - unfold decode_executeBatch.
    rewrite (decodeFunctionData_encode executeBatch_fn [VArray vs] d);
      [ | reflexivity | reflexivity | | exact H].
    + cbn [typed]. rewrite (calls_of_call_tuples calls vs Hvs Hhex). reflexivity.
    + unfold abi_encode.
      cbn [abi_enc map is_dynamic pack head_length fold_right pack_from].
      fold (items_of vs). len_simpl. rewrite Nat2Z.id || idtac.
      rewrite (len_pack_dynamic _ F). lia.
Qed.

Lemma data_len_payload (t : address) (v : Z) (f : fragment) (args : list abi_val) :
  data_len (mkCall t v (payload f args)) = len (selector f) + len (abi_encode args).
Proof.
  unfold data_len, payload. cbn [data]. rewrite getBytes_hexlify.
  apply len_app.
Qed.

Lemma push_Ok (calls : outcome (list Call)) (c : outcome Call) (cs : list Call) :
  push calls c = Ok cs ->
  exists cs0 x, calls = Ok cs0 /\ c = Ok x /\ cs = cs0 ++ [x].
Proof.
  unfold push. destruct calls as [cs0|]; [|discriminate].
  destruct c as [x|]; [|discriminate].
  intros H. injection H as <-. exists cs0, x. auto.
Qed.

Lemma encoded_call_Ok (f : fragment) (args : list abi_val) (t : address) (c : Call) :
  match encodeFunctionData f args with
  | Ok d => Ok (mkCall t 0 d)
  | Thrown e => Thrown e
  end = Ok c ->
  abi_accepts (TTuple (inputs f)) (VTuple args) = true
  /\ c = mkCall t 0 (payload f args).
Proof.
  destruct (encodeFunctionData f args) as [d|] eqn:E; [|discriminate].
  intros H. injection H as <-. apply encodeFunctionData_Ok in E.
  destruct E as [A ->]. split; [exact A | reflexivity].
Qed.

Section Batch.

Variable keccak256 : bytes -> bytes.

(** The plan of an unwrapped transfer, read back from a successful
    [createENSTransferCalls]: two or three calls whose payloads are
    function data of known size. *)
Lemma unwrapped_calls_inv
  (contractAddress : address) (tokenId : Z) (currentOwner newOwner : address)
  (ensInfo : ENSInfo) (calls : list Call) :
  isWrappedENS contractAddress = false ->
  createENSTransferCalls keccak256 contractAddress tokenId currentOwner newOwner
                         ensInfo = Ok calls ->
  (List.length calls = 2%nat \/ List.length calls = 3%nat)
  /\ Forall (fun c => exists bs, data c = hexlify bs) calls
  /\ batch_size calls <= 1200.
Proof.
  intros Hw. unfold createENSTransferCalls. rewrite Hw.
  unfold tokenIdToNamehash. destruct (is_uint256 tokenId); [|discriminate].
  set (node := keccak256 (ethNamehash ++ be32 tokenId)).
  intros H.
  apply push_Ok in H. destruct H as (cs2 & c3 & H & H3 & ->).
  apply push_Ok in H. destruct H as (cs1 & c2 & H & H2 & ->).
  apply encoded_call_Ok in H3. destruct H3 as [A3 ->].
  apply encoded_call_Ok in H2. destruct H2 as [A2 ->].
  assert (Hnode : len node = 32).
  { cbn [abi_accepts inputs setOwner_fn forall2b] in A2.
    apply andb_true_iff in A2. destruct A2 as [A2 _].
    apply Nat.eqb_eq in A2. unfold len. rewrite A2. reflexivity. }
  assert (S2 : data_len (mkCall ENS_CONTRACTS.REGISTRY 0
                           (payload setOwner_fn [VBytes32 node; VAddress newOwner]))
               = 68).
  { rewrite data_len_payload. unfold abi_encode.
    cbn [abi_enc map is_dynamic pack head_length fold_right pack_from].
    len_simpl. rewrite Hnode. reflexivity. }
  assert (S3 : data_len (mkCall ENS_CONTRACTS.BASE_REGISTRAR 0
                           (payload safeTransferFrom721_fn
                              [VAddress currentOwner; VAddress newOwner;
                               VUint256 tokenId]))
               = 100).
  { rewrite data_len_payload. unfold abi_encode.
    cbn [abi_enc map is_dynamic pack head_length fold_right pack_from].
    len_simpl. reflexivity. }
  destruct (has_resolver (resolver ensInfo)).
  - apply push_Ok in H. destruct H as (cs0 & c1 & H & H1 & ->).
    injection H as <-.
    apply encoded_call_Ok in H1. destruct H1 as [A1 ->].
    assert (S1 : data_len (mkCall (resolver_or_zero (resolver ensInfo)) 0
                             (payload setAddr_fn [VBytes32 node; VAddress newOwner]))
                 = 68).
    { rewrite data_len_payload. unfold abi_encode.
      cbn [abi_enc map is_dynamic pack head_length fold_right pack_from].
      len_simpl. rewrite Hnode. reflexivity. }
    split; [right; reflexivity|]. split.
    + repeat constructor; eexists; reflexivity.
    + cbn [app batch_size fold_right]. rewrite S1, S2, S3. lia.
  - injection H as <-.
    split; [left; reflexivity|]. split.
    + repeat constructor; eexists; reflexivity.
    + cbn [app batch_size fold_right]. rewrite S2, S3. lia.
Qed.

(** C1. When the transfer of an unwrapped ENS name returns a transaction,
    that one transaction is addressed to the smart wallet and its data is the
    [executeBatch] encoding of the whole plan: the plan has more than one
    call, the data starts with the [executeBatch] selector, and it decodes
    back to exactly the calls of the plan, in order. *)
Theorem ens_plan_is_one_batch
  (p : provider) (wallet owner nftContractAddress toAddress : address)
  (tokenId chainId : Z) (l l' : log) (tx : TransactionRequest) :
  isENSContract nftContractAddress = true ->
  isWrappedENS nftContractAddress = false ->
  createNFTTransferTransaction keccak256 p wallet owner nftContractAddress
                               toAddress tokenId chainId l = (Ok tx, l') ->
  exists ensInfo calls,
    createENSTransferCalls keccak256 nftContractAddress tokenId wallet toAddress
                           ensInfo = Ok calls
    /\ (1 < List.length calls)%nat
    /\ tx_to tx = wallet
    /\ encodeExecuteBatchCall calls = Ok (tx_data tx)
    /\ slice0 10 (tx_data tx) = "0x34fcd5be"%string
    /\ decode_executeBatch (tx_data tx) = Ok calls.
Proof.
  intros Hens Hw H. unfold createNFTTransferTransaction in H.
  rewrite Hens, Hw in H.
  apply bind_inv_Ok in H. destruct H as (ensInfo & l1 & _ & H).
  apply bind_inv_Ok in H. destruct H as (calls & l2 & Hc & H).
  unfold lift in Hc. injection Hc as Hc _.
  destruct (unwrapped_calls_inv _ _ _ _ _ _ Hw Hc) as (Hlen & Hhex & Hsize).
  assert (Hb : createSmartWalletBatchTransaction p wallet owner calls chainId l2
               = (Ok tx, l')).
  { destruct calls as [|c1 [|c2 r]]; [exact H | | exact H].
    destruct Hlen as [Hlen|Hlen]; discriminate Hlen. }
  apply batch_path_Ok in Hb.
  destruct Hb as (d & nonce & fd & gas & l3 & Hd & Hb).
  apply check_funds_Ok in Hb. destruct Hb as (b & _ & _ & Hto & Hdata & _).
  assert (Hmax : batch_size calls <= MAX_SAFE_INTEGER).
  { unfold MAX_SAFE_INTEGER. lia. }
  destruct (decode_executeBatch_encode calls d Hd Hmax Hhex) as [Hsel Hdec].
  exists ensInfo, calls. rewrite Hdata.
  split; [exact Hc|]. split; [destruct Hlen as [-> | ->]; lia|].
  split; [exact Hto|]. split; [exact Hd|]. split; assumption.
Qed.

End Batch.

(** The transfer of an unwrapped name on the sample chain: one transaction
    to the wallet carrying the three calls of the plan. *)
Lemma ens_plan_is_one_batch_witness :
  exists tx l',
    createNFTTransferTransaction Scenario.digest Scenario.chain Scenario.wallet
      Scenario.signer ENS_CONTRACTS.BASE_REGISTRAR Scenario.friend 12345 1
      empty_log = (Ok tx, l')
    /\ exists ensInfo calls,
        createENSTransferCalls Scenario.digest ENS_CONTRACTS.BASE_REGISTRAR 12345
          Scenario.wallet Scenario.friend ensInfo = Ok calls
        /\ (1 < List.length calls)%nat
        /\ tx_to tx = Scenario.wallet
        /\ encodeExecuteBatchCall calls = Ok (tx_data tx)
        /\ slice0 10 (tx_data tx) = "0x34fcd5be"%string
        /\ decode_executeBatch (tx_data tx) = Ok calls.
Proof.
  eexists. eexists. split; [vm_compute; reflexivity|].
  eapply (ens_plan_is_one_batch Scenario.digest Scenario.chain Scenario.wallet
            Scenario.signer ENS_CONTRACTS.BASE_REGISTRAR Scenario.friend 12345 1
            empty_log).
  - reflexivity.
  - reflexivity.
  - vm_compute. reflexivity.
Defined.

(* ===================================================================== *)
(** * Further properties *)
(* ===================================================================== *)

(** ** The single-call dispatch *)

(** X1. [encodeExecuteCall] of a call with a valid target, a value in
    range and a hex payload gives function data that starts with the
    [execute] selector and decodes back to the target, the value and the
    payload bytes. *)
Theorem execute_round_trip (call : Call) (bs : bytes) :
  is_address (target call) = true ->
  is_uint256 (value call) = true ->
  getBytes (data call) = Some bs ->
  len bs < 2 ^ 52 ->
  exists d,
    encodeExecuteCall call = Ok d
    /\ slice0 10 d = "0xb61d27f6"%string
    /\ decode_execute d = Ok (mkCall (target call) (value call) (hexlify bs)).
Proof.
  intros Ht Hv Hb Hlen.
  assert (Hacc : abi_accepts (TTuple (inputs execute_fn))
                   (VTuple [VAddress (target call); VUint256 (value call);
                            VBytes bs]) = true).
  { cbn [abi_accepts inputs execute_fn forall2b]. rewrite Ht, Hv. reflexivity. }
  exists (payload execute_fn
            [VAddress (target call); VUint256 (value call); VBytes bs]).
  split.
  { unfold encodeExecuteCall, bytes_arg. rewrite Hb.
    apply encodeFunctionData_accepted, Hacc. }
  split.
  { unfold payload. cbn [selector execute_fn]. rewrite slice_selector. reflexivity. }
  unfold decode_execute.
  rewrite decode_payload; [reflexivity | reflexivity | reflexivity | exact Hacc |].
  unfold abi_encode.
  cbn [abi_enc map is_dynamic pack head_length fold_right pack_from].
  len_simpl. fold (len bs).
  pose proof (Z.mod_pos_bound (- len bs) 32 ltac:(lia)).
  pose proof (len_nonneg bs).
  assert (2 ^ 52 + 200 <= MAX_SAFE_INTEGER) by (vm_compute; discriminate).
  lia.
Qed.

Lemma execute_round_trip_witness :
  exists d,
    encodeExecuteCall Scenario.transfer_call = Ok d
    /\ slice0 10 d = "0xb61d27f6"%string
    /\ decode_execute d = Ok Scenario.transfer_call.
Proof.
  destruct (execute_round_trip Scenario.transfer_call
              (selector transfer_fn
                 ++ abi_encode [VAddress Scenario.friend; VUint256 5]))
    as (d & H1 & H2 & H3).
  - reflexivity.
  - reflexivity.
  - vm_compute. reflexivity.
  - vm_compute. reflexivity.
  - exists d. split; [exact H1|]. split; [exact H2|].
    rewrite H3. vm_compute. reflexivity.
Defined.

(** The single-call path returns a request exactly under the conditions of
    [single_path_passes]. *)
(** A payload that no branch recognises is not checked. *)
Lemma preflight_unrecognised (p : provider) (wallet : address) (call : Call) :
  decode_recognized (data call) = None ->
  forall l, preflight p wallet call l = (Ok tt, l).
Proof.
  intros H l. unfold preflight. unfold decode_recognized in H.
  destruct (negb (target call =? wallet) && negb (data call =? "0x")%string);
    [|reflexivity].
  destruct ((slice0 10 (data call) =? "0x42842e0e")%string
            || (slice0 10 (data call) =? "0x23b872dd")%string);
    [discriminate|].
  destruct (slice0 10 (data call) =? "0xf242432a")%string; [discriminate|].
  destruct (slice0 10 (data call) =? "0xa9059cbb")%string; [discriminate|].
  reflexivity.
Qed.

Lemma single_path_passes_iff
  (p : provider) (wallet owner : address) (call : Call) (chainId : Z)
  (l l' : log) (tx : TransactionRequest) :
  createSmartWalletTransaction p wallet owner call chainId l = (Ok tx, l')
  <-> single_path_passes p wallet owner call chainId l l' tx.
Proof.
  split.
  - unfold createSmartWalletTransaction. intros H.
    apply bind_inv_Ok in H. destruct H as (code & l1 & Hcode & H).
    rewrite ask_sent in Hcode. injection Hcode as Hcode <-.
    destruct (String.eqb_spec code "0x") as [E|Hne]; [discriminate|].
    apply bind_inv_Ok in H. destruct H as (own & l2 & Hown & H).
    rewrite isOwner_run, sent_sent in Hown. cbn [app] in Hown.
    injection Hown as Hown <-.
    destruct (isOwnerAddress p wallet owner) as [[|]|e] eqn:Eown;
      subst own; try discriminate.
    cbn [negb] in H.
    apply bind_inv_Ok in H. destruct H as ([] & l3 & Hpre & H).
    apply bind_inv_Ok in H. destruct H as (d & l4 & Hd & H).
    unfold lift in Hd. injection Hd as Hd <-.
    apply bind_inv_Ok in H. destruct H as ([nonce fd] & l5 & Hnf & H).
    rewrite all2_ask in Hnf. injection Hnf as Hnf <-.
    destruct (getTransactionCount p owner) as [n|] eqn:En; [|discriminate].
    destruct (getFeeData p) as [f|] eqn:Ef; [|discriminate].
    injection Hnf as <- <-.
    apply bind_inv_Ok in H. destruct H as (gl & l6 & Hg & H).
    rewrite estimateGasOrThrow_run, sent_sent in Hg. cbn [app] in Hg.
    injection Hg as Hg <-.
    destruct (estimateGas p owner wallet d 0) as [gas|] eqn:Eg; [|discriminate].
    injection Hg as <-.
    rewrite check_funds_run, sent_sent in H. cbn [app] in H.
    injection H as H <-.
    destruct (getBalance p owner) as [b|] eqn:Eb; [|discriminate].
    destruct (Z.ltb_spec b (with_buffer gas * fee_or_zero (maxFeePerGas f)));
      [discriminate|].
    injection H as <-.
    exists code, d, n, f, gas, b, l3. repeat split; try assumption; reflexivity.
  - intros (code & d & nonce & fd & gas & b & l1 & Hcode & Hne & Hown & Hpre
            & Hd & Hn & Hf & Hg & Hb & Hle & -> & ->).
    rewrite (single_path_run p wallet owner call chainId code d nonce fd l l1)
      by assumption.
    erewrite bind_Ok by (rewrite estimateGasOrThrow_run, Hg; reflexivity).
    rewrite check_funds_run, Hb, !sent_sent. cbn [app].
    destruct (Z.ltb_spec b (with_buffer gas * fee_or_zero (maxFeePerGas fd)));
      [lia | reflexivity].
Qed.



(** The buffered limit lies between the estimate and one and a half times
    the estimate. *)
Lemma with_buffer_bounds (gas : Z) :
  0 <= gas -> gas <= with_buffer gas /\ 2 * with_buffer gas <= 3 * gas.
Proof.
  intros H. unfold with_buffer.
  rewrite Z.quot_div_nonneg by lia.
  pose proof (Z.div_mod (gas * 150) 100 ltac:(lia)).
  pose proof (Z.mod_pos_bound (gas * 150) 100 ltac:(lia)).
  lia.
Qed.

(** X3. A request returned by the single-call path carries a gas limit
    that is at least the estimate the chain gave for its data and at most one
    and a half times that estimate. *)
Theorem single_gas_limit_bounds
  (p : provider) (wallet owner : address) (call : Call) (chainId : Z)
  (l l' : log) (tx : TransactionRequest) (gas : Z) :
  createSmartWalletTransaction p wallet owner call chainId l = (Ok tx, l') ->
  estimateGas p owner wallet (tx_data tx) 0 = Ok gas ->
  0 <= gas ->
  gas <= tx_gasLimit tx /\ 2 * tx_gasLimit tx <= 3 * gas.
Proof.
  intros H Hg Hpos. apply single_path_passes_iff in H.
  destruct H as (code & d & nonce & fd & gas' & b & l1 & _ & _ & _ & _ & _ & _
                 & _ & Hg' & _ & _ & -> & _).
  cbn [tx_data tx_gasLimit] in *. rewrite Hg in Hg'. injection Hg' as <-.
  apply with_buffer_bounds, Hpos.
Qed.

Lemma single_gas_limit_bounds_witness :
  exists tx l',
    createSmartWalletTransaction Scenario.chain Scenario.wallet Scenario.signer
      Scenario.transfer_call 1 empty_log = (Ok tx, l')
    /\ 100000 <= tx_gasLimit tx /\ 2 * tx_gasLimit tx <= 3 * 100000.
Proof.
  eexists. eexists. split; [vm_compute; reflexivity|].
  eapply (single_gas_limit_bounds Scenario.chain Scenario.wallet Scenario.signer
            Scenario.transfer_call 1 empty_log).
  - vm_compute. reflexivity.
  - reflexivity.
  - lia.
Defined.

(** ** The batch dispatch, field by field *)


(** ** What a run sends *)

Lemma sends_only_ret (ok : request -> bool) {A} (a : A) : sends_only ok (ret a).
Proof. intros l. exists []. rewrite app_nil_r. split; reflexivity. Qed.

Lemma sends_only_throw (ok : request -> bool) {A} (e : error) :
  sends_only ok (@throw A e).
Proof. intros l. exists []. rewrite app_nil_r. split; reflexivity. Qed.

Lemma sends_only_lift (ok : request -> bool) {A} (o : outcome A) :
  sends_only ok (lift o).
Proof. intros l. exists []. rewrite app_nil_r. split; reflexivity. Qed.

Lemma sends_only_warn (ok : request -> bool) (s : string) : sends_only ok (warn s).
Proof. intros l. exists []. cbn. rewrite app_nil_r. split; reflexivity. Qed.

Lemma sends_only_ask (ok : request -> bool) {A} (r : request) (answer : outcome A) :
  ok r = true -> sends_only ok (ask r answer).
Proof. intros H l. exists [r]. cbn. rewrite H. split; reflexivity. Qed.

Lemma sends_only_bind (ok : request -> bool) {A B} (m : io A) (k : A -> io B) :
  sends_only ok m -> (forall a, sends_only ok (k a)) -> sends_only ok (bind m k).
Proof.
  intros Hm Hk l. unfold bind. destruct (Hm l) as (r1 & E1 & F1).
  destruct (m l) as [[a|e] l1]; cbn [snd] in *.
  - destruct (Hk a l1) as (r2 & E2 & F2). exists (r1 ++ r2).
    rewrite E2, E1, app_assoc, forallb_app, F1, F2. split; reflexivity.
  - exists r1. split; assumption.
Qed.

Lemma sends_only_try_catch (ok : request -> bool) {A} (m : io A)
  (h : error -> io A) :
  sends_only ok m -> (forall e, sends_only ok (h e)) -> sends_only ok (try_catch m h).
Proof.
  intros Hm Hh l. unfold try_catch. destruct (Hm l) as (r1 & E1 & F1).
  destruct (m l) as [[a|e] l1]; cbn [snd] in *.
  - exists r1. split; assumption.
  - destruct (Hh e l1) as (r2 & E2 & F2). exists (r1 ++ r2).
    rewrite E2, E1, app_assoc, forallb_app, F1, F2. split; reflexivity.
Qed.

Lemma sends_only_all2 (ok : request -> bool) {A B} (m1 : io A) (m2 : io B) :
  sends_only ok m1 -> sends_only ok m2 -> sends_only ok (all2 m1 m2).
Proof.
  intros H1 H2 l. unfold all2. destruct (H1 l) as (r1 & E1 & F1).
  destruct (m1 l) as [o1 l1]; cbn [snd] in *.
  destruct (H2 l1) as (r2 & E2 & F2).
  destruct (m2 l1) as [o2 l2]; cbn [snd] in *.
  exists (r1 ++ r2). rewrite E2, E1, app_assoc, forallb_app, F1, F2.
  split; reflexivity.
Qed.

Lemma sends_only_all3 (ok : request -> bool) {A B C}
  (m1 : io A) (m2 : io B) (m3 : io C) :
  sends_only ok m1 -> sends_only ok m2 -> sends_only ok m3 ->
  sends_only ok (all3 m1 m2 m3).
Proof.
  intros H1 H2 H3 l. unfold all3. destruct (H1 l) as (r1 & E1 & F1).
  destruct (m1 l) as [o1 l1]; cbn [snd] in *.
  destruct (H2 l1) as (r2 & E2 & F2).
  destruct (m2 l1) as [o2 l2]; cbn [snd] in *.
  destruct (H3 l2) as (r3 & E3 & F3).
  destruct (m3 l2) as [o3 l3]; cbn [snd] in *.
  exists (r1 ++ r2 ++ r3).
  rewrite E3, E2, E1, <- !app_assoc, !forallb_app, F1, F2, F3.
  split; reflexivity.
Qed.

Lemma sends_only_weaken (ok ok' : request -> bool) {A} (m : io A) :
  (forall r, ok r = true -> ok' r = true) -> sends_only ok m -> sends_only ok' m.
Proof.
  intros Hw H l. destruct (H l) as (rs & E & F). exists rs. split; [exact E|].
  rewrite forallb_forall in *. intros r Hr. apply Hw, F, Hr.
Qed.

(** Breaks a computation into its parts; queries are left to the caller. *)
Ltac sends_only_step :=
  first
    [ apply sends_only_ret
    | apply sends_only_throw
    | apply sends_only_lift
    | apply sends_only_warn
    | apply sends_only_ask; reflexivity
    | apply sends_only_bind; [|intros ?]
    | apply sends_only_try_catch; [|intros ?]
    | apply sends_only_all2
    | apply sends_only_all3
    | match goal with
      | |- sends_only _ (if ?b then _ else _) => destruct b
      | |- sends_only _ (match ?x with _ => _ end) => destruct x
      end ].

Lemma isOwner_sends (p : provider) (wallet owner : address) :
  sends_only administrative (isOwner p wallet owner).
Proof. unfold isOwner. repeat sends_only_step. Qed.

Lemma check_funds_sends (p : provider) (wallet owner : address) (chainId : Z)
  (d : string) (nonce : Z) (fd : FeeData) (gas : Z) :
  sends_only assembling
    (check_funds_and_build p wallet owner chainId d nonce fd gas).
Proof. unfold check_funds_and_build. repeat sends_only_step. Qed.

Lemma assembling_administrative (r : request) :
  assembling r = true -> administrative r = true.
Proof. destruct r; simpl; congruence. Qed.

(** The single-call path outside its pre-flight checks. *)
Lemma single_path_sends (ok : request -> bool)
  (p : provider) (wallet owner : address) (call : Call) (chainId : Z) :
  (forall r, administrative r = true -> ok r = true) ->
  sends_only ok (preflight p wallet call) ->
  sends_only ok (createSmartWalletTransaction p wallet owner call chainId).
Proof.
  intros Hok Hpre. unfold createSmartWalletTransaction.
  apply sends_only_bind.
  { apply sends_only_ask, Hok. reflexivity. }
  intros code. destruct (String.eqb code "0x"); [apply sends_only_throw|].
  apply sends_only_bind.
  { apply (sends_only_weaken administrative); [exact Hok | apply isOwner_sends]. }
  intros own. destruct (negb own); [apply sends_only_throw|].
  apply sends_only_bind; [exact Hpre|]. intros _.
  apply sends_only_bind; [apply sends_only_lift|]. intros d.
  apply sends_only_bind.
  { apply sends_only_all2; apply sends_only_ask, Hok; reflexivity. }
  intros [nonce fd].
  apply sends_only_bind.
  { unfold estimateGasOrThrow. apply sends_only_try_catch.
    - apply sends_only_bind; [apply sends_only_ask, Hok; reflexivity|].
      intros gas. apply sends_only_ret.
    - intros e. apply sends_only_throw. }
  intros gas.
  apply (sends_only_weaken assembling);
    [intros r Hr; apply Hok, assembling_administrative, Hr
    | apply check_funds_sends].
Qed.

(** X5. When the payload is empty, or its first ten characters are none
    of the four recognised selectors, the single-call path runs no
    pre-flight check: it sends no simulation and no token query, only
    bytecode, owner, nonce, fee, gas estimate and balance requests, and the
    pre-flight step leaves the log as it found it. *)
Theorem unrecognised_call_is_not_checked
  (p : provider) (wallet owner : address) (call : Call) (chainId : Z) :
  decode_recognized (data call) = None ->
  (forall l, preflight p wallet call l = (Ok tt, l))
  /\ sends_only administrative
       (createSmartWalletTransaction p wallet owner call chainId).
Proof.
  intros H.
  assert (Hpre : forall l, preflight p wallet call l = (Ok tt, l))
    by (apply preflight_unrecognised; exact H).
  split; [exact Hpre|].
  apply single_path_sends; [auto|].
  intros l. exists []. rewrite Hpre, app_nil_r. split; reflexivity.
Qed.

(** A native transfer: its payload is empty. *)
Lemma unrecognised_call_is_not_checked_witness :
  (forall l, preflight Scenario.chain Scenario.wallet
               (createSendETHCall Scenario.friend 1) l = (Ok tt, l))
  /\ sends_only administrative
       (createSmartWalletTransaction Scenario.chain Scenario.wallet
          Scenario.signer (createSendETHCall Scenario.friend 1) 1).
Proof.
  apply (unrecognised_call_is_not_checked Scenario.chain Scenario.wallet
           Scenario.signer (createSendETHCall Scenario.friend 1) 1).
  reflexivity.
Defined.

(** ** The pre-flight checks on decodable calls *)

Lemma Erc20InsufficientError_marker (bal A : Z) (dec : nat) (sym : string) :
  includes "Balance insufficiente"
    (message (Erc20InsufficientError bal A dec sym)) = true.
Proof. unfold Erc20InsufficientError, message. apply includes_app. reflexivity. Qed.

Lemma Erc20SimulationFailedError_marker (sym : string) :
  includes "ERRORE CRITICO" (message (Erc20SimulationFailedError sym)) = true.
Proof. unfold Erc20SimulationFailedError, message. apply includes_app. reflexivity. Qed.

(** [ethers.formatUnits] renders a 256-bit value with at most 80 decimals. *)
Lemma formatUnits_call_Ok (value decimals : Z) :
  is_uint256 value = true ->
  decimals <= 80 ->
  formatUnits_call value decimals = Ok (formatUnits value (Z.to_nat decimals)).
Proof.
  intros Hv Hd. unfold formatUnits_call, getFormat, checkValue.
  destruct (Z.ltb_spec 80 decimals) as [G|_]; [lia|].
  unfold is_uint256 in Hv. apply andb_prop in Hv. destruct Hv as [H0 H1].
  apply Z.leb_le in H0. apply Z.ltb_lt in H1.
  assert (B : two256 < 2 ^ 511) by (vm_compute; reflexivity).
  assert (B' : 0 < 2 ^ 511) by (vm_compute; reflexivity).
  destruct (Z.ltb_spec value (- 2 ^ 511)) as [G|_]; [lia|].
  destruct (Z.leb_spec (2 ^ 511) value) as [G|_]; [lia|].
  reflexivity.
Qed.

(** [ethers.formatUnits] with more than 80 decimals throws, and what it
    throws carries neither marker of the ERC-20 handler. *)
Lemma formatUnits_call_too_many_decimals (value decimals : Z) :
  80 < decimals ->
  exists e, formatUnits_call value decimals = Thrown e
            /\ includes "Balance insufficiente" (message e)
               || includes "ERRORE CRITICO" (message e) = false.
Proof.
  intros Hd. unfold formatUnits_call, getFormat.
  destruct (Z.ltb_spec 80 decimals) as [_|G]; [|lia].
  eexists. split; reflexivity.
Qed.

(** The amount of a call that [createSendERC20Call] accepted is a 256-bit
    number. *)
Lemma createSendERC20Call_amount (T R A : Z) (c : Call) :
  createSendERC20Call T R A = Ok c -> is_uint256 A = true.
Proof.
  unfold createSendERC20Call, encodeFunctionData.
  cbn [abi_accepts inputs transfer_fn forall2b].
  destruct (is_address R); cbn [andb]; [|discriminate].
  destruct (is_uint256 A); [reflexivity | discriminate].
Qed.

(** The ERC-20 branch on a payload that decodes, for a token whose balance
    and decimals [ethers.formatUnits] renders: the balance check, then the
    simulation. *)
Lemma preflightERC20_decoded
  (p : provider) (wallet : address) (call : Call) (R A : Z) (l : log) :
  decode_transfer (data call) = Ok (R, A) ->
  is_uint256 A = true ->
  is_uint256 (answer_or (erc20_balanceOf p (target call) wallet) 0) = true ->
  answer_or (erc20_decimals p (target call)) 18 <= 80 ->
  preflightERC20 p wallet call l
  = let bal := answer_or (erc20_balanceOf p (target call) wallet) 0 in
    let sym := answer_or (erc20_symbol p (target call)) "UNKNOWN"%string in
    let dec := answer_or (erc20_decimals p (target call)) 18 in
    let l3 := after_erc20_queries p (target call) wallet l in
    if bal <? A
    then (Thrown (Erc20InsufficientError bal A (Z.to_nat dec) sym), l3)
    else (match eth_call p wallet (target call) (data call) with
          | Ok _ => Ok tt
          | Thrown _ => Thrown (Erc20SimulationFailedError sym)
          end,
          sent l3 [EthCall wallet (target call) (data call)]).
Proof.
  intros H HA Hbal Hdec. unfold preflightERC20. unfold try_catch at 1.
  erewrite bind_Ok by apply query_or_default.
  erewrite bind_Ok by apply query_or_default.
  erewrite bind_Ok by apply query_or_default.
  erewrite bind_Ok by (unfold lift; rewrite H; reflexivity).
  cbn [requests warnings].
  fold (answer_or (erc20_balanceOf p (target call) wallet) 0).
  fold (answer_or (erc20_symbol p (target call)) "UNKNOWN"%string).
  fold (answer_or (erc20_decimals p (target call)) 18).
  erewrite bind_Ok
    by (unfold lift; rewrite (formatUnits_call_Ok _ _ Hbal Hdec); reflexivity).
  erewrite bind_Ok
    by (unfold lift; rewrite (formatUnits_call_Ok _ _ HA Hdec); reflexivity).
  set (bal := answer_or (erc20_balanceOf p (target call) wallet) 0).
  set (sym := answer_or (erc20_symbol p (target call)) "UNKNOWN"%string).
  set (dec := answer_or (erc20_decimals p (target call)) 18).
  cbv zeta. unfold after_erc20_queries, erc20_query_warnings.
  destruct (bal <? A).
  - unfold bind, throw. rewrite Erc20InsufficientError_marker. cbn [orb].
    rewrite <- !app_assoc. reflexivity.
  - unfold bind, ret, try_catch, ask, throw, sent. cbn [requests warnings].
    destruct (eth_call p wallet (target call) (data call)).
    + rewrite <- !app_assoc. reflexivity.
    + rewrite Erc20SimulationFailedError_marker, Bool.orb_true_r.
      rewrite <- !app_assoc. reflexivity.
Qed.

(** What [createSendERC20Call] returns, and where the dispatch sends it. *)
Lemma createSendERC20Call_Ok (T R A : Z) (c : Call) :
  createSendERC20Call T R A = Ok c ->
  c = mkCall T 0 (payload transfer_fn [VAddress R; VUint256 A])
  /\ decode_transfer (data c) = Ok (R, A)
  /\ forall p wallet, T <> wallet -> preflight p wallet c = preflightERC20 p wallet c.
Proof.
  unfold createSendERC20Call.
  destruct (encodeFunctionData transfer_fn [VAddress R; VUint256 A]) as [d|e] eqn:E;
    [|discriminate].
  intros H. injection H as <-.
  assert (Hacc : abi_accepts (TTuple (inputs transfer_fn))
                   (VTuple [VAddress R; VUint256 A]) = true).
  { unfold encodeFunctionData in E.
    destruct (abi_accepts (TTuple (inputs transfer_fn))
                (VTuple [VAddress R; VUint256 A])); [reflexivity | discriminate]. }
  rewrite (encodeFunctionData_accepted _ _ Hacc) in E. injection E as <-.
  split; [reflexivity|]. cbn [data target].
  assert (Hdec : decodeFunctionData transfer_fn
                   (payload transfer_fn [VAddress R; VUint256 A])
                 = Ok [VAddress R; VUint256 A]).
  { apply decode_payload; [reflexivity | reflexivity | exact Hacc |].
    unfold abi_encode.
    cbn [abi_enc map is_dynamic pack head_length fold_right pack_from].
    len_simpl. unfold MAX_SAFE_INTEGER. lia. }
  split.
  - unfold decode_transfer. rewrite Hdec. reflexivity.
  - intros p wallet HT. unfold preflight. cbn [target data].
    unfold payload. cbn [selector transfer_fn]. rewrite slice_selector.
    destruct (Z.eqb_spec T wallet) as [E|_]; [contradiction|].
    unfold hexlify at 1. reflexivity.
Qed.

(** A rejection by the pre-flight checks ends the single-call path. *)
Lemma single_path_preflight_failure
  (p : provider) (wallet owner : address) (call : Call) (chainId : Z)
  (code : string) (e : error) (l l' : log) :
  getCode p wallet = Ok code ->
  code <> "0x"%string ->
  isOwnerAddress p wallet owner = Ok true ->
  preflight p wallet call (sent l [GetCode wallet; IsOwnerAddress wallet owner])
    = (Thrown e, l') ->
  createSmartWalletTransaction p wallet owner call chainId l = (Thrown e, l').
Proof.
  intros Hcode Hne Hown Hpre. unfold createSmartWalletTransaction.
  erewrite bind_Ok by (rewrite ask_sent, Hcode; reflexivity).
  destruct (String.eqb_spec code "0x") as [E|_]; [contradiction|].
  erewrite bind_Ok by apply isOwner_run.
  rewrite Hown, sent_sent. cbn [negb app].
  erewrite bind_Thrown by exact Hpre. reflexivity.
Qed.

(** X6. A token transfer built by [createSendERC20Call] for more than the
    wallet's token balance is rejected with the insufficient-balance error
    before anything is simulated or estimated: after the bytecode and owner
    checks only the three token queries are sent.  A balance query that
    fails counts as a balance of zero, a decimals query that fails as 18
    decimals.  This is for a token whose balance is a 256-bit number and
    which reports at most 80 decimals, the most [ethers.formatUnits]
    renders. *)
Theorem token_transfer_beyond_balance_rejected
  (p : provider) (wallet owner T R A chainId : Z) (code : string) (c : Call)
  (l : log) :
  createSendERC20Call T R A = Ok c ->
  T <> wallet ->
  getCode p wallet = Ok code ->
  code <> "0x"%string ->
  isOwnerAddress p wallet owner = Ok true ->
  is_uint256 (answer_or (erc20_balanceOf p T wallet) 0) = true ->
  0 <= answer_or (erc20_decimals p T) 18 <= 80 ->
  answer_or (erc20_balanceOf p T wallet) 0 < A ->
  exists l',
    createSmartWalletTransaction p wallet owner c chainId l
    = (Thrown (Erc20InsufficientError
                 (answer_or (erc20_balanceOf p T wallet) 0) A
                 (Z.to_nat (answer_or (erc20_decimals p T) 18))
                 (answer_or (erc20_symbol p T) "UNKNOWN"%string)), l')
    /\ requests l'
       = (requests l ++ [GetCode wallet; IsOwnerAddress wallet owner;
                         Erc20BalanceOf T wallet; Erc20Symbol T;
                         Erc20Decimals T])%list.
Proof.
  intros Hc HT Hcode Hne Hown Hbal Hd Hlt.
  destruct (createSendERC20Call_Ok _ _ _ _ Hc) as (Hshape & Hdec & Hpre).
  assert (Ht : target c = T) by (rewrite Hshape; reflexivity).
  eexists. split.
  - eapply single_path_preflight_failure; try eassumption.
    rewrite (Hpre p wallet HT).
    rewrite (preflightERC20_decoded _ _ _ _ _ _ Hdec
               (createSendERC20Call_amount _ _ _ _ Hc))
      by (rewrite Ht; first [exact Hbal | apply Hd]).
    cbv zeta. rewrite Ht.
    destruct (Z.ltb_spec (answer_or (erc20_balanceOf p T wallet) 0) A) as [_|G];
      [reflexivity | lia].
  - unfold after_erc20_queries, sent. cbn [requests].
    rewrite <- app_assoc. reflexivity.
Qed.

(** Two units of a token of which the wallet holds one; and any amount of a
    token whose balance query fails. *)
Lemma token_transfer_beyond_balance_rejected_witness :
  (exists l',
     createSmartWalletTransaction Scenario.chain Scenario.wallet Scenario.signer
       (mkCall Scenario.token 0
          (payload transfer_fn [VAddress Scenario.friend; VUint256 2000000])) 1
       empty_log
     = (Thrown (Erc20InsufficientError 1000000 2000000 6 "USDT"), l')
     /\ requests l'
        = [GetCode Scenario.wallet;
           IsOwnerAddress Scenario.wallet Scenario.signer;
           Erc20BalanceOf Scenario.token Scenario.wallet;
           Erc20Symbol Scenario.token; Erc20Decimals Scenario.token])
  /\ (exists l',
        createSmartWalletTransaction Cases.mute_token Scenario.wallet
          Scenario.signer
          (mkCall Scenario.token 0
             (payload transfer_fn [VAddress Scenario.friend; VUint256 1])) 1
          empty_log
        = (Thrown (Erc20InsufficientError 0 1 6 "USDT"), l')
        /\ requests l'
           = [GetCode Scenario.wallet;
              IsOwnerAddress Scenario.wallet Scenario.signer;
              Erc20BalanceOf Scenario.token Scenario.wallet;
              Erc20Symbol Scenario.token; Erc20Decimals Scenario.token]).
Proof.
  split.
  - apply (token_transfer_beyond_balance_rejected Scenario.chain Scenario.wallet
             Scenario.signer Scenario.token Scenario.friend 2000000 1
             "0x6080604052"%string
             (mkCall Scenario.token 0
                (payload transfer_fn [VAddress Scenario.friend; VUint256 2000000]))
             empty_log);
      [reflexivity | discriminate | reflexivity | discriminate | reflexivity
      | reflexivity | vm_compute; split; discriminate | reflexivity].
  - apply (token_transfer_beyond_balance_rejected Cases.mute_token Scenario.wallet
             Scenario.signer Scenario.token Scenario.friend 1 1
             "0x6080604052"%string
             (mkCall Scenario.token 0
                (payload transfer_fn [VAddress Scenario.friend; VUint256 1]))
             empty_log);
      [reflexivity | discriminate | reflexivity | discriminate | reflexivity
      | reflexivity | vm_compute; split; discriminate | reflexivity].
Defined.

(** X7. A token transfer within the balance whose simulated call fails is
    rejected with the critical error naming the token symbol: the simulation
    is the last request of the run, so nothing is encoded for the wallet and
    no gas is estimated.  This is for a token whose balance is a 256-bit
    number and which reports at most 80 decimals, the most
    [ethers.formatUnits] renders. *)
Theorem token_transfer_failed_simulation_is_fatal
  (p : provider) (wallet owner T R A chainId : Z) (code : string) (c : Call)
  (e : error) (l : log) :
  createSendERC20Call T R A = Ok c ->
  T <> wallet ->
  getCode p wallet = Ok code ->
  code <> "0x"%string ->
  isOwnerAddress p wallet owner = Ok true ->
  is_uint256 (answer_or (erc20_balanceOf p T wallet) 0) = true ->
  0 <= answer_or (erc20_decimals p T) 18 <= 80 ->
  A <= answer_or (erc20_balanceOf p T wallet) 0 ->
  eth_call p wallet T (data c) = Thrown e ->
  exists l',
    createSmartWalletTransaction p wallet owner c chainId l
    = (Thrown (Erc20SimulationFailedError
                 (answer_or (erc20_symbol p T) "UNKNOWN"%string)), l')
    /\ requests l'
       = (requests l ++ [GetCode wallet; IsOwnerAddress wallet owner;
                         Erc20BalanceOf T wallet; Erc20Symbol T;
                         Erc20Decimals T; EthCall wallet T (data c)])%list.
Proof.
  intros Hc HT Hcode Hne Hown Hbal Hd Hle Hsim.
  destruct (createSendERC20Call_Ok _ _ _ _ Hc) as (Hshape & Hdec & Hpre).
  assert (Ht : target c = T) by (rewrite Hshape; reflexivity).
  eexists. split.
  - eapply single_path_preflight_failure; try eassumption.
    rewrite (Hpre p wallet HT).
    rewrite (preflightERC20_decoded _ _ _ _ _ _ Hdec
               (createSendERC20Call_amount _ _ _ _ Hc))
      by (rewrite Ht; first [exact Hbal | apply Hd]).
    cbv zeta. rewrite Ht, Hsim.
    destruct (Z.ltb_spec (answer_or (erc20_balanceOf p T wallet) 0) A) as [G|_];
      [lia | reflexivity].
  - unfold after_erc20_queries, sent. cbn [requests].
    rewrite <- !app_assoc. reflexivity.
Qed.

Lemma token_transfer_failed_simulation_is_fatal_witness :
  exists l',
    createSmartWalletTransaction Cases.paused Scenario.wallet Scenario.signer
      Scenario.transfer_call 1 empty_log
    = (Thrown (Erc20SimulationFailedError "USDT"), l')
    /\ requests l'
       = [GetCode Scenario.wallet;
          IsOwnerAddress Scenario.wallet Scenario.signer;
          Erc20BalanceOf Scenario.token Scenario.wallet;
          Erc20Symbol Scenario.token; Erc20Decimals Scenario.token;
          EthCall Scenario.wallet Scenario.token (data Scenario.transfer_call)].
Proof.
  apply (token_transfer_failed_simulation_is_fatal Cases.paused Scenario.wallet
           Scenario.signer Scenario.token Scenario.friend 5 1
           "0x6080604052"%string Scenario.transfer_call
           (Error "execution reverted") empty_log);
    [vm_compute; reflexivity | discriminate | reflexivity | discriminate
    | reflexivity | reflexivity | vm_compute; split; discriminate
    | vm_compute; discriminate | reflexivity].
Defined.

(** X28. A token that reports more than 80 decimals is not checked: the
    amounts cannot be printed, so after the three token queries the checks
    of a transfer built by [createSendERC20Call] end with one "Could not
    complete token checks" warning, whatever the balance and the amount.
    Nothing is thrown and nothing is simulated. *)
Theorem token_with_many_decimals_is_not_checked
  (p : provider) (wallet T R A dec : Z) (c : Call) (l : log) :
  createSendERC20Call T R A = Ok c ->
  T <> wallet ->
  erc20_decimals p T = Ok dec ->
  80 < dec ->
  exists w,
    preflight p wallet c l
    = (Ok tt, warned (after_erc20_queries p T wallet l) [w])
    /\ includes "Could not complete token checks" w = true.
Proof.
  intros Hc HT Hdec Hgt.
  destruct (createSendERC20Call_Ok _ _ _ _ Hc) as (Hshape & Hd & Hpre).
  assert (Ht : target c = T) by (rewrite Hshape; reflexivity).
  rewrite (Hpre p wallet HT). unfold preflightERC20. unfold try_catch at 1.
  erewrite bind_Ok by apply query_or_default.
  erewrite bind_Ok by apply query_or_default.
  erewrite bind_Ok by apply query_or_default.
  erewrite bind_Ok by (unfold lift; rewrite Hd; reflexivity).
  cbn [requests warnings]. rewrite Ht, Hdec.
  destruct (formatUnits_call_too_many_decimals
              match erc20_balanceOf p T wallet with
              | Ok v => v
              | Thrown _ => 0
              end dec Hgt) as (e & He & Hm).
  erewrite bind_Thrown by (unfold lift; rewrite He; reflexivity).
  rewrite Hm. eexists. split.
  - unfold warn, warned, after_erc20_queries, erc20_query_warnings.
    cbn [requests warnings]. rewrite Hdec, <- !app_assoc. reflexivity.
  - apply includes_app. reflexivity.
Qed.

(** Five units of a token with 96 decimals, of which the wallet holds
    one. *)
Lemma token_with_many_decimals_is_not_checked_witness :
  exists w,
    preflight Cases.fine_grained Scenario.wallet Scenario.transfer_call empty_log
    = (Ok tt,
       warned (after_erc20_queries Cases.fine_grained Scenario.token
                 Scenario.wallet empty_log) [w])
    /\ includes "Could not complete token checks" w = true.
Proof.
  apply (token_with_many_decimals_is_not_checked Cases.fine_grained
           Scenario.wallet Scenario.token Scenario.friend 5 96
           Scenario.transfer_call empty_log);
    [vm_compute; reflexivity | discriminate | reflexivity | reflexivity].
Defined.

Lemma from_mismatch_warnings_run (from wallet : address) (l : log) :
  from_mismatch_warnings from wallet l = (Ok tt, warned l (mismatch_notes from wallet)).
Proof.
  unfold from_mismatch_warnings, mismatch_notes, warned.
  destruct (negb (from =? wallet)).
  - unfold bind, warn. cbn [requests warnings]. rewrite <- app_assoc. reflexivity.
  - unfold ret. rewrite app_nil_r. destruct l; reflexivity.
Qed.

Lemma NftNotOwnedError_markers (owner wallet : address) :
  includes "NON possiede" (message (NftNotOwnedError owner wallet)) = true
  /\ includes "❌ ERRORE" (message (NftNotOwnedError owner wallet)) = true.
Proof.
  unfold NftNotOwnedError, message.
  split; apply includes_app; reflexivity.
Qed.

Lemma NftOwnershipUnverifiableError_marker (tokenId : Z) :
  includes "❌ ERRORE" (message (NftOwnershipUnverifiableError tokenId)) = true.
Proof.
  unfold NftOwnershipUnverifiableError, message. apply includes_app. reflexivity.
Qed.

(** The ERC-721 branch on a payload that decodes as [transferFrom]: the owner
    check, the note on [from], then the simulation. *)
Lemma preflightERC721_decoded
  (p : provider) (wallet : address) (call : Call) (from to tokenId : Z) (l : log) :
  decode_transferFrom (data call) = Ok (from, to, tokenId) ->
  preflightERC721 p wallet call l
  = let l1 := sent l [Erc721OwnerOf (target call) tokenId] in
    match erc721_ownerOf p (target call) tokenId with
    | Ok owner =>
        if owner =? wallet then
          (match eth_call p wallet (target call) (data call) with
           | Ok _ => Ok tt
           | Thrown _ => Thrown NftSimulationFailedError
           end,
           sent (warned l1 (mismatch_notes from wallet))
                [EthCall wallet (target call) (data call)])
        else (Thrown (NftNotOwnedError owner wallet), l1)
    | Thrown e =>
        if includes "NON possiede" (message e) then
          if includes "❌ ERRORE" (message e) then (Thrown e, l1)
          else (Ok tt,
                warned l1 [("⚠️ [Smart Wallet] Could not complete NFT checks: "
                              ++ message e)%string])
        else (Thrown (NftOwnershipUnverifiableError tokenId), l1)
    end.
Proof.
  intros H. unfold preflightERC721. unfold try_catch at 1.
  erewrite bind_Ok by (unfold lift; rewrite H; reflexivity).
  cbv zeta. unfold bind at 1. unfold try_catch at 1. unfold bind at 1.
  rewrite ask_sent.
  destruct (erc721_ownerOf p (target call) tokenId) as [owner|e].
  - destruct (owner =? wallet) eqn:E; cbn [negb].
    + unfold ret at 1. unfold bind at 1. rewrite from_mismatch_warnings_run.
      unfold try_catch, bind, ask, ret, throw, sent, warned.
      cbn [requests warnings].
      destruct (eth_call p wallet (target call) (data call)); reflexivity.
    + unfold throw at 1.
      destruct (NftNotOwnedError_markers owner wallet) as [M1 M2].
      rewrite M1. unfold throw at 1. rewrite M2. reflexivity.
  - destruct (includes "NON possiede" (message e)).
    + unfold throw at 1.
      destruct (includes "❌ ERRORE" (message e)); reflexivity.
    + unfold throw at 1. rewrite NftOwnershipUnverifiableError_marker.
      reflexivity.
Qed.

Lemma preflight_transferFrom (p : provider) (wallet : address) (call : Call) :
  target call <> wallet ->
  slice0 10 (data call) = "0x23b872dd"%string ->
  preflight p wallet call = preflightERC721 p wallet call.
Proof.
  intros Ht Hs. unfold preflight. rewrite Hs.
  destruct (Z.eqb_spec (target call) wallet) as [E|_]; [contradiction|].
  destruct (String.eqb_spec (data call) "0x") as [E|_];
    [rewrite E in Hs; discriminate Hs | reflexivity].
Qed.

(** X8. For a [transferFrom] call on another contract whose arguments
    decode, the pre-flight checks pass exactly when the collection names the
    wallet as owner of the token and the simulated call succeeds; a [from]
    argument that is not the wallet never decides.  The one other way through
    is an owner query failing with a message that holds the words of the
    not-owned error without its prefix, which ends in a warning. *)
Theorem nft_checks_pass_iff
  (p : provider) (wallet : address) (call : Call) (from to tokenId : Z) (l : log) :
  target call <> wallet ->
  slice0 10 (data call) = "0x23b872dd"%string ->
  decode_transferFrom (data call) = Ok (from, to, tokenId) ->
  (exists l', preflight p wallet call l = (Ok tt, l'))
  <-> (erc721_ownerOf p (target call) tokenId = Ok wallet
       /\ exists r, eth_call p wallet (target call) (data call) = Ok r)
      \/ (exists e, erc721_ownerOf p (target call) tokenId = Thrown e
                    /\ includes "NON possiede" (message e) = true
                    /\ includes "❌ ERRORE" (message e) = false).
Proof.
  intros Ht Hs Hd.
  rewrite (preflight_transferFrom p wallet call Ht Hs),
          (preflightERC721_decoded p wallet call from to tokenId l Hd).
  cbv zeta. split.
  - intros [l' H].
    destruct (erc721_ownerOf p (target call) tokenId) as [owner|e].
    + left. destruct (Z.eqb_spec owner wallet) as [E|_]; [|discriminate].
      split; [rewrite E; reflexivity|].
      destruct (eth_call p wallet (target call) (data call)) as [r|e];
        [exists r; reflexivity | discriminate].
    + right. exists e. split; [reflexivity|].
      destruct (includes "NON possiede" (message e)); [|discriminate].
      destruct (includes "❌ ERRORE" (message e)); [discriminate|].
      split; reflexivity.
  - intros [[Ho [r Hr]] | [e [Ho [H1 H2]]]]; rewrite Ho.
    + rewrite Z.eqb_refl, Hr. eexists. reflexivity.
    + rewrite H1, H2. eexists. reflexivity.
Qed.

(** A token the wallet holds, sent with [friend] as [from]: the checks
    pass. *)
Lemma nft_checks_pass_iff_witness :
  (exists l',
     preflight Scenario.chain Scenario.wallet
       (mkCall Cases.collection 0
          (payload transferFrom_fn
             [VAddress Scenario.friend; VAddress Scenario.signer; VUint256 7]))
       empty_log = (Ok tt, l'))
  <-> (erc721_ownerOf Scenario.chain Cases.collection 7 = Ok Scenario.wallet
       /\ exists r,
           eth_call Scenario.chain Scenario.wallet Cases.collection
             (payload transferFrom_fn
                [VAddress Scenario.friend; VAddress Scenario.signer; VUint256 7])
           = Ok r)
      \/ (exists e, erc721_ownerOf Scenario.chain Cases.collection 7 = Thrown e
                    /\ includes "NON possiede" (message e) = true
                    /\ includes "❌ ERRORE" (message e) = false).
Proof.
  apply (nft_checks_pass_iff Scenario.chain Scenario.wallet
           (mkCall Cases.collection 0
              (payload transferFrom_fn
                 [VAddress Scenario.friend; VAddress Scenario.signer; VUint256 7]))
           Scenario.friend Scenario.signer 7 empty_log);
    [discriminate | vm_compute; reflexivity | vm_compute; reflexivity].
Defined.

(** X9. A [transferFrom] call for a token that the collection says belongs
    to someone else is rejected with the not-owned error, which names both
    addresses; the owner query is the last request, so nothing is simulated
    or estimated.  An owner query that fails is as fatal: the run ends there
    with the cannot-verify error. *)
Theorem nft_not_held_rejected
  (p : provider) (wallet owner : address) (call : Call) (chainId : Z)
  (code : string) (from to tokenId : Z) (l : log) :
  target call <> wallet ->
  slice0 10 (data call) = "0x23b872dd"%string ->
  decode_transferFrom (data call) = Ok (from, to, tokenId) ->
  getCode p wallet = Ok code ->
  code <> "0x"%string ->
  isOwnerAddress p wallet owner = Ok true ->
  (forall holder, erc721_ownerOf p (target call) tokenId = Ok holder ->
                  holder <> wallet ->
     createSmartWalletTransaction p wallet owner call chainId l
     = (Thrown (NftNotOwnedError holder wallet),
        sent l [GetCode wallet; IsOwnerAddress wallet owner;
                Erc721OwnerOf (target call) tokenId]))
  /\ (forall e, erc721_ownerOf p (target call) tokenId = Thrown e ->
                includes "NON possiede" (message e) = false ->
        createSmartWalletTransaction p wallet owner call chainId l
        = (Thrown (NftOwnershipUnverifiableError tokenId),
           sent l [GetCode wallet; IsOwnerAddress wallet owner;
                   Erc721OwnerOf (target call) tokenId])).
Proof.
  intros Ht Hs Hd Hcode Hne Hown. split.
  - intros holder Ho Hh.
    eapply single_path_preflight_failure; try eassumption.
    rewrite (preflight_transferFrom p wallet call Ht Hs),
            (preflightERC721_decoded p wallet call from to tokenId _ Hd).
    cbv zeta. rewrite Ho, sent_sent.
    destruct (Z.eqb_spec holder wallet) as [E|_]; [contradiction | reflexivity].
  - intros e Ho He.
    eapply single_path_preflight_failure; try eassumption.
    rewrite (preflight_transferFrom p wallet call Ht Hs),
            (preflightERC721_decoded p wallet call from to tokenId _ Hd).
    cbv zeta. rewrite Ho, He, sent_sent. reflexivity.
Qed.

Lemma nft_not_held_rejected_witness :
  (forall holder, erc721_ownerOf Cases.held_by_friend Cases.collection 7 = Ok holder ->
                  holder <> Scenario.wallet ->
     createSmartWalletTransaction Cases.held_by_friend Scenario.wallet
       Scenario.signer
       (mkCall Cases.collection 0
          (payload transferFrom_fn
             [VAddress Scenario.wallet; VAddress Scenario.signer; VUint256 7]))
       1 empty_log
     = (Thrown (NftNotOwnedError holder Scenario.wallet),
        sent empty_log [GetCode Scenario.wallet;
                        IsOwnerAddress Scenario.wallet Scenario.signer;
                        Erc721OwnerOf Cases.collection 7]))
  /\ (forall e, erc721_ownerOf Cases.held_by_friend Cases.collection 7 = Thrown e ->
                includes "NON possiede" (message e) = false ->
        createSmartWalletTransaction Cases.held_by_friend Scenario.wallet
          Scenario.signer
          (mkCall Cases.collection 0
             (payload transferFrom_fn
                [VAddress Scenario.wallet; VAddress Scenario.signer; VUint256 7]))
          1 empty_log
        = (Thrown (NftOwnershipUnverifiableError 7),
           sent empty_log [GetCode Scenario.wallet;
                           IsOwnerAddress Scenario.wallet Scenario.signer;
                           Erc721OwnerOf Cases.collection 7])).
Proof.
  apply (nft_not_held_rejected Cases.held_by_friend Scenario.wallet
           Scenario.signer
           (mkCall Cases.collection 0
              (payload transferFrom_fn
                 [VAddress Scenario.wallet; VAddress Scenario.signer; VUint256 7]))
           1 "0x6080604052"%string Scenario.wallet Scenario.signer 7 empty_log);
    [discriminate | vm_compute; reflexivity | vm_compute; reflexivity
    | reflexivity | discriminate | reflexivity].
Defined.

(** ** Transfers of collectibles *)

(** A [safeTransferFrom] payload is not [transferFrom] data. *)
Lemma safe_transfer_is_not_transferFrom (args : list abi_val) :
  decode_transferFrom (payload safeTransferFrom721_fn args)
  = Thrown (Error "data signature does not match function transferFrom(address,address,uint256)").
Proof.
  unfold decode_transferFrom, typed, decodeFunctionData, payload.
  rewrite getBytes_hexlify. cbn [selector safeTransferFrom721_fn app firstn].
  reflexivity.
Qed.

Lemma createNFTTransferCall_plain (nft from to tokenId : Z) (c : Call) :
  isWrappedENS nft = false ->
  createNFTTransferCall nft from to tokenId = Ok c ->
  c = mkCall nft 0 (payload safeTransferFrom721_fn
                      [VAddress from; VAddress to; VUint256 tokenId]).
Proof.
  unfold createNFTTransferCall. intros ->.
  unfold encodeFunctionData.
  destruct (abi_accepts _ _); [|discriminate].
  intros H. injection H as <-. reflexivity.
Qed.

(** The pre-flight checks of a call built for a plain collectible: a
    warning, no request. *)
Lemma plain_nft_preflight (p : provider) (wallet nft from to tokenId : Z)
  (c : Call) (l : log) :
  isWrappedENS nft = false ->
  createNFTTransferCall nft from to tokenId = Ok c ->
  preflight p wallet c l
  = (Ok tt,
     warned l (if negb (nft =? wallet) then
                 ["⚠️ [Smart Wallet] Could not complete NFT checks: data signature does not match function transferFrom(address,address,uint256)"%string]
               else [])).
Proof.
  intros Hw Hc. rewrite (createNFTTransferCall_plain _ _ _ _ _ Hw Hc).
  unfold preflight. cbn [target data].
  destruct (negb (nft =? wallet)).
  - unfold payload. cbn [selector safeTransferFrom721_fn].
    rewrite slice_selector. unfold hexlify at 1. cbn [andb].
    change ((hexlify [x42; x84; x2e; x0e] =? "0x42842e0e")%string
            || (hexlify [x42; x84; x2e; x0e] =? "0x23b872dd")%string) with true.
    cbv iota. cbn [app hex_body hex_of_byte String.eqb Ascii.eqb Bool.eqb negb].
    erewrite preflightERC721_undecodable
      by apply (safe_transfer_is_not_transferFrom
                  [VAddress from; VAddress to; VUint256 tokenId]).
    reflexivity.
  - unfold warned. rewrite app_nil_r. destruct l; reflexivity.
Qed.

Lemma sends_only_bind_lift (ok : request -> bool) {A B} (o : outcome A)
  (k : A -> io B) :
  (forall a, o = Ok a -> sends_only ok (k a)) -> sends_only ok (bind (lift o) k).
Proof.
  intros H l. unfold bind, lift. destruct o as [a|e].
  - apply (H a eq_refl).
  - exists []. rewrite app_nil_r. split; reflexivity.
Qed.

Lemma bind_ext {A B} (m : io A) (k k' : A -> io B) (l : log) :
  (forall a l', k a l' = k' a l') -> bind m k l = bind m k' l.
Proof.
  intros H. unfold bind. destruct (m l) as [[a|e] l']; [apply H | reflexivity].
Qed.

(** X10. The transfer of a token of a collection that is not an ENS contract
    is built with [safeTransferFrom], which the pre-flight checks try to read
    as [transferFrom]: the run sends neither an owner query nor a simulation,
    only the requests of assembly, and its outcome is the same whatever the
    collection would answer about the owner and whatever the simulation would
    answer. *)
Theorem plain_nft_transfer_is_never_checked
  (keccak256 : bytes -> bytes) (p : provider)
  (wallet owner nft to tokenId chainId : Z) :
  isENSContract nft = false ->
  sends_only administrative
    (createNFTTransferTransaction keccak256 p wallet owner nft to tokenId chainId)
  /\ forall owners simulation l,
       createNFTTransferTransaction keccak256
         (Cases.with_erc721_ownerOf owners (Cases.with_eth_call simulation p))
         wallet owner nft to tokenId chainId l
       = createNFTTransferTransaction keccak256 p wallet owner nft to tokenId
           chainId l.
Proof.
  intros H.
  assert (Hw : isWrappedENS nft = false).
  { unfold isENSContract in H. unfold isWrappedENS.
    apply Bool.orb_false_iff in H. apply H. }
  unfold createNFTTransferTransaction. rewrite H. split.
  - apply sends_only_bind_lift. intros c Hc.
    apply single_path_sends; [auto|].
    intros l. exists [].
    rewrite (plain_nft_preflight p wallet nft wallet to tokenId c l Hw Hc).
    cbn [snd warned requests]. rewrite app_nil_r. split; reflexivity.
  - intros owners simulation l.
    destruct (createNFTTransferCall nft wallet to tokenId) as [c|e] eqn:Hc;
      [|reflexivity].
    erewrite !bind_Ok by reflexivity.
    unfold createSmartWalletTransaction.
    apply bind_ext. intros code l1.
    destruct (String.eqb code "0x"); [reflexivity|].
    apply bind_ext. intros own l2.
    destruct (negb own); [reflexivity|].
    erewrite (bind_Ok (preflight (Cases.with_erc721_ownerOf owners
                                    (Cases.with_eth_call simulation p)) wallet c))
      by apply (plain_nft_preflight _ wallet nft wallet to tokenId c l2 Hw Hc).
    erewrite (bind_Ok (preflight p wallet c))
      by apply (plain_nft_preflight _ wallet nft wallet to tokenId c l2 Hw Hc).
    reflexivity.
Qed.

Lemma plain_nft_transfer_is_never_checked_witness :
  sends_only administrative
    (createNFTTransferTransaction Scenario.digest Cases.held_by_friend
       Scenario.wallet Scenario.signer Cases.collection Scenario.friend 7 1)
  /\ forall owners simulation l,
       createNFTTransferTransaction Scenario.digest
         (Cases.with_erc721_ownerOf owners
            (Cases.with_eth_call simulation Cases.held_by_friend))
         Scenario.wallet Scenario.signer Cases.collection Scenario.friend 7 1 l
       = createNFTTransferTransaction Scenario.digest Cases.held_by_friend
           Scenario.wallet Scenario.signer Cases.collection Scenario.friend 7 1 l.
Proof.
  apply (plain_nft_transfer_is_never_checked Scenario.digest Cases.held_by_friend
           Scenario.wallet Scenario.signer Cases.collection Scenario.friend 7 1).
  reflexivity.
Defined.

Lemma Erc1155InsufficientError_markers (balance amount : Z) (wallet : address) :
  includes "NON possiede"
    (message (Erc1155InsufficientError balance amount wallet)) = true
  /\ includes "❌ ERRORE"
       (message (Erc1155InsufficientError balance amount wallet)) = true.
Proof.
  unfold Erc1155InsufficientError, message.
  split; apply includes_app; reflexivity.
Qed.

Lemma Erc1155BalanceUnverifiableError_marker (tokenId : Z) :
  includes "❌ ERRORE" (message (Erc1155BalanceUnverifiableError tokenId)) = true.
Proof.
  unfold Erc1155BalanceUnverifiableError, message. apply includes_app. reflexivity.
Qed.

(** The ERC-1155 branch on a payload that decodes: the balance check, the
    note on [from], then the simulation. *)
Lemma preflightERC1155_decoded
  (p : provider) (wallet : address) (call : Call) (from to tokenId amount : Z)
  (l : log) :
  decode_safeTransferFrom1155 (data call) = Ok (from, to, tokenId, amount) ->
  preflightERC1155 p wallet call l
  = let l1 := sent l [Erc1155BalanceOf (target call) wallet tokenId] in
    match erc1155_balanceOf p (target call) wallet tokenId with
    | Ok balance =>
        if balance <? amount
        then (Thrown (Erc1155InsufficientError balance amount wallet), l1)
        else
          (match eth_call p wallet (target call) (data call) with
           | Ok _ => Ok tt
           | Thrown _ => Thrown Erc1155SimulationFailedError
           end,
           sent (warned l1 (mismatch_notes from wallet))
                [EthCall wallet (target call) (data call)])
    | Thrown e =>
        if includes "NON possiede" (message e) then
          if includes "❌ ERRORE" (message e) then (Thrown e, l1)
          else (Ok tt,
                warned l1 [("⚠️ [Smart Wallet] Could not complete ERC-1155 checks: "
                              ++ message e)%string])
        else (Thrown (Erc1155BalanceUnverifiableError tokenId), l1)
    end.
Proof.
  intros H. unfold preflightERC1155. unfold try_catch at 1.
  erewrite bind_Ok by (unfold lift; rewrite H; reflexivity).
  cbv zeta. unfold bind at 1. unfold try_catch at 1. unfold bind at 1.
  rewrite ask_sent.
  destruct (erc1155_balanceOf p (target call) wallet tokenId) as [balance|e].
  - destruct (balance <? amount) eqn:E.
    + unfold throw at 1.
      destruct (Erc1155InsufficientError_markers balance amount wallet) as [M1 M2].
      rewrite M1. unfold throw at 1. rewrite M2. reflexivity.
    + unfold ret at 1. unfold bind at 1. rewrite from_mismatch_warnings_run.
      unfold try_catch, bind, ask, ret, throw, sent, warned.
      cbn [requests warnings].
      destruct (eth_call p wallet (target call) (data call)); reflexivity.
  - destruct (includes "NON possiede" (message e)).
    + unfold throw at 1.
      destruct (includes "❌ ERRORE" (message e)); reflexivity.
    + unfold throw at 1. rewrite Erc1155BalanceUnverifiableError_marker.
      reflexivity.
Qed.

(** What [createERC1155TransferCall] returns, and where the dispatch sends
    it. *)
Lemma createERC1155TransferCall_Ok (nft from to tokenId amount : Z) (c : Call) :
  createERC1155TransferCall nft from to tokenId amount = Ok c ->
  c = mkCall nft 0 (payload safeTransferFrom1155_fn
                      [VAddress from; VAddress to; VUint256 tokenId;
                       VUint256 amount; VBytes []])
  /\ decode_safeTransferFrom1155 (data c) = Ok (from, to, tokenId, amount)
  /\ forall p wallet, nft <> wallet ->
       preflight p wallet c = preflightERC1155 p wallet c.
Proof.
  unfold createERC1155TransferCall.
  destruct (encodeFunctionData safeTransferFrom1155_fn _) as [d|e] eqn:E;
    [|discriminate].
  intros H. injection H as <-.
  assert (Hacc : abi_accepts (TTuple (inputs safeTransferFrom1155_fn))
                   (VTuple [VAddress from; VAddress to; VUint256 tokenId;
                            VUint256 amount; VBytes []]) = true).
  { unfold encodeFunctionData in E.
    destruct (abi_accepts (TTuple (inputs safeTransferFrom1155_fn)) _);
      [reflexivity | discriminate]. }
  rewrite (encodeFunctionData_accepted _ _ Hacc) in E. injection E as <-.
  split; [reflexivity|]. cbn [data target].
  split.
  - apply decode_safeTransferFrom1155_payload; [exact Hacc | reflexivity].
  - intros p wallet HT. unfold preflight. cbn [target data].
    unfold payload. cbn [selector safeTransferFrom1155_fn]. rewrite slice_selector.
    destruct (Z.eqb_spec nft wallet) as [E|_]; [contradiction|].
    unfold hexlify at 1. reflexivity.
Qed.

(** X11. [createERC1155TransferCall] with valid addresses and amounts in
    range gives a call to the collection, of value zero, whose payload starts
    with the multi-token selector, is sent to the ERC-1155 checks when the
    collection is not the wallet, and decodes back to the sender, the
    recipient, the token id and the amount. *)
Theorem multi_token_round_trip
  (p : provider) (wallet nft from to tokenId amount : Z) :
  is_address from = true ->
  is_address to = true ->
  is_uint256 tokenId = true ->
  is_uint256 amount = true ->
  exists c,
    createERC1155TransferCall nft from to tokenId amount = Ok c
    /\ target c = nft
    /\ value c = 0
    /\ slice0 10 (data c) = "0xf242432a"%string
    /\ decode_safeTransferFrom1155 (data c) = Ok (from, to, tokenId, amount)
    /\ (nft <> wallet -> preflight p wallet c = preflightERC1155 p wallet c).
Proof.
  intros Hf Ht Hi Ha.
  destruct (createERC1155TransferCall nft from to tokenId amount) as [c|e] eqn:E.
  - destruct (createERC1155TransferCall_Ok _ _ _ _ _ _ E) as (Hc & Hd & Hp).
    exists c. split; [reflexivity|]. rewrite Hc at 1 2 3.
    cbn [target value data]. split; [reflexivity|]. split; [reflexivity|].
    split.
    { unfold payload. cbn [selector safeTransferFrom1155_fn].
      rewrite slice_selector. reflexivity. }
    split; [exact Hd|]. intros Hn. apply Hp, Hn.
  - unfold createERC1155TransferCall, encodeFunctionData in E.
    cbn [abi_accepts inputs safeTransferFrom1155_fn forall2b] in E.
    rewrite Hf, Ht, Hi, Ha in E. discriminate E.
Qed.

Lemma multi_token_round_trip_witness :
  exists c,
    createERC1155TransferCall ENS_CONTRACTS.NAME_WRAPPER Scenario.wallet
      Scenario.friend 7 3 = Ok c
    /\ target c = ENS_CONTRACTS.NAME_WRAPPER
    /\ value c = 0
    /\ slice0 10 (data c) = "0xf242432a"%string
    /\ decode_safeTransferFrom1155 (data c)
       = Ok (Scenario.wallet, Scenario.friend, 7, 3)
    /\ (ENS_CONTRACTS.NAME_WRAPPER <> Scenario.wallet ->
        preflight Scenario.chain Scenario.wallet c
        = preflightERC1155 Scenario.chain Scenario.wallet c).
Proof.
  apply (multi_token_round_trip Scenario.chain Scenario.wallet
           ENS_CONTRACTS.NAME_WRAPPER Scenario.wallet Scenario.friend 7 3);
    reflexivity.
Defined.

(** X12. A multi-token transfer built by [createERC1155TransferCall] for
    more units than the wallet holds is rejected with the not-enough error,
    which gives the balance, the amount and the wallet; the balance query is
    the last request, so nothing is simulated or estimated. *)
Theorem multi_token_beyond_balance_rejected
  (p : provider) (wallet owner nft to tokenId amount chainId : Z)
  (code : string) (c : Call) (balance : Z) (l : log) :
  createERC1155TransferCall nft wallet to tokenId amount = Ok c ->
  nft <> wallet ->
  getCode p wallet = Ok code ->
  code <> "0x"%string ->
  isOwnerAddress p wallet owner = Ok true ->
  erc1155_balanceOf p nft wallet tokenId = Ok balance ->
  balance < amount ->
  createSmartWalletTransaction p wallet owner c chainId l
  = (Thrown (Erc1155InsufficientError balance amount wallet),
     sent l [GetCode wallet; IsOwnerAddress wallet owner;
             Erc1155BalanceOf nft wallet tokenId]).
Proof.
  intros Hc Hn Hcode Hne Hown Hb Hlt.
  destruct (createERC1155TransferCall_Ok _ _ _ _ _ _ Hc) as (Hshape & Hdec & Hpre).
  assert (Ht : target c = nft) by (rewrite Hshape; reflexivity).
  eapply single_path_preflight_failure; try eassumption.
  rewrite (Hpre p wallet Hn), (preflightERC1155_decoded _ _ _ _ _ _ _ _ Hdec).
  cbv zeta. rewrite Ht, Hb, sent_sent.
  destruct (Z.ltb_spec balance amount) as [_|G]; [reflexivity | lia].
Qed.

Lemma multi_token_beyond_balance_rejected_witness :
  createSmartWalletTransaction Scenario.chain Scenario.wallet Scenario.signer
    (mkCall Cases.collection 0
       (payload safeTransferFrom1155_fn
          [VAddress Scenario.wallet; VAddress Scenario.friend; VUint256 7;
           VUint256 3; VBytes []])) 1 empty_log
  = (Thrown (Erc1155InsufficientError 1 3 Scenario.wallet),
     sent empty_log [GetCode Scenario.wallet;
                     IsOwnerAddress Scenario.wallet Scenario.signer;
                     Erc1155BalanceOf Cases.collection Scenario.wallet 7]).
Proof.
  apply (multi_token_beyond_balance_rejected Scenario.chain Scenario.wallet
           Scenario.signer Cases.collection Scenario.friend 7 3 1
           "0x6080604052"%string
           (mkCall Cases.collection 0
              (payload safeTransferFrom1155_fn
                 [VAddress Scenario.wallet; VAddress Scenario.friend; VUint256 7;
                  VUint256 3; VBytes []]))
           1 empty_log);
    [reflexivity | discriminate | reflexivity | discriminate | reflexivity
    | reflexivity | reflexivity].
Defined.

(** *** An argument the checks do not read *)

Lemma drop_word (x k : Z) (r : bytes) :
  0 <= k -> drop (32 + k) (be32 x ++ r) = drop k r.
Proof.
  intros Hk. unfold drop. rewrite Z2Nat.inj_add, Nat.add_comm by lia.
  rewrite <- skipn_skipn.
  replace (Z.to_nat 32) with (List.length (be32 x))
    by (unfold be32; rewrite length_be; reflexivity).
  rewrite skipn_app, skipn_all, Nat.sub_diag. reflexivity.
Qed.

Lemma drop_0 (r : bytes) : drop 0 r = r.
Proof. reflexivity. Qed.

(** X30. The [data] argument of a multi-token [safeTransferFrom] is never
    read by the checks, so a payload whose [data] cannot be decoded, its
    length being no safe integer, is checked like any other: the four
    arguments before it are read, and a transfer of more units than the
    wallet holds is rejected with the not-enough error.  Decoding every
    argument of that payload fails. *)
Theorem unread_data_argument_is_not_decoded
  (p : provider) (wallet nft from to tokenId amount n balance : Z) (l : log) :
  is_address from = true ->
  is_address to = true ->
  is_uint256 tokenId = true ->
  is_uint256 amount = true ->
  MAX_SAFE_INTEGER < n < two256 ->
  let d := oversized_data_transfer from to tokenId amount n in
  (exists e, decodeFunctionData safeTransferFrom1155_fn d = Thrown e)
  /\ decode_safeTransferFrom1155 d = Ok (from, to, tokenId, amount)
  /\ (nft <> wallet ->
      erc1155_balanceOf p nft wallet tokenId = Ok balance ->
      balance < amount ->
      preflight p wallet (mkCall nft 0 d) l
      = (Thrown (Erc1155InsufficientError balance amount wallet),
         sent l [Erc1155BalanceOf nft wallet tokenId])).
Proof.
  intros Hfrom Hto Htok Ham Hn d.
  assert (Bf : 0 <= from < two256).
  { unfold is_address in Hfrom. apply andb_prop in Hfrom. destruct Hfrom as [A B].
    apply Z.leb_le in A. apply Z.ltb_lt in B. pose proof two160_lt_two256. lia. }
  assert (Bt : 0 <= to < two256).
  { unfold is_address in Hto. apply andb_prop in Hto. destruct Hto as [A B].
    apply Z.leb_le in A. apply Z.ltb_lt in B. pose proof two160_lt_two256. lia. }
  assert (Bi : 0 <= tokenId < two256).
  { unfold is_uint256 in Htok. apply andb_prop in Htok. destruct Htok as [A B].
    apply Z.leb_le in A. apply Z.ltb_lt in B. lia. }
  assert (Ba : 0 <= amount < two256).
  { unfold is_uint256 in Ham. apply andb_prop in Ham. destruct Ham as [A B].
    apply Z.leb_le in A. apply Z.ltb_lt in B. lia. }
  assert (Lf : (from <? two160) = true)
    by (unfold is_address in Hfrom; apply andb_prop in Hfrom; apply Hfrom).
  assert (Lt : (to <? two160) = true)
    by (unfold is_address in Hto; apply andb_prop in Hto; apply Hto).
  assert (Ln : (n <=? MAX_SAFE_INTEGER) = false) by (apply Z.leb_gt; lia).
  assert (Bn : 0 <= n < two256) by (unfold MAX_SAFE_INTEGER in Hn; lia).
  set (W := (be32 from ++ be32 to ++ be32 tokenId ++ be32 amount
             ++ be32 160 ++ be32 n ++ [])%list).
  assert (Hd : d = hexlify (selector safeTransferFrom1155_fn ++ W)).
  { unfold d, oversized_data_transfer, W. rewrite app_nil_r. reflexivity. }
  assert (D1 : drop 32 W = (be32 to ++ be32 tokenId ++ be32 amount
                            ++ be32 160 ++ be32 n ++ [])%list)
    by (unfold W; apply (drop_word from 0); lia).
  assert (D2 : drop 64 W = (be32 tokenId ++ be32 amount
                            ++ be32 160 ++ be32 n ++ [])%list).
  { unfold W. rewrite (drop_word from 32) by lia.
    apply (drop_word to 0). lia. }
  assert (D3 : drop 96 W = (be32 amount ++ be32 160 ++ be32 n ++ [])%list).
  { unfold W. rewrite (drop_word from 64) by lia.
    rewrite (drop_word to 32) by lia. apply (drop_word tokenId 0). lia. }
  assert (D4 : drop 128 W = (be32 160 ++ be32 n ++ [])%list).
  { unfold W. rewrite (drop_word from 96) by lia.
    rewrite (drop_word to 64) by lia. rewrite (drop_word tokenId 32) by lia.
    apply (drop_word amount 0). lia. }
  assert (D5 : drop 160 W = (be32 n ++ [])%list).
  { unfold W. rewrite (drop_word from 128) by lia.
    rewrite (drop_word to 96) by lia. rewrite (drop_word tokenId 64) by lia.
    rewrite (drop_word amount 32) by lia. apply (drop_word 160 0). lia. }
  assert (R5 : read_index (be32 160 ++ be32 n ++ []) = Some 160)
    by (apply read_index_be32; unfold MAX_SAFE_INTEGER; lia).
  assert (Hlazy : decode_safeTransferFrom1155 d = Ok (from, to, tokenId, amount)).
  { unfold decode_safeTransferFrom1155, decodeFunctionResult.
    rewrite Hd, getBytes_hexlify.
    cbn [selector safeTransferFrom1155_fn inputs app firstn skipn].
    rewrite bytes_eqb_refl.
    cbn [unpack_items ty_dynamic static_size unpack_item abi_dec].
    change (0 + 32) with 32. change (32 + 32) with 64.
    change (64 + 32) with 96. change (96 + 32) with 128.
    rewrite drop_0, D1, D2, D3, D4.
    unfold W at 1.
    rewrite !read_word_be32, R5 by (assumption || lia).
    rewrite D5, read_word_be32 by lia.
    rewrite Lf, Lt, Ln. reflexivity. }
  split; [|split; [exact Hlazy|]].
  - unfold decodeFunctionData.
    rewrite Hd, getBytes_hexlify.
    cbn [selector safeTransferFrom1155_fn inputs app firstn skipn].
    rewrite bytes_eqb_refl.
    cbn [abi_dec map ty_dynamic static_size]. unfold unpack.
    cbn [unpack_from].
    change (0 + 32) with 32. change (32 + 32) with 64.
    change (64 + 32) with 96. change (96 + 32) with 128.
    rewrite drop_0, D1, D2, D3, D4.
    unfold W at 1.
    rewrite !read_word_be32, R5 by (assumption || lia).
    rewrite D5, Lf, Lt. cbn [option_map].
    unfold read_index. rewrite read_word_be32 by lia. rewrite Ln.
    eexists. reflexivity.
  - intros Hne Hb Hlt.
    assert (Hpre : preflight p wallet (mkCall nft 0 d) l
                   = preflightERC1155 p wallet (mkCall nft 0 d) l).
    { unfold preflight. cbn [target data]. rewrite Hd.
      cbn [selector safeTransferFrom1155_fn]. rewrite slice_selector.
      destruct (Z.eqb_spec nft wallet) as [E|_]; [contradiction|].
      unfold hexlify at 1. reflexivity. }
    rewrite Hpre.
    rewrite (preflightERC1155_decoded p wallet (mkCall nft 0 d)
               from to tokenId amount l Hlazy).
    cbv zeta. cbn [target]. rewrite Hb.
    destruct (Z.ltb_spec balance amount) as [_|G]; [reflexivity | lia].
Qed.

(** Three units of a token of which the wallet holds one, with a [data]
    argument of length [2 ^ 64]. *)
Lemma unread_data_argument_is_not_decoded_witness :
  (exists e,
      decodeFunctionData safeTransferFrom1155_fn
        (oversized_data_transfer Scenario.wallet Scenario.friend 7 3 (2 ^ 64))
      = Thrown e)
  /\ decode_safeTransferFrom1155
       (oversized_data_transfer Scenario.wallet Scenario.friend 7 3 (2 ^ 64))
     = Ok (Scenario.wallet, Scenario.friend, 7, 3)
  /\ preflight Scenario.chain Scenario.wallet
       (mkCall Cases.collection 0
          (oversized_data_transfer Scenario.wallet Scenario.friend 7 3 (2 ^ 64)))
       empty_log
     = (Thrown (Erc1155InsufficientError 1 3 Scenario.wallet),
        sent empty_log [Erc1155BalanceOf Cases.collection Scenario.wallet 7]).
Proof.
  destruct (unread_data_argument_is_not_decoded Scenario.chain Scenario.wallet
              Cases.collection Scenario.wallet Scenario.friend 7 3 (2 ^ 64) 1
              empty_log eq_refl eq_refl eq_refl eq_refl)
    as (H1 & H2 & H3).
  - vm_compute. split; reflexivity.
  - split; [exact H1|]. split; [exact H2|].
    apply H3; [discriminate | reflexivity | lia].
Defined.

(** The wrapped branch of [createNFTTransferTransaction]. *)
Lemma wrapped_name_run
  (keccak256 : bytes -> bytes) (p : provider)
  (wallet owner to tokenId chainId : Z) (l : log) :
  createNFTTransferTransaction keccak256 p wallet owner
    ENS_CONTRACTS.NAME_WRAPPER to tokenId chainId l
  = bind (lift (createERC1155TransferCall ENS_CONTRACTS.NAME_WRAPPER wallet to
                  tokenId 1))
         (fun c => createSmartWalletTransaction p wallet owner c chainId) l.
Proof.
  unfold createNFTTransferTransaction.
  change (isENSContract ENS_CONTRACTS.NAME_WRAPPER) with true.
  change (isWrappedENS ENS_CONTRACTS.NAME_WRAPPER) with true.
  cbv iota zeta. unfold getENSInfo.
  erewrite bind_Ok by reflexivity.
  unfold createENSTransferCalls.
  change (isWrappedENS ENS_CONTRACTS.NAME_WRAPPER) with true.
  cbv iota zeta. unfold wrapperTransferCall, createERC1155TransferCall, push.
  destruct (encodeFunctionData safeTransferFrom1155_fn _) as [d|e]; reflexivity.
Qed.

(** X13. Transferring a wrapped name asks nothing of the ENS contracts and
    is the single-call path on the multi-token transfer of one unit from the
    wallet: the run of [createNFTTransferTransaction] on the name wrapper is
    the run of [createSmartWalletTransaction] on the call that
    [createERC1155TransferCall] builds with amount 1. *)
Theorem wrapped_name_is_single_call
  (keccak256 : bytes -> bytes) (p : provider)
  (wallet owner to tokenId chainId : Z) (l : log) :
  createNFTTransferTransaction keccak256 p wallet owner
    ENS_CONTRACTS.NAME_WRAPPER to tokenId chainId l
  = bind (lift (createERC1155TransferCall ENS_CONTRACTS.NAME_WRAPPER wallet to
                  tokenId 1))
         (fun c => createSmartWalletTransaction p wallet owner c chainId) l.
Proof. apply wrapped_name_run. Qed.




(** ** Unwrapped names *)

Lemma batch_path_observed (p : provider) (wallet owner : address)
  (calls : list Call) (chainId : Z) (l1 l2 : log) :
  requests l1 = requests l2 ->
  observed (createSmartWalletBatchTransaction p wallet owner calls chainId l1)
  = observed (createSmartWalletBatchTransaction p wallet owner calls chainId l2).
Proof.
  intros H.
  unfold createSmartWalletBatchTransaction, observed, estimateGasOrDefault,
    check_funds_and_build, all2, try_catch, bind, lift, ask, warn, ret, throw.
  destruct (encodeExecuteBatchCall calls) as [d|e];
    [|cbn [fst snd]; rewrite H; reflexivity].
  destruct (getTransactionCount p owner) as [n|e];
    destruct (getFeeData p) as [fd|e'];
    try (cbn [fst snd requests]; rewrite H; reflexivity).
  destruct (estimateGas p owner wallet d 0) as [gas|e];
    destruct (getBalance p owner) as [b|e'];
    cbn [requests warnings];
    try (cbn [fst snd requests]; rewrite H; reflexivity).
  - destruct (b <? with_buffer gas * fee_or_zero (maxFeePerGas fd));
      cbn [fst snd requests]; rewrite H; reflexivity.
  - destruct (b <? 300000 * fee_or_zero (maxFeePerGas fd));
      cbn [fst snd requests]; rewrite H; reflexivity.
Qed.

(** The plan for an unwrapped name reads the resolver of the name and
    nothing else of what was found out about it. *)
Lemma unwrapped_plan_reads_resolver
  (keccak256 : bytes -> bytes) (nft tokenId from to : Z) (i1 i2 : ENSInfo) :
  resolver i1 = resolver i2 ->
  createENSTransferCalls keccak256 nft tokenId from to i1
  = createENSTransferCalls keccak256 nft tokenId from to i2.
Proof. intros H. unfold createENSTransferCalls. rewrite H. reflexivity. Qed.

Lemma unwrapped_plan_is_not_single
  (keccak256 : bytes -> bytes) (tokenId from to : Z) (i : ENSInfo)
  (calls : list Call) :
  createENSTransferCalls keccak256 ENS_CONTRACTS.BASE_REGISTRAR tokenId from to i
  = Ok calls ->
  exists a b rest, calls = a :: b :: rest.
Proof.
  unfold createENSTransferCalls.
  change (isWrappedENS ENS_CONTRACTS.BASE_REGISTRAR) with false. cbv iota zeta.
  destruct (tokenIdToNamehash keccak256 tokenId) as [node|e]; [|discriminate].
  intros H.
  apply push_Ok in H. destruct H as (cs2 & c3 & H & _ & ->).
  apply push_Ok in H. destruct H as (cs1 & c2 & _ & _ & ->).
  destruct cs1 as [|x [|y r]].
  - exists c2, c3, []. reflexivity.
  - exists x, c2, [c3]. reflexivity.
  - exists x, y, ((r ++ [c2]) ++ [c3]). reflexivity.
Qed.

(** What is found out about an unwrapped name on a chain that names a
    holder and a manager. *)
Lemma getENSInfo_naming
  (keccak256 : bytes -> bytes) (p : provider) (holder manager : address)
  (records : address -> bytes -> outcome address) (tokenId : Z) (l : log) :
  exists ws,
    getENSInfo keccak256 (Cases.naming holder manager records p) tokenId false l
    = match tokenIdToNamehash keccak256 tokenId with
      | Thrown e => (Thrown e, l)
      | Ok node =>
          match registry_resolver p node with
          | Thrown e =>
              (Thrown e,
               sent l [Erc721OwnerOf ENS_CONTRACTS.BASE_REGISTRAR tokenId;
                       RegistryOwner node; RegistryResolver node])
          | Ok r =>
              (Ok (mkENSInfo (Some holder) (Some manager)
                     (if negb (r =? ZeroAddress) then
                        match records r node with
                        | Ok a => Some a
                        | Thrown _ => None
                        end
                      else None)
                     (Some r)),
               warned
                 (sent l ([Erc721OwnerOf ENS_CONTRACTS.BASE_REGISTRAR tokenId;
                           RegistryOwner node; RegistryResolver node]
                          ++ if negb (r =? ZeroAddress)
                             then [ResolverAddr r node] else []))
                 ws)
          end
      end.
Proof.
  unfold getENSInfo. cbv iota.
  destruct (tokenIdToNamehash keccak256 tokenId) as [node|e];
    [|exists []; reflexivity].
  erewrite bind_Ok by reflexivity.
  unfold all3, bind, ask.
  cbn [erc721_ownerOf registry_owner registry_resolver resolver_addr
       Cases.naming Cases.with_erc721_ownerOf Cases.with_registry_owner
       Cases.with_resolver_addr requests warnings].
  destruct (registry_resolver p node) as [r|e].
  2:{ exists []. unfold sent. rewrite <- !app_assoc. reflexivity. }
  destruct (negb (r =? ZeroAddress)).
  - unfold try_catch, bind, ask, warn, ret, warned, sent.
    cbn [requests warnings].
    destruct (records r node) as [a|e].
    + exists []. rewrite <- !app_assoc, app_nil_r. reflexivity.
    + eexists. rewrite <- !app_assoc. reflexivity.
  - exists []. unfold ret, warned, sent. cbn [requests warnings].
    rewrite <- !app_assoc, !app_nil_r. reflexivity.
Qed.

Lemma bind_run {A B} (m : io A) (k : A -> io B) (l : log) :
  bind m k l = match m l with
               | (Ok a, l') => k a l'
               | (Thrown e, l') => (Thrown e, l')
               end.
Proof. reflexivity. Qed.

(** X15. Transferring an unwrapped name asks the registrar who holds the
    token and the registry who manages the name, and compares neither with
    the wallet: whoever they name, and whatever the resolver's address record
    says or fails to say, the outcome and the requests sent are the same. *)
Theorem unwrapped_name_holder_is_not_compared
  (keccak256 : bytes -> bytes) (p : provider)
  (wallet owner to tokenId chainId : Z)
  (holder1 manager1 holder2 manager2 : address)
  (records1 records2 : address -> bytes -> outcome address) (l : log) :
  observed (createNFTTransferTransaction keccak256
              (Cases.naming holder1 manager1 records1 p) wallet owner
              ENS_CONTRACTS.BASE_REGISTRAR to tokenId chainId l)
  = observed (createNFTTransferTransaction keccak256
                (Cases.naming holder2 manager2 records2 p) wallet owner
                ENS_CONTRACTS.BASE_REGISTRAR to tokenId chainId l).
Proof.
  unfold createNFTTransferTransaction.
  change (isENSContract ENS_CONTRACTS.BASE_REGISTRAR) with true.
  change (isWrappedENS ENS_CONTRACTS.BASE_REGISTRAR) with false.
  cbv iota zeta.
  destruct (getENSInfo_naming keccak256 p holder1 manager1 records1 tokenId l)
    as [ws1 E1].
  destruct (getENSInfo_naming keccak256 p holder2 manager2 records2 tokenId l)
    as [ws2 E2].
  rewrite (bind_run (getENSInfo keccak256
                       (Cases.naming holder1 manager1 records1 p) tokenId false)),
          E1.
  rewrite (bind_run (getENSInfo keccak256
                       (Cases.naming holder2 manager2 records2 p) tokenId false)),
          E2.
  destruct (tokenIdToNamehash keccak256 tokenId) as [node|e]; [|reflexivity].
  destruct (registry_resolver p node) as [r|e]; [|reflexivity].
  rewrite !bind_run. unfold lift.
  match goal with
  | |- observed (match createENSTransferCalls _ _ _ _ _ ?i1 with _ => _ end)
       = observed (match createENSTransferCalls _ _ _ _ _ ?i2 with _ => _ end) =>
      rewrite (unwrapped_plan_reads_resolver keccak256
                 ENS_CONTRACTS.BASE_REGISTRAR tokenId wallet to i1 i2 eq_refl)
  end.
  match goal with
  | |- context [createENSTransferCalls ?k ?c ?t ?f ?o ?i] =>
      destruct (createENSTransferCalls k c t f o i) as [calls|e] eqn:Ec
  end.
  - destruct (unwrapped_plan_is_not_single _ _ _ _ _ _ Ec) as (a & b & rest & ->).
    cbv iota.
    apply (batch_path_observed p wallet owner (a :: b :: rest) chainId).
    reflexivity.
  - reflexivity.
Qed.

(** ** Owner management *)

(** The function data of [execute] carries the call it was built from. *)
Lemma execute_data_decodes (call : Call) (d : string) (bs : bytes) :
  encodeExecuteCall call = Ok d ->
  data call = hexlify bs ->
  len bs < 2 ^ 52 ->
  decode_execute d = Ok call.
Proof.
  intros Hd Hb Hlen. unfold encodeExecuteCall, bytes_arg in Hd.
  rewrite Hb, getBytes_hexlify in Hd.
  apply encodeFunctionData_Ok in Hd. destruct Hd as [Hacc ->].
  unfold decode_execute.
  rewrite decodeFunctionData_encode
    with (args := [VAddress (target call); VUint256 (value call); VBytes bs]);
    [ unfold typed; rewrite <- Hb; destruct call; reflexivity
    | reflexivity | reflexivity | | apply encodeFunctionData_accepted, Hacc ].
  unfold abi_encode.
  cbn [abi_enc map is_dynamic pack head_length fold_right pack_from].
  len_simpl. fold (len bs).
  pose proof (Z.mod_pos_bound (- len bs) 32 ltac:(lia)).
  pose proof (len_nonneg bs).
  assert (2 ^ 52 + 200 <= MAX_SAFE_INTEGER) by (vm_compute; discriminate).
  lia.
Qed.

(** The single-call path on a call to the wallet itself: no pre-flight
    check, and the request carries the call. *)
Lemma self_call_request
  (p : provider) (wallet owner : address) (c : Call) (chainId : Z) (bs : bytes)
  (l l' : log) (tx : TransactionRequest) :
  target c = wallet ->
  data c = hexlify bs ->
  len bs < 2 ^ 52 ->
  createSmartWalletTransaction p wallet owner c chainId l = (Ok tx, l') ->
  tx_to tx = wallet
  /\ tx_value tx = 0
  /\ decode_execute (tx_data tx) = Ok c
  /\ requests l'
     = (requests l ++ [GetCode wallet; IsOwnerAddress wallet owner;
                       GetTransactionCount owner; GetFeeData;
                       EstimateGas owner wallet (tx_data tx) 0;
                       GetBalance owner])%list.
Proof.
  intros Ht Hb Hlen H. apply single_path_passes_iff in H.
  destruct H as (code & d & nonce & fd & gas & b & l1 & _ & _ & _ & Hp & Hd
                 & _ & _ & _ & _ & _ & -> & ->).
  unfold preflight in Hp. rewrite Ht, Z.eqb_refl in Hp. cbn [negb andb] in Hp.
  injection Hp as <-. cbn [tx_to tx_value tx_data].
  split; [reflexivity|]. split; [reflexivity|].
  split; [exact (execute_data_decodes c d bs Hd Hb Hlen)|].
  unfold sent. cbn [requests]. rewrite <- app_assoc. reflexivity.
Qed.

Lemma len_selector_payload (f : fragment) (args : list abi_val) :
  len (selector f ++ abi_encode args) = len (selector f) + len (abi_encode args).
Proof. apply len_app. Qed.

(** X16. A request assembled for adding an owner is addressed to the wallet
    with value zero and wraps, in [execute], a call to the wallet itself
    whose payload decodes to the new owner; assembling it runs no pre-flight
    check and sends six requests.  The same holds for removing the owner at
    an index: the wrapped call decodes to the index and the owner bytes. *)
Theorem owner_management_requests_round_trip
  (p : provider) (wallet owner : address) (chainId : Z) (c : Call)
  (l l' : log) (tx : TransactionRequest) :
  createSmartWalletTransaction p wallet owner c chainId l = (Ok tx, l') ->
  (forall newOwner,
     createAddOwnerTransaction wallet owner newOwner chainId = Ok c ->
     tx_to tx = wallet /\ tx_value tx = 0
     /\ decode_execute (tx_data tx) = Ok c
     /\ target c = wallet /\ value c = 0
     /\ decode_addOwnerAddress (data c) = Ok newOwner
     /\ requests l'
        = (requests l ++ [GetCode wallet; IsOwnerAddress wallet owner;
                          GetTransactionCount owner; GetFeeData;
                          EstimateGas owner wallet (tx_data tx) 0;
                          GetBalance owner])%list)
  /\ (forall ownerIndex ownerBytes b,
        createRemoveOwnerTransaction wallet owner ownerIndex ownerBytes chainId
        = Ok c ->
        getBytes ownerBytes = Some b ->
        len b < 2 ^ 51 ->
        tx_to tx = wallet /\ tx_value tx = 0
        /\ decode_execute (tx_data tx) = Ok c
        /\ target c = wallet /\ value c = 0
        /\ decode_removeOwnerAtIndex (data c) = Ok (ownerIndex, hexlify b)
        /\ requests l'
           = (requests l ++ [GetCode wallet; IsOwnerAddress wallet owner;
                             GetTransactionCount owner; GetFeeData;
                             EstimateGas owner wallet (tx_data tx) 0;
                             GetBalance owner])%list).
Proof.
  intros Htx. split.
  - intros newOwner Hc. unfold createAddOwnerTransaction in Hc.
    apply encoded_call_Ok in Hc. destruct Hc as [Hacc ->].
    assert (Hlen : len (selector addOwnerAddress_fn
                          ++ abi_encode [VAddress newOwner]) < 2 ^ 52).
    { rewrite len_selector_payload. unfold abi_encode.
      cbn [abi_enc map is_dynamic pack head_length fold_right pack_from].
      len_simpl. vm_compute. reflexivity. }
    destruct (self_call_request p wallet owner
                (mkCall wallet 0 (payload addOwnerAddress_fn [VAddress newOwner]))
                chainId _ l l' tx eq_refl eq_refl Hlen Htx) as (H1 & H2 & H3 & H4).
    repeat split; try assumption.
    cbn [data]. unfold decode_addOwnerAddress.
    rewrite decode_payload; [reflexivity | reflexivity | reflexivity | exact Hacc |].
    unfold abi_encode.
    cbn [abi_enc map is_dynamic pack head_length fold_right pack_from].
    len_simpl. vm_compute. discriminate.
  - intros i ownerBytes b Hc Hb Hlenb.
    unfold createRemoveOwnerTransaction, number_arg, bytes_arg in Hc.
    rewrite Hb in Hc.
    destruct ((- MAX_SAFE_INTEGER <=? i) && (i <=? MAX_SAFE_INTEGER));
      [|discriminate].
    apply encoded_call_Ok in Hc. destruct Hc as [Hacc ->].
    pose proof (Z.mod_pos_bound (- len b) 32 ltac:(lia)) as Hm.
    pose proof (len_nonneg b) as Hnn.
    assert (Hsize : len (abi_encode [VUint256 i; VBytes b])
                    = 96 + len b + (- len b) mod 32).
    { unfold abi_encode.
      cbn [abi_enc map is_dynamic pack head_length fold_right pack_from].
      len_simpl. fold (len b). lia. }
    assert (Hlen : len (selector removeOwnerAtIndex_fn
                          ++ abi_encode [VUint256 i; VBytes b]) < 2 ^ 52).
    { rewrite len_selector_payload, Hsize.
      change (len (selector removeOwnerAtIndex_fn)) with 4.
      change (2 ^ 52) with (2 * 2 ^ 51). lia. }
    destruct (self_call_request p wallet owner
                (mkCall wallet 0
                   (payload removeOwnerAtIndex_fn [VUint256 i; VBytes b]))
                chainId _ l l' tx eq_refl eq_refl Hlen Htx) as (H1 & H2 & H3 & H4).
    repeat split; try assumption.
    cbn [data]. unfold decode_removeOwnerAtIndex.
    rewrite decode_payload; [reflexivity | reflexivity | reflexivity | exact Hacc |].
    rewrite Hsize.
    assert (2 ^ 52 + 200 <= MAX_SAFE_INTEGER) by (vm_compute; discriminate).
    change (2 ^ 52) with (2 * 2 ^ 51) in *. lia.
Qed.

Lemma owner_management_requests_round_trip_witness :
  exists tx l',
    createSmartWalletTransaction Scenario.chain Scenario.wallet Scenario.signer
      (mkCall Scenario.wallet 0
         (payload addOwnerAddress_fn [VAddress Scenario.friend])) 1 empty_log
    = (Ok tx, l')
    /\ decode_execute (tx_data tx)
       = Ok (mkCall Scenario.wallet 0
               (payload addOwnerAddress_fn [VAddress Scenario.friend]))
    /\ decode_addOwnerAddress
         (payload addOwnerAddress_fn [VAddress Scenario.friend])
       = Ok Scenario.friend.
Proof.
  destruct (createSmartWalletTransaction Scenario.chain Scenario.wallet
              Scenario.signer
              (mkCall Scenario.wallet 0
                 (payload addOwnerAddress_fn [VAddress Scenario.friend])) 1
              empty_log) as [[tx|e] l'] eqn:E.
  - exists tx, l'. split; [reflexivity|].
    destruct (owner_management_requests_round_trip Scenario.chain Scenario.wallet
                Scenario.signer 1
                (mkCall Scenario.wallet 0
                   (payload addOwnerAddress_fn [VAddress Scenario.friend]))
                empty_log l' tx E) as [Hadd _].
    destruct (Hadd Scenario.friend eq_refl) as (_ & _ & H3 & _ & _ & H6 & _).
    split; [exact H3 | exact H6].
  - vm_compute in E. discriminate E.
Defined.

(** ** Listing the owners *)

Lemma length_hex_body (bs : bytes) :
  String.length (hex_body bs) = (2 * List.length bs)%nat.
Proof.
  induction bs as [|b r IH]; [reflexivity|].
  cbn [hex_body hex_of_byte String.length List.length]. rewrite IH. lia.
Qed.

Lemma hex_body_app (a b : bytes) :
  hex_body (a ++ b) = (hex_body a ++ hex_body b)%string.
Proof.
  induction a as [|x r IH]; [reflexivity|].
  cbn [app hex_body hex_of_byte append]. rewrite IH. reflexivity.
Qed.

Lemma substring_skip (a b : string) (m : nat) :
  substring (String.length a) m (a ++ b) = substring 0 m b.
Proof. induction a as [|c r IH]; [reflexivity | exact IH]. Qed.

Lemma substring_all (s : string) : substring 0 (String.length s) s = s.
Proof.
  induction s as [|c r IH]; [reflexivity|].
  cbn [String.length substring]. rewrite IH. reflexivity.
Qed.

Lemma slice_last_app (a z : bytes) (n : nat) :
  (n = 2 * List.length z)%nat ->
  slice_last n (hex_body (a ++ z)) = hex_body z.
Proof.
  intros ->. unfold slice_last, slice_from.
  rewrite hex_body_app, length_append, !length_hex_body.
  replace (2 * List.length a + 2 * List.length z - 2 * List.length z)%nat
    with (String.length (hex_body a)) by (rewrite length_hex_body; lia).
  rewrite substring_skip.
  replace (2 * List.length a + 2 * List.length z - String.length (hex_body a))%nat
    with (String.length (hex_body z)) by (rewrite !length_hex_body; lia).
  apply substring_all.
Qed.

Lemma slice_last_hex_body (bs : bytes) :
  slice_last 40 (hex_body bs) = hex_body (last20 bs).
Proof.
  unfold last20.
  destruct (Nat.le_gt_cases 20 (List.length bs)) as [H|H].
  - rewrite <- (firstn_skipn (List.length bs - 20) bs) at 1.
    apply slice_last_app. rewrite length_skipn. lia.
  - replace (List.length bs - 20)%nat with 0%nat by lia. cbn [skipn].
    unfold slice_last, slice_from. rewrite length_hex_body.
    replace (2 * List.length bs - 40)%nat with 0%nat by lia.
    rewrite Nat.sub_0_r, <- length_hex_body. apply substring_all.
Qed.

Lemma getAddress_hexlify (bs : bytes) :
  getAddress (hexlify bs)
  = if (List.length bs =? 20)%nat then Ok (from_be bs)
    else Thrown (Error "invalid address").
Proof.
  unfold getAddress. rewrite getBytes_hexlify, String.eqb_refl, Bool.andb_true_r.
  reflexivity.
Qed.

Lemma length_last20 (raw : bytes) :
  (List.length (last20 raw) =? 20)%nat = (20 <=? List.length raw)%nat.
Proof.
  unfold last20. rewrite length_skipn.
  destruct (Nat.leb_spec 20 (List.length raw));
    [apply Nat.eqb_eq | apply Nat.eqb_neq]; lia.
Qed.

(** One round of the owner loop, on the bytes rather than on their text. *)
Lemma owner_entry_run (b : owner_book) (wallet : address) (i : Z) :
  or_else (and_then (owner_entry b wallet i) (fun o => Ok [o]))
          (fun _ => Ok [])
  = Ok (listed_owner b wallet i).
Proof.
  unfold owner_entry, listed_owner.
  destruct (ownerAtIndex b wallet i) as [raw|e]; [|reflexivity].
  cbn [and_then].
  assert (P : prefix "0x" (hexlify raw) = true).
  { unfold hexlify. cbn [prefix]. destruct (hex_body raw); reflexivity. }
  rewrite P.
  assert (S2 : slice_from 2 (hexlify raw) = hex_body raw).
  { unfold slice_from, hexlify. cbn [String.length substring Nat.sub].
    rewrite Nat.sub_0_r. apply substring_all. }
  rewrite S2, slice_last_hex_body.
  change ("0x" ++ hex_body (last20 raw))%string with (hexlify (last20 raw)).
  rewrite length_hex_body.
  destruct (2 * List.length raw =? 64)%nat eqn:E64.
  - rewrite getAddress_hexlify, length_last20.
    destruct (20 <=? List.length raw)%nat; reflexivity.
  - destruct (2 * List.length raw =? 40)%nat eqn:E40.
    + apply Nat.eqb_eq in E40.
      assert (L : List.length raw = 20%nat) by lia.
      rewrite getAddress_hexlify, L. cbn [Nat.eqb Nat.leb and_then or_else].
      unfold last20. rewrite L. reflexivity.
    + rewrite getAddress_hexlify, length_last20.
      destruct (20 <=? List.length raw)%nat; reflexivity.
Qed.

Lemma rounds_total {A B} (f : A -> outcome (list B)) (g : A -> list B)
  (xs : list A) :
  (forall x, f x = Ok (g x)) -> rounds f xs = Ok (flat_map g xs).
Proof.
  intros H. induction xs as [|x r IH]; [reflexivity|].
  cbn [rounds flat_map]. rewrite H, IH. reflexivity.
Qed.

Lemma getSmartWalletOwners_run (b : owner_book) (wallet : address) :
  getSmartWalletOwners b wallet
  = match ownerCount b wallet with
    | Ok n => Ok (flat_map (listed_owner b wallet) (nonces (Z.to_nat n)))
    | Thrown e => Thrown e
    end.
Proof.
  unfold getSmartWalletOwners.
  destruct (ownerCount b wallet) as [n|e]; [|reflexivity].
  cbn [and_then]. rewrite (rounds_total _ (listed_owner b wallet)).
  - reflexivity.
  - intros i. apply owner_entry_run.
Qed.

(** X17. [getSmartWalletOwners] lists, in index order, one entry for each
    index below the owner count whose owner bytes can be read and are at
    least twenty bytes long: its address is the number the last twenty bytes
    spell, its public key the hex text of all the bytes.  Indices that cannot
    be read or hold fewer than twenty bytes are left out without an error; a
    failing owner count is thrown on. *)
Theorem listed_owners_characterised (b : owner_book) (wallet : address) :
  getSmartWalletOwners b wallet
  = match ownerCount b wallet with
    | Ok n => Ok (flat_map (listed_owner b wallet) (nonces (Z.to_nat n)))
    | Thrown e => Thrown e
    end.
Proof. apply getSmartWalletOwners_run. Qed.

Lemma In_nonces (i : Z) (n : nat) : In i (nonces n) <-> 0 <= i < Z.of_nat n.
Proof.
  unfold nonces. rewrite in_map_iff. split.
  - intros (k & <- & Hk). apply in_seq in Hk. lia.
  - intros H. exists (Z.to_nat i). split; [lia|]. apply in_seq. lia.
Qed.

(** What an entry of the owner list says about the contract. *)
Lemma listed_owner_inv (b : owner_book) (wallet : address)
  (owners : list OwnerInfo) (o : OwnerInfo) :
  getSmartWalletOwners b wallet = Ok owners ->
  In o owners ->
  exists n raw,
    ownerCount b wallet = Ok n
    /\ 0 <= info_index o < n
    /\ ownerAtIndex b wallet (info_index o) = Ok raw
    /\ (20 <= List.length raw)%nat
    /\ info_address o = from_be (last20 raw)
    /\ publicKey o = hexlify raw.
Proof.
  rewrite getSmartWalletOwners_run.
  destruct (ownerCount b wallet) as [n|e]; [|discriminate].
  intros H Hin. injection H as <-.
  apply in_flat_map in Hin. destruct Hin as (i & Hi & Ho).
  apply In_nonces in Hi. unfold listed_owner in Ho.
  destruct (ownerAtIndex b wallet i) as [raw|e] eqn:E; [|contradiction].
  destruct (Nat.leb_spec 20 (List.length raw)) as [L|L]; [|contradiction].
  destruct Ho as [<-|[]]. cbn [info_index info_address publicKey].
  exists n, raw. repeat split; try assumption; lia.
Qed.

(** The call that removes the owner at an index, read back. *)
Lemma createRemoveOwnerTransaction_decodes
  (wallet owner : address) (i : Z) (ownerBytes : string) (raw : bytes)
  (chainId : Z) :
  0 <= i <= MAX_SAFE_INTEGER ->
  getBytes ownerBytes = Some raw ->
  len raw < 2 ^ 51 ->
  exists c,
    createRemoveOwnerTransaction wallet owner i ownerBytes chainId = Ok c
    /\ c = mkCall wallet 0 (payload removeOwnerAtIndex_fn [VUint256 i; VBytes raw])
    /\ decode_removeOwnerAtIndex (data c) = Ok (i, hexlify raw).
Proof.
  intros Hi Hb Hlen.
  pose proof MAX_SAFE_lt_two256 as Hlt.
  assert (Hacc : abi_accepts (TTuple (inputs removeOwnerAtIndex_fn))
                   (VTuple [VUint256 i; VBytes raw]) = true).
  { cbn [abi_accepts inputs removeOwnerAtIndex_fn forall2b]. unfold is_uint256.
    destruct (Z.leb_spec 0 i); [|lia].
    destruct (Z.ltb_spec i two256); [reflexivity|lia]. }
  eexists. split; [|split; [reflexivity|]].
  - unfold createRemoveOwnerTransaction, number_arg, bytes_arg. rewrite Hb.
    destruct (Z.leb_spec (- MAX_SAFE_INTEGER) i); [|lia].
    destruct (Z.leb_spec i MAX_SAFE_INTEGER); [|lia].
    cbn [andb]. rewrite (encodeFunctionData_accepted _ _ Hacc). reflexivity.
  - cbn [data]. unfold decode_removeOwnerAtIndex.
    rewrite decode_payload; [reflexivity | reflexivity | reflexivity | exact Hacc |].
    unfold abi_encode.
    cbn [abi_enc map is_dynamic pack head_length fold_right pack_from].
    len_simpl. fold (len raw).
    pose proof (Z.mod_pos_bound (- len raw) 32 ltac:(lia)).
    pose proof (len_nonneg raw).
    assert (2 ^ 52 + 200 <= MAX_SAFE_INTEGER) by (vm_compute; discriminate).
    change (2 ^ 52) with (2 * 2 ^ 51) in *. lia.
Qed.

(** X18. Every entry of the owner list can be handed back for removal: with
    its index and public key [createRemoveOwnerTransaction] returns a call
    to the wallet that decodes to that index and to the very bytes the
    contract stores there. *)
Theorem listed_owner_is_removable
  (b : owner_book) (wallet signer : address) (chainId : Z)
  (owners : list OwnerInfo) (o : OwnerInfo) :
  getSmartWalletOwners b wallet = Ok owners ->
  In o owners ->
  info_index o <= MAX_SAFE_INTEGER ->
  (forall raw, ownerAtIndex b wallet (info_index o) = Ok raw -> len raw < 2 ^ 51) ->
  exists raw c,
    ownerAtIndex b wallet (info_index o) = Ok raw
    /\ createRemoveOwnerTransaction wallet signer (info_index o) (publicKey o)
         chainId = Ok c
    /\ target c = wallet
    /\ decode_removeOwnerAtIndex (data c) = Ok (info_index o, hexlify raw)
    /\ decodeFunctionData removeOwnerAtIndex_fn (data c)
       = Ok [VUint256 (info_index o); VBytes raw].
Proof.
  intros Hl Hin Hsafe Hshort.
  destruct (listed_owner_inv b wallet owners o Hl Hin)
    as (n & raw & _ & Hi & Hraw & _ & _ & Hpk).
  destruct (createRemoveOwnerTransaction_decodes wallet signer (info_index o)
              (publicKey o) raw chainId) as (c & Hc & Hshape & Hdec).
  - lia.
  - rewrite Hpk. apply getBytes_hexlify.
  - apply Hshort, Hraw.
  - exists raw, c. split; [exact Hraw|]. split; [exact Hc|].
    split; [rewrite Hshape; reflexivity|]. split; [exact Hdec|].
    unfold decode_removeOwnerAtIndex, typed in Hdec.
    destruct (decodeFunctionData removeOwnerAtIndex_fn (data c))
      as [[|[ | j | | | | ] [|[ | | |x| | ] [|? ?]]]|e]; try discriminate.
    assert (Hj : j = info_index o) by congruence.
    assert (Hx : hexlify x = hexlify raw) by congruence.
    apply (f_equal getBytes) in Hx. rewrite !getBytes_hexlify in Hx.
    injection Hx as ->. rewrite Hj. reflexivity.
Qed.

Lemma listed_owner_is_removable_witness :
  exists raw c,
    ownerAtIndex Cases_book Scenario.wallet 1 = Ok raw
    /\ createRemoveOwnerTransaction Scenario.wallet Scenario.signer 1
         (hexlify (be32 7 ++ be32 Scenario.friend)) 1 = Ok c
    /\ target c = Scenario.wallet
    /\ decode_removeOwnerAtIndex (data c)
       = Ok (1, hexlify raw)
    /\ decodeFunctionData removeOwnerAtIndex_fn (data c)
       = Ok [VUint256 1; VBytes raw].
Proof.
  apply (listed_owner_is_removable Cases_book Scenario.wallet Scenario.signer 1
           (flat_map (listed_owner Cases_book Scenario.wallet) (nonces 4))
           (mkOwnerInfo (from_be (last20 (be32 7 ++ be32 Scenario.friend)))
                        (hexlify (be32 7 ++ be32 Scenario.friend)) 1)).
  - exact (getSmartWalletOwners_run Cases_book Scenario.wallet).
  - vm_compute. right. left. reflexivity.
  - vm_compute. discriminate.
  - intros raw H. vm_compute in H. injection H as <-. vm_compute. reflexivity.
Defined.

(** ** Finding the wallets of a signer *)

(** One round of the on-chain search. *)
Lemma check_nonce_run (p : provider) (d : directory) (owner : address)
  (version : string) (factory : address) (nonce : Z) :
  exists ws,
    check_nonce p d owner version factory nonce = Ok ws
    /\ forall w,
         In w ws
         <-> exists code,
               w = mkSmartWallet (sw_address w) nonce (replace_underscore version) true
               /\ factory_getAddress d factory [owner] nonce = Ok (sw_address w)
               /\ getCode p (sw_address w) = Ok code
               /\ code <> "0x"%string
               /\ (2 < String.length code)%nat
               /\ isOwnerAddress p (sw_address w) owner <> Ok false.
Proof.
  unfold check_nonce.
  destruct (factory_getAddress d factory [owner] nonce) as [a|e] eqn:Ea.
  2:{ exists []. split; [reflexivity|]. intros w. split; [intros []|].
      intros (code & _ & H & _). discriminate H. }
  cbn [and_then].
  destruct (getCode p a) as [code|e] eqn:Ec.
  2:{ exists []. split; [reflexivity|]. intros w. split; [intros []|].
      intros (code & _ & H & Hc & _). congruence. }
  cbn [and_then].
  destruct (String.eqb_spec code "0x") as [E0|E0].
  { exists []. split; [reflexivity|]. intros w. split; [intros []|].
    intros (code' & _ & H & Hc & Hne & _). congruence. }
  destruct (Nat.ltb_spec 2 (String.length code)) as [L|L].
  2:{ exists []. split; [reflexivity|]. intros w. split; [intros []|].
      intros (code' & _ & H & Hc & _ & Hl & _).
      assert (code' = code) by congruence. subst code'. lia. }
  cbn [negb andb].
  destruct (isOwnerAddress p a owner) as [[|]|e] eqn:Eo; cbn [and_then or_else].
  - exists [mkSmartWallet a nonce (replace_underscore version) true].
    split; [reflexivity|]. intros w. split.
    + intros [<-|[]]. exists code. cbn [sw_address].
      split; [reflexivity|]. split; [reflexivity|]. split; [exact Ec|].
      split; [exact E0|]. split; [exact L|]. rewrite Eo. discriminate.
    + intros (code' & Hw & H & _). left. rewrite Hw. f_equal. congruence.
  - exists []. split; [reflexivity|]. intros w. split; [intros []|].
    intros (code' & _ & H & _ & _ & _ & Hn). apply Hn.
    replace (sw_address w) with a by congruence. exact Eo.
  - exists [mkSmartWallet a nonce (replace_underscore version) true].
    split; [reflexivity|]. intros w. split.
    + intros [<-|[]]. exists code. cbn [sw_address].
      split; [reflexivity|]. split; [reflexivity|]. split; [exact Ec|].
      split; [exact E0|]. split; [exact L|]. rewrite Eo. discriminate.
    + intros (code' & Hw & H & _). left. rewrite Hw. f_equal. congruence.
Qed.

(** A loop whose rounds never throw returns, and holds what its rounds
    pushed. *)
Lemma rounds_In {A B} (f : A -> outcome (list B)) (xs : list A) :
  (forall x, exists ws, f x = Ok ws) ->
  exists all,
    rounds f xs = Ok all
    /\ forall w, In w all <-> exists x ws, In x xs /\ f x = Ok ws /\ In w ws.
Proof.
  intros H. induction xs as [|x r (later & Hr & IH)].
  - exists []. split; [reflexivity|]. intros w. split; [intros []|].
    intros (x & ws & [] & _).
  - destruct (H x) as (here & Hx). exists (here ++ later)%list. split.
    + cbn [rounds]. rewrite Hx, Hr. reflexivity.
    + intros w. rewrite in_app_iff, IH. split.
      * intros [Hw|(y & ws & Hy & Hf & Hw)].
        -- exists x, here. split; [left; reflexivity | split; assumption].
        -- exists y, ws. split; [right; exact Hy | split; assumption].
      * intros (y & ws & [<-|Hy] & Hf & Hw).
        -- left. rewrite Hx in Hf. injection Hf as <-. exact Hw.
        -- right. exists y, ws. repeat split; assumption.
Qed.

Lemma on_chain_wallets_run (p : provider) (d : directory) (owner : address)
  (maxNonce : nat) :
  exists ws,
    on_chain_wallets p d owner maxNonce = Ok ws
    /\ forall w, In w ws <-> found_on_chain p d owner maxNonce w.
Proof.
  unfold on_chain_wallets.
  assert (Hin : forall version factory,
            exists ws,
              rounds (check_nonce p d owner version factory) (nonces maxNonce)
              = Ok ws
              /\ forall w,
                   In w ws
                   <-> exists nonce ws',
                         In nonce (nonces maxNonce)
                         /\ check_nonce p d owner version factory nonce = Ok ws'
                         /\ In w ws').
  { intros version factory. apply rounds_In. intros nonce.
    destruct (check_nonce_run p d owner version factory nonce) as (ws & Hw & _).
    exists ws. exact Hw. }
  destruct (rounds_In
              (fun entry : string * address =>
                 let '(version, factoryAddress) := entry in
                 rounds (check_nonce p d owner version factoryAddress)
                        (nonces maxNonce))
              COINBASE_SMART_WALLET_FACTORIES) as (all & Hall & Hmem).
  { intros [version factory]. destruct (Hin version factory) as (ws & Hw & _).
    exists ws. exact Hw. }
  exists all. split; [exact Hall|]. intros w. rewrite Hmem. split.
  - intros ([version factory] & ws & Hf & Hr & Hw).
    destruct (Hin version factory) as (ws' & Hr' & Hmem').
    rewrite Hr' in Hr. injection Hr as <-.
    apply Hmem' in Hw. destruct Hw as (nonce & ws1 & Hn & Hc & Hw).
    destruct (check_nonce_run p d owner version factory nonce) as (ws2 & Hc2 & Hm2).
    rewrite Hc2 in Hc. injection Hc as <-.
    apply Hm2 in Hw. destruct Hw as (code & Hshape & Hg & Hcode & Hne & Hl & Ho).
    apply In_nonces in Hn.
    exists version, factory, code. rewrite Hshape. cbn [sw_version sw_nonce sw_address sw_exists].
    rewrite Hshape in Hg, Hcode, Ho. cbn [sw_address] in Hg, Hcode, Ho.
    repeat split; try assumption; lia.
  - intros (version & factory & code & Hf & Hv & Hn & Hg & Hcode & Hne & Hl & Ho & He).
    destruct (Hin version factory) as (ws' & Hr' & Hmem').
    exists (version, factory), ws'. split; [exact Hf|]. split; [exact Hr'|].
    apply Hmem'.
    destruct (check_nonce_run p d owner version factory (sw_nonce w))
      as (ws2 & Hc2 & Hm2).
    exists (sw_nonce w), ws2. split; [apply In_nonces; lia|]. split; [exact Hc2|].
    apply Hm2. exists code. repeat split; try assumption.
    destruct w as [a n v e]. cbn [sw_address sw_nonce sw_version sw_exists] in *.
    subst. reflexivity.
Qed.

Lemma check_nonce_length (p : provider) (d : directory) (owner : address)
  (version : string) (factory : address) (nonce : Z) (ws : list SmartWallet) :
  check_nonce p d owner version factory nonce = Ok ws ->
  (List.length ws <= 1)%nat.
Proof.
  unfold check_nonce.
  destruct (factory_getAddress d factory [owner] nonce) as [a|e];
    [|intros H; injection H as <-; cbn; lia].
  cbn [and_then].
  destruct (getCode p a) as [code|e]; [|intros H; injection H as <-; cbn; lia].
  cbn [and_then].
  destruct (negb (code =? "0x")%string && (2 <? String.length code)%nat);
    [|intros H; injection H as <-; cbn; lia].
  destruct (isOwnerAddress p a owner) as [[|]|e]; cbn [and_then or_else];
    intros H; injection H as <-; cbn; lia.
Qed.

Lemma rounds_length {A B} (f : A -> outcome (list B)) (k : nat) (xs : list A)
  (all : list B) :
  (forall x ws, f x = Ok ws -> (List.length ws <= k)%nat) ->
  rounds f xs = Ok all ->
  (List.length all <= k * List.length xs)%nat.
Proof.
  intros H. revert all. induction xs as [|x r IH]; intros all.
  - intros E. injection E as <-. cbn. lia.
  - cbn [rounds]. destruct (f x) as [here|e] eqn:Ex; [|discriminate].
    cbn [and_then]. destruct (rounds f r) as [later|e] eqn:Er; [|discriminate].
    cbn [and_then]. intros E. injection E as <-.
    rewrite length_app. cbn [List.length].
    specialize (H x here Ex). specialize (IH later eq_refl). nia.
Qed.

Lemma length_nonces (n : nat) : List.length (nonces n) = n.
Proof. unfold nonces. rewrite length_map, length_seq. reflexivity. Qed.

Lemma existsb_unreadable (setups : list json_address) :
  existsb unreadable setups = true <-> In NoSetup setups.
Proof.
  rewrite existsb_exists. split.
  - intros (x & Hin & Hx). destruct x; try discriminate. exact Hin.
  - intros H. exists NoSetup. split; [exact H | reflexivity].
Qed.

Lemma findSmartWallets_fallback (p : provider) (d : directory) (owner : address)
  (maxNonce : nat) :
  api_names_none (get_recovery_setups d owner) ->
  findSmartWallets p d owner maxNonce = on_chain_wallets p d owner maxNonce.
Proof.
  unfold findSmartWallets, api_names_none, api_wallets.
  destruct (get_recovery_setups d owner) as [e|status|[setups|]];
    try reflexivity.
  destruct (existsb unreadable setups) eqn:E; [reflexivity|].
  intros [H | ->]; [|reflexivity].
  apply existsb_unreadable in H. congruence.
Qed.

(** What the API lists is returned as it stands when every setup can be
    read and one of them carries an address. *)
Lemma findSmartWallets_listed (p : provider) (d : directory) (owner : address)
  (maxNonce : nat) (setups : list json_address) (a : address)
  (rest : list address) :
  get_recovery_setups d owner = Body (Some setups) ->
  ~ In NoSetup setups ->
  valid_addresses setups = a :: rest ->
  findSmartWallets p d owner maxNonce
  = Ok (map (fun x => mkSmartWallet x 0 "v1" true) (a :: rest)).
Proof.
  intros Hs Hr Hv. unfold findSmartWallets, api_wallets. rewrite Hs.
  destruct (existsb unreadable setups) eqn:E.
  - apply existsb_unreadable in E. contradiction.
  - rewrite Hv. reflexivity.
Qed.

(** X19. When the recovery API fails or names no valid address,
    [findSmartWallets] returns, without throwing whatever the chain answers,
    exactly the wallets of the on-chain search: one for each factory and
    each nonce below [maxNonce] for which the factory predicts an address
    that has code (more than the bare [0x]) and whose owner query does not
    answer [false].  An owner query that fails counts as a match.  At most
    [2 * maxNonce] wallets are returned. *)
Theorem on_chain_search_characterised
  (p : provider) (d : directory) (owner : address) (maxNonce : nat) :
  api_names_none (get_recovery_setups d owner) ->
  exists ws,
    findSmartWallets p d owner maxNonce = Ok ws
    /\ (forall w, In w ws <-> found_on_chain p d owner maxNonce w)
    /\ (List.length ws <= 2 * maxNonce)%nat.
Proof.
  intros H. rewrite (findSmartWallets_fallback p d owner maxNonce H).
  destruct (on_chain_wallets_run p d owner maxNonce) as (ws & Hr & Hm).
  exists ws. split; [exact Hr|]. split; [exact Hm|].
  unfold on_chain_wallets in Hr.
  apply (rounds_length _ maxNonce) in Hr.
  - cbn [List.length COINBASE_SMART_WALLET_FACTORIES] in Hr. lia.
  - intros [version factory] ws' E.
    apply (rounds_length _ 1) in E.
    + rewrite length_nonces in E. lia.
    + intros nonce ws1. apply check_nonce_length.
Qed.

Lemma on_chain_search_characterised_witness :
  exists ws,
    findSmartWallets Scenario.chain Cases_directory Scenario.signer 3 = Ok ws
    /\ (forall w, In w ws
                  <-> found_on_chain Scenario.chain Cases_directory
                        Scenario.signer 3 w)
    /\ (List.length ws <= 2 * 3)%nat.
Proof.
  apply (on_chain_search_characterised Scenario.chain Cases_directory
           Scenario.signer 3).
  exact I.
Defined.

Lemma filter_all {A} (f : A -> bool) (xs : list A) :
  Forall (fun x => f x = true) xs -> filter f xs = xs.
Proof.
  induction 1 as [|x r Hx _ IH]; [reflexivity|].
  cbn [filter]. rewrite Hx, IH. reflexivity.
Qed.

(** X20. When the recovery API lists setups none of which is [null] and at
    least one of which carries a valid address, [findSmartWallets] returns
    the valid addresses in the API's order, each with nonce 0, version [v1]
    and [exists] set, whatever the chain and the factories would answer;
    and [getPrimarySmartWallet] is the first of them. *)
Theorem api_listing_is_trusted
  (p : provider) (d : directory) (owner : address) (maxNonce : nat)
  (setups : list json_address) (a : address) (rest : list address) :
  get_recovery_setups d owner = Body (Some setups) ->
  ~ In NoSetup setups ->
  valid_addresses setups = a :: rest ->
  findSmartWallets p d owner maxNonce
  = Ok (map (fun x => mkSmartWallet x 0 "v1" true) (a :: rest))
  /\ getPrimarySmartWallet p d owner = Ok (Some a).
Proof.
  intros Hs Hr Hv.
  assert (F : forall n, findSmartWallets p d owner n
                        = Ok (map (fun x => mkSmartWallet x 0 "v1" true) (a :: rest))).
  { intros n. apply (findSmartWallets_listed p d owner n setups); assumption. }
  split; [apply F|].
  unfold getPrimarySmartWallet. rewrite F. cbn [and_then]. cbv zeta.
  rewrite filter_all
    by (apply Forall_forall; intros w Hw; apply in_map_iff in Hw;
        destruct Hw as (x & <- & _); reflexivity).
  assert (N : forall xs,
            find (fun w => (sw_version w =? "v1.1")%string && (sw_nonce w =? 0))
                 (map (fun x => mkSmartWallet x 0 "v1" true) xs) = None).
  { induction xs as [|x r IH]; [reflexivity | exact IH]. }
  rewrite N. reflexivity.
Qed.

Lemma api_listing_is_trusted_witness :
  findSmartWallets Scenario.undeployed Cases_listing Scenario.signer 5
  = Ok (map (fun x => mkSmartWallet x 0 "v1" true)
            [Scenario.friend; Scenario.wallet])
  /\ getPrimarySmartWallet Scenario.undeployed Cases_listing Scenario.signer
     = Ok (Some Scenario.friend).
Proof.
  apply (api_listing_is_trusted Scenario.undeployed Cases_listing Scenario.signer
           5 [NoAddress; AnAddress Scenario.friend; NotAnAddress "0x12";
              AnAddress Scenario.wallet] Scenario.friend [Scenario.wallet]);
    [reflexivity | | reflexivity].
  intros [H | [H | [H | [H | []]]]]; discriminate H.
Defined.

(** X29. One [null] among the setups the recovery API lists discards the
    listing: the filter throws on it, and [findSmartWallets] returns the
    wallets of the on-chain search, whatever valid addresses the other
    setups carry. *)
Theorem null_setup_discards_the_listing
  (p : provider) (d : directory) (owner : address) (maxNonce : nat)
  (setups : list json_address) :
  get_recovery_setups d owner = Body (Some setups) ->
  In NoSetup setups ->
  exists ws,
    findSmartWallets p d owner maxNonce = Ok ws
    /\ forall w, In w ws <-> found_on_chain p d owner maxNonce w.
Proof.
  intros Hs Hin.
  rewrite (findSmartWallets_fallback p d owner maxNonce)
    by (unfold api_names_none; rewrite Hs; left; exact Hin).
  apply on_chain_wallets_run.
Qed.

(** Two listed addresses are dropped with the [null] between them: no
    factory predicts a wallet here, so none is found. *)
Lemma null_setup_discards_the_listing_witness :
  findSmartWallets Scenario.chain Cases_null_setup Scenario.signer 3 = Ok []
  /\ exists ws,
      findSmartWallets Scenario.chain Cases_null_setup Scenario.signer 3 = Ok ws
      /\ forall w, In w ws
                   <-> found_on_chain Scenario.chain Cases_null_setup
                         Scenario.signer 3 w.
Proof.
  split; [reflexivity|].
  apply (null_setup_discards_the_listing Scenario.chain Cases_null_setup
           Scenario.signer 3
           [AnAddress Scenario.friend; NoSetup; AnAddress Scenario.wallet]).
  - reflexivity.
  - right. left. reflexivity.
Defined.

(** What [findSmartWallets] returns always carries the [exists] flag and
    one of the two version names. *)
Lemma findSmartWallets_total (p : provider) (d : directory) (owner : address)
  (maxNonce : nat) :
  exists ws,
    findSmartWallets p d owner maxNonce = Ok ws
    /\ Forall (fun w => sw_exists w = true
                        /\ (sw_version w = "v1"%string
                            \/ sw_version w = "v1.1"%string)) ws.
Proof.
  destruct (get_recovery_setups d owner) as [e|status|[setups|]] eqn:E.
  1,2,4: destruct (on_chain_wallets_run p d owner maxNonce) as (ws & Hr & Hm);
         exists ws; rewrite findSmartWallets_fallback by (rewrite E; exact I);
         (split; [exact Hr|]); apply Forall_forall; intros w Hw;
         apply Hm in Hw;
         destruct Hw as (version & factory & code & Hf & Hv & _ & _ & _ & _ & _
                         & _ & He);
         (split; [exact He|]); rewrite Hv;
         destruct Hf as [Hf|[Hf|[]]]; injection Hf as <- _; [left|right];
         reflexivity.
  assert (Fb : api_names_none (get_recovery_setups d owner) ->
               exists ws,
                 findSmartWallets p d owner maxNonce = Ok ws
                 /\ Forall (fun w => sw_exists w = true
                                     /\ (sw_version w = "v1"%string
                                         \/ sw_version w = "v1.1"%string)) ws).
  { intros Hn.
    destruct (on_chain_wallets_run p d owner maxNonce) as (ws & Hr & Hm).
    exists ws. rewrite findSmartWallets_fallback by exact Hn.
    split; [exact Hr|]. apply Forall_forall. intros w Hw.
    apply Hm in Hw.
    destruct Hw as (version & factory & code & Hf & Hv & _ & _ & _ & _ & _
                    & _ & He).
    split; [exact He|]. rewrite Hv.
    destruct Hf as [Hf|[Hf|[]]]; injection Hf as <- _; [left|right];
      reflexivity. }
  destruct (existsb unreadable setups) eqn:Eu.
  { apply Fb. rewrite E. left. apply existsb_unreadable, Eu. }
  destruct (valid_addresses setups) as [|a rest] eqn:Ev.
  - apply Fb. rewrite E. right. exact Ev.
  - exists (map (fun x => mkSmartWallet x 0 "v1" true) (a :: rest)).
    split.
    + apply (findSmartWallets_listed p d owner maxNonce setups);
        [exact E | | exact Ev].
      intros H. apply existsb_unreadable in H. congruence.
    + apply Forall_forall. intros w Hw. apply in_map_iff in Hw.
      destruct Hw as (x & <- & _). split; [reflexivity | left; reflexivity].
Qed.

(** X21. [findSmartWallets] never throws, whatever the API, the factories
    and the chain answer; every wallet it returns carries the [exists] flag
    and version [v1] or [v1.1]. *)
Theorem discovery_never_throws
  (p : provider) (d : directory) (owner : address) (maxNonce : nat) :
  exists ws,
    findSmartWallets p d owner maxNonce = Ok ws
    /\ Forall (fun w => sw_exists w = true
                        /\ (sw_version w = "v1"%string
                            \/ sw_version w = "v1.1"%string)) ws.
Proof. apply findSmartWallets_total. Qed.

(** X22. [getPrimarySmartWallet] never throws.  It answers [null] exactly
    when the search with three nonces finds nothing; otherwise it answers
    the address of a found wallet, and of one with version [v1.1] and nonce
    0 whenever such a wallet was found. *)
Theorem primary_wallet_choice (p : provider) (d : directory) (owner : address) :
  exists ws r,
    findSmartWallets p d owner 3 = Ok ws
    /\ getPrimarySmartWallet p d owner = Ok r
    /\ (r = None <-> ws = [])
    /\ (forall a, r = Some a -> exists w, In w ws /\ sw_address w = a)
    /\ ((exists w, In w ws /\ sw_version w = "v1.1"%string /\ sw_nonce w = 0) ->
        exists w, In w ws /\ sw_version w = "v1.1"%string /\ sw_nonce w = 0
                  /\ r = Some (sw_address w)).
Proof.
  destruct (findSmartWallets_total p d owner 3) as (ws & Hf & Hall).
  assert (Hex : filter sw_exists ws = ws).
  { apply filter_all. eapply Forall_impl; [|exact Hall]. intros w [H _]. exact H. }
  unfold getPrimarySmartWallet. rewrite Hf. cbn [and_then]. cbv zeta.
  rewrite Hex. exists ws.
  destruct ws as [|w0 r0].
  { exists None. split; [reflexivity|]. split; [reflexivity|].
    split; [split; reflexivity|]. split; [intros a H; discriminate H|].
    intros (w & [] & _). }
  change (List.length (w0 :: r0) =? 0)%nat with false. cbv iota.
  set (ws := w0 :: r0).
  destruct (find (fun w => (sw_version w =? "v1.1")%string && (sw_nonce w =? 0))
                 ws) as [w1|] eqn:F1.
  - exists (Some (sw_address w1)).
    apply find_some in F1. destruct F1 as [Hin Hb].
    apply andb_true_iff in Hb. destruct Hb as [Hv Hn].
    apply String.eqb_eq in Hv. apply Z.eqb_eq in Hn.
    split; [reflexivity|]. split; [reflexivity|].
    split; [split; discriminate|].
    split.
    + intros a H. injection H as <-. exists w1. split; [exact Hin | reflexivity].
    + intros _. exists w1. repeat split; assumption.
  - assert (No : forall w, In w ws -> sw_version w = "v1.1"%string ->
                           sw_nonce w = 0 -> False).
    { intros w Hin Hv Hn. pose proof (find_none _ _ F1 w Hin) as Hb.
      cbv beta in Hb. rewrite Hv, Hn in Hb. discriminate Hb. }
    destruct (find (fun w => (sw_version w =? "v1")%string && (sw_nonce w =? 0))
                   ws) as [w2|] eqn:F2.
    + exists (Some (sw_address w2)).
      apply find_some in F2. destruct F2 as [Hin _].
      split; [reflexivity|]. split; [reflexivity|].
      split; [split; discriminate|].
      split.
      * intros a H. injection H as <-. exists w2. split; [exact Hin | reflexivity].
      * intros (w & Hw & Hv & Hn). destruct (No w Hw Hv Hn).
    + exists (Some (sw_address w0)).
      split; [reflexivity|]. split; [reflexivity|].
      split; [split; discriminate|].
      split.
      * intros a H. injection H as <-. exists w0.
        split; [left; reflexivity | reflexivity].
      * intros (w & Hw & Hv & Hn). destruct (No w Hw Hv Hn).
Qed.

(** ** The balance shown and the balance checked *)

Lemma getSmartWalletTokenBalance_run (p : provider) (wallet : address)
  (t : token_ref) (l : log) :
  getSmartWalletTokenBalance p wallet t l
  = match t with
    | Native => (Ok (answer_or (getBalance p wallet) 0), sent l [GetBalance wallet])
    | Token a => (Ok (answer_or (erc20_balanceOf p a wallet) 0),
                  sent l [Erc20BalanceOf a wallet])
    end.
Proof.
  unfold getSmartWalletTokenBalance, try_catch.
  destruct t as [|a]; rewrite ask_sent.
  - destruct (getBalance p wallet); reflexivity.
  - destruct (erc20_balanceOf p a wallet); reflexivity.
Qed.

(** X23. [getSmartWalletTokenBalance] never throws: a failed query is
    reported as a balance of zero.  For a token whose balance is a 256-bit
    number and which reports at most 80 decimals, the most
    [ethers.formatUnits] renders, the balance it reports is the one the
    pre-flight check of a transfer compares with: a transfer built by
    [createSendERC20Call] for more than the reported balance is rejected as
    insufficient, and one within it is never rejected for its amount, only
    if the simulation fails. *)
Theorem reported_balance_is_the_checked_one
  (p : provider) (wallet T R A : Z) (c : Call) (l0 l : log) :
  createSendERC20Call T R A = Ok c ->
  T <> wallet ->
  is_uint256 (answer_or (erc20_balanceOf p T wallet) 0) = true ->
  0 <= answer_or (erc20_decimals p T) 18 <= 80 ->
  exists shown,
    getSmartWalletTokenBalance p wallet (Token T) l0
    = (Ok shown, sent l0 [Erc20BalanceOf T wallet])
    /\ (shown < A ->
        exists e, fst (preflight p wallet c l) = Thrown e
                  /\ includes "Balance insufficiente" (message e) = true)
    /\ (A <= shown ->
        fst (preflight p wallet c l)
        = match eth_call p wallet T (data c) with
          | Ok _ => Ok tt
          | Thrown _ =>
              Thrown (Erc20SimulationFailedError
                        (answer_or (erc20_symbol p T) "UNKNOWN"%string))
          end).
Proof.
  intros Hc HT Hbal Hd.
  destruct (createSendERC20Call_Ok _ _ _ _ Hc) as (Hshape & Hdec & Hpre).
  assert (Ht : target c = T) by (rewrite Hshape; reflexivity).
  exists (answer_or (erc20_balanceOf p T wallet) 0).
  split; [apply (getSmartWalletTokenBalance_run p wallet (Token T))|].
  rewrite (Hpre p wallet HT).
  rewrite (preflightERC20_decoded _ _ _ _ _ _ Hdec
             (createSendERC20Call_amount _ _ _ _ Hc))
    by (rewrite Ht; first [exact Hbal | apply Hd]).
  cbv zeta. rewrite Ht. split.
  - intros Hlt.
    destruct (Z.ltb_spec (answer_or (erc20_balanceOf p T wallet) 0) A); [|lia].
    eexists. split; [reflexivity|]. apply Erc20InsufficientError_marker.
  - intros Hle.
    destruct (Z.ltb_spec (answer_or (erc20_balanceOf p T wallet) 0) A); [lia|].
    reflexivity.
Qed.

Lemma reported_balance_is_the_checked_one_witness :
  exists shown,
    getSmartWalletTokenBalance Cases.mute_token Scenario.wallet
      (Token Scenario.token) empty_log
    = (Ok shown, sent empty_log [Erc20BalanceOf Scenario.token Scenario.wallet])
    /\ (shown < 5 ->
        exists e,
          fst (preflight Cases.mute_token Scenario.wallet Scenario.transfer_call
                 empty_log) = Thrown e
          /\ includes "Balance insufficiente" (message e) = true)
    /\ (5 <= shown ->
        fst (preflight Cases.mute_token Scenario.wallet Scenario.transfer_call
               empty_log)
        = match eth_call Cases.mute_token Scenario.wallet Scenario.token
                  (data Scenario.transfer_call) with
          | Ok _ => Ok tt
          | Thrown _ =>
              Thrown (Erc20SimulationFailedError
                        (answer_or (erc20_symbol Cases.mute_token Scenario.token)
                           "UNKNOWN"%string))
          end).
Proof.
  apply (reported_balance_is_the_checked_one Cases.mute_token Scenario.wallet
           Scenario.token Scenario.friend 5 Scenario.transfer_call empty_log
           empty_log);
    [vm_compute; reflexivity | discriminate | reflexivity
    | vm_compute; split; discriminate].
Defined.

(** ** The wallet store *)

Lemma step_consistent (s : WalletStore.WalletState) (a : WalletStore.action) :
  WalletStore.consistent s -> WalletStore.consistent (WalletStore.step s a).
Proof.
  unfold WalletStore.consistent.
  intros (C1 & C2 & C3 & S1 & A1 & A2).
  destruct a as [a' k' n'|c r n|b|m|a'| |ws|t a'| ]; cbn.
  - (* setWallet *)
    assert (K : exists k, Some (WalletStore.or_one n') = Some k /\ k <> 0).
    { exists (WalletStore.or_one n'). split; [reflexivity|].
      unfold WalletStore.or_one. destruct n' as [k|]; [|discriminate].
      destruct (Z.eqb_spec k 0); [discriminate | assumption]. }
    intuition (try discriminate; try congruence).
  - intuition (try discriminate; try congruence).
  - intuition (try discriminate; try congruence).
  - intuition (try discriminate; try congruence).
  - intuition (try discriminate; try congruence).
  - intuition (try discriminate; try congruence).
  - intuition (try discriminate; try congruence).
  - (* setActiveWallet *)
    destruct t; [|destruct a' as [[|ch rest]|]]; cbn;
      intuition (try discriminate; try congruence).
  - (* disconnect *)
    intuition (try discriminate; try congruence).
Qed.

Lemma fold_consistent (calls : list WalletStore.action) (s : WalletStore.WalletState) :
  WalletStore.consistent s ->
  WalletStore.consistent (fold_left WalletStore.step calls s).
Proof.
  revert s. induction calls as [|a r IH]; intros s H; [exact H|].
  apply IH, step_consistent, H.
Qed.

Lemma initial_consistent : WalletStore.consistent WalletStore.initial.
Proof.
  unfold WalletStore.consistent. cbn.
  repeat split; solve [discriminate | intros; discriminate | intros; congruence].
Qed.

(** X24. Whatever methods are called on a fresh store, in whatever order:
    the store is connected exactly when it holds a signer address, a
    connected store holds a public key and a key slot that is not zero, a
    disconnected one holds neither; the smart-wallet flag is set exactly when
    a smart wallet address is configured; and the active wallet type is
    [smart] exactly when an active smart wallet address is held, which is
    then never the empty string. *)
Theorem store_stays_consistent (calls : list WalletStore.action) :
  WalletStore.consistent (WalletStore.after calls).
Proof. apply fold_consistent, initial_consistent. Qed.

(** X25. In every state the store can reach, [getActiveWalletAddress] is
    the active smart wallet address when the active type is [smart] (it is
    then not null and not the signer's address by fallback), and the
    signer's address otherwise; after [disconnect] it is null, while chain
    id, RPC URL, chain name and connection mode stay as they were. *)
Theorem active_wallet_address (calls : list WalletStore.action) :
  let s := WalletStore.after calls in
  WalletStore.getActiveWalletAddress s
  = match WalletStore.activeWalletType s with
    | WalletStore.smart => WalletStore.activeSmartWalletAddress s
    | WalletStore.burner => WalletStore.address s
    end
  /\ (WalletStore.activeWalletType s = WalletStore.smart ->
      exists a, WalletStore.getActiveWalletAddress s = Some a
                /\ a <> EmptyString)
  /\ WalletStore.getActiveWalletAddress (WalletStore.disconnect s) = None
  /\ WalletStore.chainId (WalletStore.disconnect s) = WalletStore.chainId s
  /\ WalletStore.rpcUrl (WalletStore.disconnect s) = WalletStore.rpcUrl s
  /\ WalletStore.chainName (WalletStore.disconnect s) = WalletStore.chainName s
  /\ WalletStore.connectionMode (WalletStore.disconnect s)
     = WalletStore.connectionMode s.
Proof.
  intros s. destruct (fold_consistent calls _ initial_consistent)
    as (_ & _ & _ & _ & A1 & A2).
  fold (WalletStore.after calls) in A1, A2. fold s in A1, A2.
  unfold WalletStore.getActiveWalletAddress.
  split.
  - destruct (WalletStore.activeWalletType s) eqn:T; [reflexivity|].
    rewrite A2.
    destruct (WalletStore.activeSmartWalletAddress s) eqn:E; [reflexivity|].
    destruct (proj1 A1 eq_refl eq_refl).
  - split; [|repeat split].
    intros T. rewrite T, A2.
    destruct (WalletStore.activeSmartWalletAddress s) as [a|] eqn:E.
    + exists a. split; [reflexivity|]. intros ->. cbn in A2. discriminate A2.
    + destruct (proj1 A1 T eq_refl).
Qed.

(** ** The list of saved tokens *)

Section SavedLists.

Variable toLowerCase : string -> string.

Lemma same_token_refl (n : SavedNFTs.NFT) :
  SavedNFTs.same_token toLowerCase (SavedNFTs.contractAddress n) (SavedNFTs.tokenId n) n = true.
Proof. unfold SavedNFTs.same_token. rewrite !String.eqb_refl. reflexivity. Qed.

Lemma same_token_sym (n m : SavedNFTs.NFT) :
  SavedNFTs.same_token toLowerCase (SavedNFTs.contractAddress n) (SavedNFTs.tokenId n) m
  = SavedNFTs.same_token toLowerCase (SavedNFTs.contractAddress m) (SavedNFTs.tokenId m) n.
Proof.
  unfold SavedNFTs.same_token.
  rewrite (String.eqb_sym (toLowerCase (SavedNFTs.contractAddress m))),
          (String.eqb_sym (SavedNFTs.tokenId m)).
  reflexivity.
Qed.

Lemma find_none_Forall {A} (f : A -> bool) (l : list A) :
  find f l = None <-> Forall (fun x => f x = false) l.
Proof.
  induction l as [|x r IH]; cbn [find].
  - split; [constructor | reflexivity].
  - destruct (f x) eqn:E.
    + split; [discriminate|]. intros H. inversion H; congruence.
    + rewrite IH. split; [intros H; constructor; assumption|].
      intros H. inversion H; assumption.
Qed.

Lemma distinct_app (l : list SavedNFTs.NFT) (n : SavedNFTs.NFT) :
  SavedNFTs.distinct toLowerCase l ->
  Forall (fun m => SavedNFTs.same_token toLowerCase (SavedNFTs.contractAddress n) (SavedNFTs.tokenId n) m
                   = false) l ->
  SavedNFTs.distinct toLowerCase (l ++ [n]).
Proof.
  induction l as [|x r IH]; intros D F.
  - cbn. split; [constructor | exact I].
  - cbn [app SavedNFTs.distinct] in *. destruct D as [Dx Dr].
    inversion F as [|? ? Fx Fr]; subst. split.
    + apply Forall_app. split; [exact Dx|]. constructor; [|constructor].
      rewrite same_token_sym. exact Fx.
    + apply IH; assumption.
Qed.

Lemma distinct_filter (f : SavedNFTs.NFT -> bool) (l : list SavedNFTs.NFT) :
  SavedNFTs.distinct toLowerCase l -> SavedNFTs.distinct toLowerCase (filter f l).
Proof.
  induction l as [|x r IH]; intros D; [exact I|].
  cbn [SavedNFTs.distinct] in D. destruct D as [Dx Dr]. cbn [filter].
  destruct (f x); [|apply IH, Dr].
  cbn [SavedNFTs.distinct]. split; [|apply IH, Dr].
  apply Forall_forall. intros m Hm. apply filter_In in Hm.
  rewrite Forall_forall in Dx. apply Dx, Hm.
Qed.

(** X26. Saving and removing keep the list free of doubles: if no two
    entries are the same token (same contract up to case, same token id),
    the same holds after [saveNFT] and after [removeNFT]; so it holds of
    every list built from the empty one. *)
Theorem saved_list_stays_distinct
  (l : list SavedNFTs.NFT) (error : option string)
  (info : option SavedNFTs.NFT) (c t : string) :
  SavedNFTs.distinct toLowerCase l ->
  SavedNFTs.distinct toLowerCase (fst (SavedNFTs.saveNFT toLowerCase l error info)) /\ SavedNFTs.distinct toLowerCase (SavedNFTs.removeNFT toLowerCase l c t).
Proof.
  intros D. split.
  - unfold SavedNFTs.saveNFT. destruct info as [n|]; [|exact D].
    destruct (find _ l) eqn:F; [exact D|].
    cbn [fst]. apply distinct_app; [exact D|].
    apply find_none_Forall, F.
  - apply distinct_filter, D.
Qed.

(** X27. After [removeNFT] no entry of the list is the token removed, and
    the entries kept are in their old order.  A token that is not in the
    list is appended by [saveNFT], which clears the error, and removing it
    again gives back the list as it was; a token that is in the list already
    is refused with the error and the list stays. *)
Theorem save_and_remove_round_trip
  (l : list SavedNFTs.NFT) (error : option string) (n : SavedNFTs.NFT)
  (c t : string) :
  find (SavedNFTs.same_token toLowerCase c t) (SavedNFTs.removeNFT toLowerCase l c t) = None
  /\ (find (SavedNFTs.same_token toLowerCase (SavedNFTs.contractAddress n) (SavedNFTs.tokenId n)) l
      = None ->
      SavedNFTs.saveNFT toLowerCase l error (Some n) = ((l ++ [n])%list, None)
      /\ SavedNFTs.removeNFT toLowerCase (l ++ [n]) (SavedNFTs.contractAddress n) (SavedNFTs.tokenId n)
         = l)
  /\ (forall m,
        find (SavedNFTs.same_token toLowerCase (SavedNFTs.contractAddress n) (SavedNFTs.tokenId n)) l
        = Some m ->
        SavedNFTs.saveNFT toLowerCase l error (Some n) = (l, Some "NFT già aggiunto"%string)).
Proof.
  split; [|split].
  - apply find_none_Forall, Forall_forall. intros m Hm.
    unfold SavedNFTs.removeNFT in Hm. apply filter_In in Hm.
    destruct Hm as [_ Hm]. apply Bool.negb_true_iff, Hm.
  - intros F. split.
    + unfold SavedNFTs.saveNFT. rewrite F. reflexivity.
    + unfold SavedNFTs.removeNFT. rewrite filter_app. cbn [filter].
      rewrite same_token_refl. cbn [negb]. rewrite app_nil_r.
      apply filter_all. apply find_none_Forall in F.
      eapply Forall_impl; [|exact F]. intros m Hm. cbv beta in Hm.
      rewrite Hm. reflexivity.
  - intros m F. unfold SavedNFTs.saveNFT. rewrite F. reflexivity.
Qed.

End SavedLists.

Lemma saved_list_stays_distinct_witness :
  SavedNFTs.distinct SavedNFTs.lower
    (fst (SavedNFTs.saveNFT SavedNFTs.lower [SavedNFTs.ape] None
            (Some SavedNFTs.punk)))
  /\ SavedNFTs.distinct SavedNFTs.lower
       (SavedNFTs.removeNFT SavedNFTs.lower [SavedNFTs.ape]
          (SavedNFTs.contractAddress SavedNFTs.ape) "7").
Proof.
  apply (saved_list_stays_distinct SavedNFTs.lower [SavedNFTs.ape] None
           (Some SavedNFTs.punk) (SavedNFTs.contractAddress SavedNFTs.ape) "7").
  cbn. split; [constructor | exact I].
Defined.
